(** * H&R assistant: the reconciliation engine of [plugins.v2/hitandrun]

    A shallow embedding of the engine of [HitAndRun] (file
    [plugins.v2/hitandrun/__init__.py]): configuration validation, the
    tag-based membership reconciliation, the obligation state machine, the
    retention policy, the check cycle and the ingestion of download events.

    Conventions of the embedding.
    - Python floats (seconds, hours, ratios) are exact rationals [Q]; only
      their order and the products by 3600 and 86400 are used.
    - An [Optional[float]] that the code tests ([is not None], truthiness) is
      an [option Q]; a number the code uses unguarded is a [Q].
    - [torrent_tasks], the persisted documents and [histories] are
      [gmap string _]: the order of these dictionaries shows only in the
      order of the messages a loop posts, and in which of several raising
      tasks a loop meets first; no statement below depends on either.
      [seeding_torrents_dict] is iterated, so it is an association list in
      insertion order.
    - Every [time.time()] reading is an argument of the function that takes
      it.
    - Log lines and the text of notifications are not state of the engine:
      notifications are recorded by title only, and of the code that builds
      a log line or a message text only the arithmetic that can raise is
      kept.  The formatting helpers of [helper.py] and [entities.py] are
      taken to return.
    - A call that can raise ends in an [Outcome], which carries what the
      call has left behind in either case, or in an [option] ([None] when it
      raises) where it leaves nothing behind. *)

From Stdlib Require Import QArith.
From stdpp Require Import gmap strings list fin_maps.

(** ** Numbers *)

(** [x < y] on Python floats, as a boolean. *)
Definition Qltb (x y : Q) : bool := negb (Qle_bool y x).

(** Python truthiness of an [Optional[float]]: [None] and [0.0] are false. *)
Definition truthy (o : option Q) : bool :=
  match o with
  | Some q => negb (Qeq_bool q 0)
  | None => false
  end.

(** ** Entities *)

Module HNRStatus.
(** Modelled from the spec: the enumeration [HNRStatus] of [entities.py]
    (section 4.3 lists its six states). *)
Inductive t : Set :=
| PENDING | UNRESTRICTED | IN_PROGRESS | COMPLIANT | OVERDUE | NEEDS_SEEDING.

Definition eqb (a b : t) : bool :=
  match a, b with
  | PENDING, PENDING | UNRESTRICTED, UNRESTRICTED
  | IN_PROGRESS, IN_PROGRESS | COMPLIANT, COMPLIANT
  | OVERDUE, OVERDUE | NEEDS_SEEDING, NEEDS_SEEDING => true
  | _, _ => false
  end.
End HNRStatus.

Module TaskType.
(** Modelled from the spec: the task origin (normal download,
    subscription, promotional seeding). *)
Inductive t : Set := NORMAL | RSS_SUBSCRIBE | BRUSH.
End TaskType.

Module TorrentInfo.
(** Modelled from the spec: the descriptor an ingestion event carries
    (section 6: title, size, description, site), a [TorrentInfo] of the
    host application or a dictionary with its fields, reduced to the
    fields the engine copies into its records. *)
Record t : Set := mk {
  site : Z;
  site_name : string;
  title : string;
  description : string;
  size : Q;
  hit_and_run : bool
}.
End TorrentInfo.

Module TorrentHistory.
(** Modelled from the spec: [TorrentHistory] of [entities.py], the record
    of the original ingestion event of a hash. *)
Record t : Set := mk {
  site : Z;
  site_name : string;
  title : string;
  description : string;
  size : Q;
  time : Q;
  hash : string;
  task_type : TaskType.t;
  hit_and_run : bool
}.
End TorrentHistory.

Module TorrentTask.
(** Modelled from the spec: [TorrentTask] of [entities.py] (section 3):
    the fields of a history record, then the obligation state. *)
Record t : Set := mk {
  site : Z;
  site_name : string;
  title : string;
  description : string;
  size : Q;
  time : Q;
  hash : string;
  task_type : TaskType.t;
  hit_and_run : bool;
  hr_status : HNRStatus.t;
  hr_ratio : Q;
  hr_duration : option Q;
  hr_deadline_days : Q;
  ratio : option Q;
  downloaded : Q;
  uploaded : Q;
  seeding_time : option Q;
  deleted : bool;
  deleted_time : option Q;
  hr_met_time : option Q
}.

(** Modelled from the spec: the derived deadline timestamp, creation time
    plus deadline days times 86400 seconds (section 4.3). *)
Definition deadline_time (x : t) : Q := (time x + hr_deadline_days x * 86400)%Q.

(** Attribute assignments. *)
Definition set_hit_and_run (v : bool) (x : t) : t :=
  mk (site x) (site_name x) (title x) (description x) (size x) (time x)
     (hash x) (task_type x) v (hr_status x) (hr_ratio x) (hr_duration x)
     (hr_deadline_days x) (ratio x) (downloaded x) (uploaded x)
     (seeding_time x) (deleted x) (deleted_time x) (hr_met_time x).

Definition set_hr_status (v : HNRStatus.t) (x : t) : t :=
  mk (site x) (site_name x) (title x) (description x) (size x) (time x)
     (hash x) (task_type x) (hit_and_run x) v (hr_ratio x) (hr_duration x)
     (hr_deadline_days x) (ratio x) (downloaded x) (uploaded x)
     (seeding_time x) (deleted x) (deleted_time x) (hr_met_time x).

Definition set_requirements (r : Q) (d : option Q) (days : Q) (x : t) : t :=
  mk (site x) (site_name x) (title x) (description x) (size x) (time x)
     (hash x) (task_type x) (hit_and_run x) (hr_status x) r d
     days (ratio x) (downloaded x) (uploaded x)
     (seeding_time x) (deleted x) (deleted_time x) (hr_met_time x).

Definition set_stats (dl ul : Q) (r s : option Q) (x : t) : t :=
  mk (site x) (site_name x) (title x) (description x) (size x) (time x)
     (hash x) (task_type x) (hit_and_run x) (hr_status x) (hr_ratio x)
     (hr_duration x) (hr_deadline_days x) r dl ul
     s (deleted x) (deleted_time x) (hr_met_time x).

Definition set_deleted (v : bool) (x : t) : t :=
  mk (site x) (site_name x) (title x) (description x) (size x) (time x)
     (hash x) (task_type x) (hit_and_run x) (hr_status x) (hr_ratio x)
     (hr_duration x) (hr_deadline_days x) (ratio x) (downloaded x)
     (uploaded x) (seeding_time x) v (deleted_time x) (hr_met_time x).

Definition set_deleted_time (v : option Q) (x : t) : t :=
  mk (site x) (site_name x) (title x) (description x) (size x) (time x)
     (hash x) (task_type x) (hit_and_run x) (hr_status x) (hr_ratio x)
     (hr_duration x) (hr_deadline_days x) (ratio x) (downloaded x)
     (uploaded x) (seeding_time x) (deleted x) v (hr_met_time x).

Definition set_hr_met_time (v : option Q) (x : t) : t :=
  mk (site x) (site_name x) (title x) (description x) (size x) (time x)
     (hash x) (task_type x) (hit_and_run x) (hr_status x) (hr_ratio x)
     (hr_duration x) (hr_deadline_days x) (ratio x) (downloaded x)
     (uploaded x) (seeding_time x) (deleted x) (deleted_time x) v.

(** Modelled from the spec: a task built from a descriptor starts in
    [PENDING] with no requirement copied, default live statistics and no
    deletion mark; its creation time is the instant of creation. *)
Definition of_fields (site : Z) (site_name title description : string)
    (size time : Q) (hash : string) (task_type : TaskType.t)
    (hit_and_run : bool) : t :=
  mk site site_name title description size time hash task_type hit_and_run
     HNRStatus.PENDING 0 None 0 (Some 0%Q) 0 0 (Some 0%Q) false None None.
End TorrentTask.

(** ** Configuration *)

Module NotifyMode.
(** Modelled from the spec: the notification mode of [hnrconfig.py], a
    three-way switch (silent, warnings only, all). *)
Inductive t : Set := NONE | ON_ERROR | ALWAYS.
End NotifyMode.

Module SiteConfig.
(** Modelled from the spec: [SiteConfig] of [hnrconfig.py], here the
    effective settings [get_site_config] returns for a site (section 4.1).
    The additional seed time and the forced flag are the two the engine
    tests for a value. *)
Record t : Set := mk {
  hr_active : bool;
  hr_ratio : Q;
  hr_duration : option Q;
  hr_deadline_days : Q;
  additional_seed_time : option Q
}.
End SiteConfig.

Module HNRConfig.
(** Modelled from the spec: [HNRConfig] of [hnrconfig.py], by the fields
    the engine reads.  Its method [get_site_config] is a field here, so
    every result below holds for any resolution of the per-site
    overrides. *)
Record t : Type := mk {
  enabled : bool;
  onlyonce : bool;
  notify : NotifyMode.t;
  downloader : string;
  hit_and_run_tag : string;
  sites : list Z;
  hr_ratio : Q;
  hr_duration : Q;
  hr_deadline_days : Q;
  auto_cleanup_days : Q;
  get_site_config : string -> SiteConfig.t
}.

Definition set_onlyonce (v : bool) (c : t) : t :=
  mk (enabled c) v (notify c) (downloader c) (hit_and_run_tag c) (sites c)
     (hr_ratio c) (hr_duration c) (hr_deadline_days c)
     (auto_cleanup_days c) (get_site_config c).

Definition set_sites (v : list Z) (c : t) : t :=
  mk (enabled c) (onlyonce c) (notify c) (downloader c) (hit_and_run_tag c) v
     (hr_ratio c) (hr_duration c) (hr_deadline_days c)
     (auto_cleanup_days c) (get_site_config c).
End HNRConfig.

(** ** The download client *)

Module Torrent.
(** Modelled from the spec: a torrent of the client as the adapter
    [TorrentHelper] of [helper.py] exposes it (section 6): its hash and
    tags, the entries of [get_torrent_info] ([None] when the key is absent)
    and the site [get_site_by_torrent] finds for it (an empty name when it
    finds none). *)
Record t : Set := mk {
  hash : string;
  tags : list string;
  title : option string;
  total_size : option Q;
  add_on : option Q;
  ratio : option Q;
  downloaded : option Q;
  uploaded : option Q;
  seeding_time : option Q;
  site_id : Z;
  site_name : string
}.

Definition set_tags (v : list string) (x : t) : t :=
  mk (hash x) v (title x) (total_size x) (add_on x) (ratio x) (downloaded x)
     (uploaded x) (seeding_time x) (site_id x) (site_name x).
End Torrent.

Module Downloader.
(** Modelled from the spec: the client behind [torrent_helper]
    (section 6: enumerate torrents, add a tag by hash, remove a tag by
    hash), by its torrents and by whether its tag calls currently raise. *)
Record t : Set := mk {
  torrents : list Torrent.t;
  tag_calls_raise : bool
}.

(** [get_torrents(torrent_hashes=h)]. *)
Definition get_torrents (h : string) (d : t) : list Torrent.t :=
  filter (λ x, Torrent.hash x = h) (torrents d).

(** [set_torrent_tag(torrent_hash=h, tags=v)]. *)
Definition set_torrent_tag (h : string) (v : list string) (d : t) : t :=
  mk (map (λ x, if decide (Torrent.hash x = h) then Torrent.set_tags v x else x)
          (torrents d))
     (tag_calls_raise d).

(** [remove_torrent_tag(torrent_hash=h, tags=[tag])]. *)
Definition remove_torrent_tag (h tag : string) (d : t) : t :=
  mk (map (λ x, if decide (Torrent.hash x = h)
                then Torrent.set_tags (filter (λ g, g ≠ tag) (Torrent.tags x)) x
                else x)
          (torrents d))
     (tag_calls_raise d).
End Downloader.

Module ServiceInfo.
(** The service of the host application that the property [service_info]
    resolves: its name and whether [is_downloader("qbittorrent", _)] holds
    of it. *)
Record t : Set := mk {
  name : string;
  is_qbittorrent : bool
}.
End ServiceInfo.

(** ** Python dictionaries in insertion order *)

Fixpoint dict_set {V : Type} (k : string) (v : V) (d : list (string * V))
    : list (string * V) :=
  match d with
  | [] => [(k, v)]
  | (k', v') :: d' =>
      if decide (k = k') then (k, v) :: d' else (k', v') :: dict_set k v d'
  end.

Fixpoint dict_get {V : Type} (k : string) (d : list (string * V)) : option V :=
  match d with
  | [] => None
  | (k', v') :: d' => if decide (k = k') then Some v' else dict_get k d'
  end.

(** [{get_torrent_hashes(torrent): torrent for torrent in seeding_torrents}] *)
Definition seeding_torrents_dict (seeding_torrents : list Torrent.t)
    : list (string * Torrent.t) :=
  fold_left (λ d torrent, dict_set (Torrent.hash torrent) torrent d)
            seeding_torrents [].

(** ** Notifications *)

Inductive Notice : Set :=
| SiteMessage (title : string) (hashes : list string)
| SystemMessage (title : string).

Definition python_or_zero (o : option Q) : Q :=
  match o with
  | Some q => if Qeq_bool q 0 then 0%Q else q
  | None => 0%Q
  end.

(** ** Calls that may raise *)

(** How a call ends, with the state it leaves. *)
Inductive Outcome (A : Type) : Type :=
| Returned (a : A)
| Raised (a : A).

Arguments Returned {A} a.
Arguments Raised {A} a.

Definition state_after {A : Type} (o : Outcome A) : A :=
  match o with Returned a => a | Raised a => a end.

Definition returns {A : Type} (o : Outcome A) : bool :=
  match o with Returned _ => true | Raised _ => false end.

Section Engine.

(** The runtime configuration [self._hnr_config] of an enabled engine. *)
Variable cfg : HNRConfig.t.

Definition __get_site_config (site_name : string) : SiteConfig.t :=
  HNRConfig.get_site_config cfg site_name.

(** [__log_torrent_hr_status]: before it logs, it adds the additional seed
    time to [torrent_task.hr_duration]; [None] is the [TypeError] of that
    sum for a task without [hr_duration]. *)
Definition __log_torrent_hr_status (torrent_task : TorrentTask.t)
    : option unit :=
  match TorrentTask.hr_duration torrent_task with
  | Some _ => Some ()
  | None => None
  end.

(** [__build_hr_message_text]: for a status other than IN_PROGRESS and
    PENDING it divides [seeding_time] by 3600 and adds to [hr_duration];
    [None] is the [TypeError] of either on a missing value. *)
Definition __build_hr_message_text (torrent_task : TorrentTask.t)
    : option unit :=
  if HNRStatus.eqb (TorrentTask.hr_status torrent_task) HNRStatus.IN_PROGRESS
     || HNRStatus.eqb (TorrentTask.hr_status torrent_task) HNRStatus.PENDING
  then Some ()
  else
    match TorrentTask.seeding_time torrent_task,
          TorrentTask.hr_duration torrent_task with
    | Some _, Some _ => Some ()
    | _, _ => None
    end.

(** [__send_hr_message]: the messages it posts; [None] when the text of the
    message it is about to post cannot be built. *)
Definition __send_hr_message (torrent_task : TorrentTask.t) (title : string)
    (warn : bool) : option (list Notice) :=
  let message :=
    match __build_hr_message_text torrent_task with
    | Some _ => Some [SiteMessage title [TorrentTask.hash torrent_task]]
    | None => None
    end in
  match HNRConfig.notify cfg with
  | NotifyMode.ALWAYS => message
  | NotifyMode.ON_ERROR => if warn then message else Some []
  | NotifyMode.NONE => Some []
  end.

(** [__log_and_send_torrent_task_update_message] *)
Definition __log_and_send_torrent_task_update_message (title : string)
    (torrent_tasks : list TorrentTask.t) : list Notice :=
  match HNRConfig.notify cfg, torrent_tasks with
  | NotifyMode.ALWAYS, _ :: _ =>
      [SiteMessage title (map TorrentTask.hash torrent_tasks)]
  | _, _ => []
  end.

(** [__update_hit_and_run_tag]: best effort, a raising client call is
    swallowed. *)
Definition __update_hit_and_run_tag (torrent_task : TorrentTask.t) (add : bool)
    (d : Downloader.t) : Downloader.t :=
  if decide (TorrentTask.hash torrent_task = "") then d
  else if negb (TorrentTask.hit_and_run torrent_task) then d
  else
    match Downloader.get_torrents (TorrentTask.hash torrent_task) d with
    | [] => d
    | torrent :: _ =>
        if Downloader.tag_calls_raise d then d
        else
          let tags := Torrent.tags torrent in
          let hnr_tag := HNRConfig.hit_and_run_tag cfg in
          if add then
            if decide (hnr_tag ∈ tags) then d
            else Downloader.set_torrent_tag (TorrentTask.hash torrent_task)
                   (tags ++ [hnr_tag]) d
          else
            if decide (hnr_tag ∈ tags)
            then Downloader.remove_torrent_tag (TorrentTask.hash torrent_task)
                   hnr_tag d
            else d
    end.

Definition __set_hit_and_run_tag (torrent_task : TorrentTask.t)
    : Downloader.t -> Downloader.t :=
  __update_hit_and_run_tag torrent_task true.

Definition __remove_hit_and_run_tag (torrent_task : TorrentTask.t)
    : Downloader.t -> Downloader.t :=
  __update_hit_and_run_tag torrent_task false.

(** *** StatusEvaluator *)

Definition __meets_hr_requirements (torrent_task : TorrentTask.t)
    (additional_seed_time required_ratio : Q) : bool :=
  let seeding_time_ok :=
    match TorrentTask.seeding_time torrent_task,
          TorrentTask.hr_duration torrent_task with
    | Some seeding_time, Some hr_duration =>
        Qltb ((hr_duration + additional_seed_time) * 3600) seeding_time
    | _, _ => false
    end in
  let ratio_ok :=
    match TorrentTask.ratio torrent_task with
    | Some ratio => Qltb required_ratio ratio
    | None => false
    end in
  seeding_time_ok || ratio_ok.

Definition __init_hr_status (torrent_task : TorrentTask.t) : TorrentTask.t :=
  let site_config := __get_site_config (TorrentTask.site_name torrent_task) in
  let torrent_task :=
    if SiteConfig.hr_active site_config
    then TorrentTask.set_hit_and_run true torrent_task
    else torrent_task in
  if TorrentTask.hit_and_run torrent_task then
    TorrentTask.set_hr_status HNRStatus.IN_PROGRESS
      (TorrentTask.set_requirements
         (SiteConfig.hr_ratio site_config)
         (SiteConfig.hr_duration site_config)
         (SiteConfig.hr_deadline_days site_config) torrent_task)
  else TorrentTask.set_hr_status HNRStatus.UNRESTRICTED torrent_task.

(** What one call of [__update_hr_status] leaves behind: the task as
    mutated, the tag call it made on the client, the messages it posted,
    and whether it ended by raising. *)
Record Evaluation : Set := mkEvaluation {
  task : TorrentTask.t;
  untag : option TorrentTask.t;
  posted : list Notice;
  raised : bool
}.

(** The end of a call of [__update_hr_status] that reached a branch: the
    message of the branch, if it sends one, then the log line. *)
Definition report (torrent_task : TorrentTask.t)
    (untag : option TorrentTask.t) (message : option (list Notice))
    : Evaluation :=
  match message with
  | None => mkEvaluation torrent_task untag [] true
  | Some notices =>
      mkEvaluation torrent_task untag notices
        match __log_torrent_hr_status torrent_task with
        | Some _ => false
        | None => true
        end
  end.

(** [__update_hr_status]; [now] is the reading of [time.time()] the branch
    taken makes. *)
Definition __update_hr_status (now : Q) (torrent_task : TorrentTask.t)
    : Evaluation :=
  if negb (TorrentTask.hit_and_run torrent_task) then
    mkEvaluation torrent_task None [] false
  else if negb (HNRStatus.eqb (TorrentTask.hr_status torrent_task)
                              HNRStatus.IN_PROGRESS) then
    mkEvaluation torrent_task None [] false
  else
    let site_config := __get_site_config (TorrentTask.site_name torrent_task) in
    let additional_seed_time :=
      python_or_zero (SiteConfig.additional_seed_time site_config) in
    let meets_requirements :=
      __meets_hr_requirements torrent_task additional_seed_time
        (TorrentTask.hr_ratio torrent_task) in
    if meets_requirements then
      let torrent_task :=
        TorrentTask.set_hr_met_time (Some now)
          (TorrentTask.set_hr_status HNRStatus.COMPLIANT torrent_task) in
      report torrent_task (Some torrent_task)
        (__send_hr_message torrent_task "【H&R种子任务已完成】" false)
    else if Qltb (TorrentTask.deadline_time torrent_task) now then
      let torrent_task :=
        TorrentTask.set_hr_status HNRStatus.OVERDUE torrent_task in
      report torrent_task None
        (__send_hr_message torrent_task "【H&R种子任务已过期】" true)
    else if TorrentTask.deleted torrent_task then
      let torrent_task :=
        TorrentTask.set_hr_status HNRStatus.NEEDS_SEEDING torrent_task in
      report torrent_task None
        (__send_hr_message torrent_task "【H&R种子任务需要做种】" true)
    else report torrent_task None (Some []).

(** *** TagSynchronizer *)

(** [TorrentTask.parse_obj(torrent_history.to_dict())] *)
Definition task_of_history (torrent_history : TorrentHistory.t) : TorrentTask.t :=
  TorrentTask.of_fields
    (TorrentHistory.site torrent_history)
    (TorrentHistory.site_name torrent_history)
    (TorrentHistory.title torrent_history)
    (TorrentHistory.description torrent_history)
    (TorrentHistory.size torrent_history)
    (TorrentHistory.time torrent_history)
    (TorrentHistory.hash torrent_history)
    (TorrentHistory.task_type torrent_history)
    (TorrentHistory.hit_and_run torrent_history).

(** [__convert_torrent_info_to_task]; [None] is the Python [None] it
    returns for a torrent without hash, or without history and site. *)
Definition __convert_torrent_info_to_task (now : Q) (torrent : Torrent.t)
    (histories : gmap string TorrentHistory.t) : option TorrentTask.t :=
  let torrent_hash := Torrent.hash torrent in
  if decide (torrent_hash = "") then None
  else
    let parsed :=
      match histories !! torrent_hash with
      | Some torrent_history => Some (task_of_history torrent_history)
      | None =>
          if decide (Torrent.site_name torrent = "") then None
          else Some (TorrentTask.of_fields
                       (Torrent.site_id torrent)
                       (Torrent.site_name torrent)
                       (default "" (Torrent.title torrent))
                       ""
                       (default 0%Q (Torrent.total_size torrent))
                       (default now (Torrent.add_on torrent))
                       torrent_hash
                       TaskType.NORMAL
                       true)
      end in
    match parsed with
    | None => None
    | Some torrent_task =>
        Some (__init_hr_status (TorrentTask.set_hit_and_run true torrent_task))
    end.

(** The three summaries the reconciliation loop accumulates. *)
Record TagDiff : Set := mkTagDiff {
  added_tasks : list TorrentTask.t;
  reset_tasks : list TorrentTask.t;
  removed_tasks : list TorrentTask.t
}.

Definition no_diff : TagDiff := mkTagDiff [] [] [].

(** One iteration of the loop over [seeding_torrents_dict.items()].  The
    result [None] is the [AttributeError] raised when the task converted
    for a tagged, untracked torrent is [None] and the next line reads its
    [site_name]. *)
Definition reconcile_entry (now : string -> Q)
    (histories : gmap string TorrentHistory.t)
    (state : gmap string TorrentTask.t * TagDiff)
    (entry : string * Torrent.t)
    : option (gmap string TorrentTask.t * TagDiff) :=
  let torrent_tasks := state.1 in
  let diff := state.2 in
  let torrent_hash := entry.1 in
  let torrent := entry.2 in
  if decide (HNRConfig.hit_and_run_tag cfg ∈ Torrent.tags torrent) then
    match torrent_tasks !! torrent_hash with
    | None =>
        match __convert_torrent_info_to_task (now torrent_hash) torrent
                histories with
        | None => None
        | Some torrent_task =>
            Some (<[torrent_hash := torrent_task]> torrent_tasks,
                  mkTagDiff (added_tasks diff ++ [torrent_task])
                            (reset_tasks diff) (removed_tasks diff))
        end
    | Some torrent_task =>
        if TorrentTask.deleted torrent_task then
          let torrent_task := TorrentTask.set_deleted false torrent_task in
          Some (<[torrent_hash := torrent_task]> torrent_tasks,
                mkTagDiff (added_tasks diff)
                          (reset_tasks diff ++ [torrent_task])
                          (removed_tasks diff))
        else Some state
    end
  else
    match torrent_tasks !! torrent_hash with
    | Some torrent_task =>
        if HNRStatus.eqb (TorrentTask.hr_status torrent_task)
                         HNRStatus.COMPLIANT
        then Some state
        else Some (delete torrent_hash torrent_tasks,
                   mkTagDiff (added_tasks diff) (reset_tasks diff)
                             (removed_tasks diff ++ [torrent_task]))
    | None => Some state
    end.

Fixpoint reconcile_loop (now : string -> Q)
    (histories : gmap string TorrentHistory.t)
    (entries : list (string * Torrent.t))
    (state : gmap string TorrentTask.t * TagDiff)
    : option (gmap string TorrentTask.t * TagDiff) :=
  match entries with
  | [] => Some state
  | entry :: entries =>
      match reconcile_entry now histories state entry with
      | None => None
      | Some state => reconcile_loop now histories entries state
      end
  end.

(** [downloader_helper.is_downloader("qbittorrent", self.service_info)] *)
Definition is_qbittorrent (service_info : option ServiceInfo.t) : bool :=
  match service_info with
  | Some service => ServiceInfo.is_qbittorrent service
  | None => false
  end.

(** What [__update_seeding_tasks_based_on_tags] leaves behind:
    [torrent_tasks] as mutated, the three summaries, the messages posted and
    whether it saved [torrent_tasks] under the key "torrents". *)
Record TagSync : Set := mkTagSync {
  tasks : gmap string TorrentTask.t;
  diff : TagDiff;
  notices : list Notice;
  is_modified : bool
}.

Definition nonempty {A : Type} (l : list A) : bool :=
  match l with [] => false | _ :: _ => true end.

(** [__update_seeding_tasks_based_on_tags]; [None] when it raises. *)
Definition __update_seeding_tasks_based_on_tags
    (service_info : option ServiceInfo.t) (now : string -> Q)
    (torrent_tasks : gmap string TorrentTask.t)
    (histories : gmap string TorrentHistory.t)
    (seeding_torrents_dict : list (string * Torrent.t)) : option TagSync :=
  if negb (is_qbittorrent service_info) then
    Some (mkTagSync torrent_tasks no_diff [] false)
  else
    match reconcile_loop now histories seeding_torrents_dict
            (torrent_tasks, no_diff) with
    | None => None
    | Some (torrent_tasks, diff) =>
        Some (mkTagSync torrent_tasks diff
                (__log_and_send_torrent_task_update_message
                   "【H&R种子任务加入】" (added_tasks diff)
                 ++ __log_and_send_torrent_task_update_message
                      "【H&R种子任务移除】" (removed_tasks diff)
                 ++ __log_and_send_torrent_task_update_message
                      "【H&R任务状态更新】" (reset_tasks diff))
                (nonempty (added_tasks diff) || nonempty (removed_tasks diff)
                 || nonempty (reset_tasks diff)))
    end.

(** The comprehension [[h for h in missing_hashes if not
    torrent_tasks[h].deleted]]; [None] is the [KeyError] of a hash that is
    not a key. *)
Fixpoint undeleted_hashes (torrent_tasks : gmap string TorrentTask.t)
    (missing_hashes : list string) : option (list string) :=
  match missing_hashes with
  | [] => Some []
  | hash_value :: missing_hashes =>
      match torrent_tasks !! hash_value with
      | None => None
      | Some torrent_task =>
          match undeleted_hashes torrent_tasks missing_hashes with
          | None => None
          | Some rest =>
              Some (if TorrentTask.deleted torrent_task then rest
                    else hash_value :: rest)
          end
      end
  end.

(** The body of the loop that marks one task deleted. *)
Definition mark_deleted (now : Q) (torrent_task : TorrentTask.t) : TorrentTask.t :=
  TorrentTask.set_deleted_time (Some now)
    (TorrentTask.set_deleted true torrent_task).

Definition deleted_warning (torrent_task : TorrentTask.t) : bool :=
  negb (HNRStatus.eqb (TorrentTask.hr_status torrent_task) HNRStatus.COMPLIANT
        || HNRStatus.eqb (TorrentTask.hr_status torrent_task)
                         HNRStatus.UNRESTRICTED).

(** The loop over [undeleted_hashes]: each task is marked, then logged,
    then announced; the loop stops at the first call that raises, with the
    tasks marked and the messages posted so far. *)
Fixpoint mark_loop (now : string -> Q) (undeleted : list string)
    (state : gmap string TorrentTask.t * list Notice)
    : Outcome (gmap string TorrentTask.t * list Notice) :=
  match undeleted with
  | [] => Returned state
  | hash_value :: undeleted =>
      match state.1 !! hash_value with
      | None => Raised state
      | Some torrent_task =>
          let torrent_task := mark_deleted (now hash_value) torrent_task in
          let torrent_tasks := <[hash_value := torrent_task]> state.1 in
          match __log_torrent_hr_status torrent_task with
          | None => Raised (torrent_tasks, state.2)
          | Some _ =>
              match __send_hr_message torrent_task "【H&R种子任务已删除】"
                      (deleted_warning torrent_task) with
              | None => Raised (torrent_tasks, state.2)
              | Some notices =>
                  mark_loop now undeleted (torrent_tasks, state.2 ++ notices)
              end
          end
      end
  end.

(** [__update_undeleted_torrents_missing_in_downloader]: [torrent_tasks]
    as it leaves it and the messages it posted.  It raises when the
    comprehension does, or when the log line or the message of a task it
    has just marked does. *)
Definition __update_undeleted_torrents_missing_in_downloader
    (now : string -> Q) (torrent_tasks : gmap string TorrentTask.t)
    (torrent_check_hashes : list string) (torrents : list Torrent.t)
    : Outcome (gmap string TorrentTask.t * list Notice) :=
  let torrent_all_hashes := Torrent.hash <$> torrents in
  let missing_hashes :=
    filter (λ hash_value, hash_value ∉ torrent_all_hashes)
           torrent_check_hashes in
  match undeleted_hashes torrent_tasks missing_hashes with
  | None => Raised (torrent_tasks, [])
  | Some undeleted => mark_loop now undeleted (torrent_tasks, [])
  end.

(** The four assignments of [__update_torrent_tasks_state]. *)
Definition refresh (torrent : Torrent.t) (torrent_task : TorrentTask.t)
    : TorrentTask.t :=
  TorrentTask.set_stats
    (default 0%Q (Torrent.downloaded torrent))
    (default 0%Q (Torrent.uploaded torrent))
    (Some (default 0%Q (Torrent.ratio torrent)))
    (Some (default 0%Q (Torrent.seeding_time torrent)))
    torrent_task.

Definition __update_torrent_tasks_state (torrents : list Torrent.t)
    (torrent_tasks : gmap string TorrentTask.t) : gmap string TorrentTask.t :=
  fold_left
    (λ torrent_tasks torrent,
       match torrent_tasks !! Torrent.hash torrent with
       | None => torrent_tasks
       | Some torrent_task =>
           <[Torrent.hash torrent := refresh torrent torrent_task]>
             torrent_tasks
       end)
    torrents torrent_tasks.

(** *** Cleaner *)

(** [o and current_time - o > cleanup_threshold_seconds] *)
Definition set_and_older (o : option Q) (current_time threshold : Q) : bool :=
  match o with
  | Some at_time => truthy o && Qltb threshold (current_time - at_time)
  | None => false
  end.

(** The four scenarios of the loop of [__auto_cleanup], in its order. *)
Definition cleanup_scenario (current_time cleanup_threshold_seconds : Q)
    (torrent_task : TorrentTask.t) : bool :=
  if HNRStatus.eqb (TorrentTask.hr_status torrent_task) HNRStatus.COMPLIANT
     && set_and_older (TorrentTask.hr_met_time torrent_task) current_time
          cleanup_threshold_seconds
  then true
  else if HNRStatus.eqb (TorrentTask.hr_status torrent_task)
            HNRStatus.COMPLIANT
          && negb (truthy (TorrentTask.hr_met_time torrent_task))
  then true
  else if TorrentTask.deleted torrent_task
          && set_and_older (TorrentTask.deleted_time torrent_task)
               current_time cleanup_threshold_seconds
  then true
  else TorrentTask.deleted torrent_task
       && negb (truthy (TorrentTask.deleted_time torrent_task)).

(** [__auto_cleanup]: [torrent_tasks] as it leaves it.  The loop logs
    every task it selects before it adds it to [tasks_to_remove], and the
    deletions come after the loop: when a log line raises, nothing has been
    removed. *)
Definition __auto_cleanup (current_time : Q)
    (torrent_tasks : gmap string TorrentTask.t)
    : Outcome (gmap string TorrentTask.t) :=
  if Qle_bool (HNRConfig.auto_cleanup_days cfg) 0 then Returned torrent_tasks
  else
    let cleanup_threshold_seconds :=
      (HNRConfig.auto_cleanup_days cfg * 86400)%Q in
    let selected :=
      filter (λ item, cleanup_scenario current_time cleanup_threshold_seconds
                        item.2 = true)
             torrent_tasks in
    if decide (map_Forall (λ _ torrent_task,
                             is_Some (__log_torrent_hr_status torrent_task))
                          selected)
    then
      let tasks_to_remove : gset string := dom selected in
      Returned (foldr delete torrent_tasks (elements tasks_to_remove))
    else Raised torrent_tasks.

(** *** The check cycle *)

(** The state of the plugin the engine reads and writes: the documents saved
    under the keys "torrents" and "downloads", the client, and the messages
    posted so far. *)
Record Plugin : Type := mkPlugin {
  data_torrents : gmap string TorrentTask.t;
  data_downloads : gmap string TorrentHistory.t;
  client : Downloader.t;
  outbox : list Notice
}.

(** The readings of [time.time()] during one check cycle, by call site (and
    by hash inside a loop). *)
Record Clock : Set := mkClock {
  at_added : string -> Q;
  at_deleted : string -> Q;
  at_evaluation : string -> Q;
  at_cleanup : Q
}.

(** The loop [for torrent_task in torrent_tasks.values()] over
    [__update_hr_status]. *)
Definition evaluations (now : string -> Q)
    (torrent_tasks : gmap string TorrentTask.t) : gmap string Evaluation :=
  map_imap (λ torrent_hash torrent_task,
              Some (__update_hr_status (now torrent_hash) torrent_task))
           torrent_tasks.

(** [check].  Only the reconciliation and the last line save
    [torrent_tasks]; the steps between them work on the dictionary in
    memory, so a cycle that raises after the reconciliation leaves the
    document "torrents" as the reconciliation left it.  A call of
    [__update_hr_status] that raises is caught in the loop. *)
Definition check (service_info : option ServiceInfo.t) (clock : Clock)
    (p : Plugin) : Outcome Plugin :=
  match service_info with
  | None => Returned p
  | Some _ =>
      let torrent_tasks := data_torrents p in
      let histories := data_downloads p in
      let seeding_torrents := Downloader.torrents (client p) in
      let seeding_torrents_dict := seeding_torrents_dict seeding_torrents in
      match __update_seeding_tasks_based_on_tags service_info
              (at_added clock) torrent_tasks histories
              seeding_torrents_dict with
      | None => Raised p
      | Some sync =>
          let p :=
            mkPlugin (if is_modified sync then tasks sync else data_torrents p)
                     (data_downloads p) (client p)
                     (outbox p ++ notices sync) in
          let torrent_tasks := tasks sync in
          let torrent_check_hashes := (map_to_list torrent_tasks).*1 in
          if negb (nonempty torrent_check_hashes) then Returned p
          else
            let check_torrents :=
              omap (λ th, dict_get th seeding_torrents_dict)
                   torrent_check_hashes in
            match __update_undeleted_torrents_missing_in_downloader
                    (at_deleted clock) torrent_tasks torrent_check_hashes
                    check_torrents with
            | Raised (_, deleted_notices) =>
                Raised (mkPlugin (data_torrents p) (data_downloads p)
                          (client p) (outbox p ++ deleted_notices))
            | Returned (torrent_tasks, deleted_notices) =>
                let torrent_tasks :=
                  __update_torrent_tasks_state check_torrents torrent_tasks in
                let results :=
                  (map_to_list
                     (evaluations (at_evaluation clock) torrent_tasks)).*2 in
                let torrent_tasks :=
                  task <$> evaluations (at_evaluation clock) torrent_tasks in
                let p :=
                  mkPlugin (data_torrents p) (data_downloads p)
                    (fold_left (λ d torrent_task,
                                  __remove_hit_and_run_tag torrent_task d)
                               (omap untag results) (client p))
                    (outbox p ++ deleted_notices
                     ++ concat (map posted results)) in
                match __auto_cleanup (at_cleanup clock) torrent_tasks with
                | Raised _ => Raised p
                | Returned torrent_tasks =>
                    Returned (mkPlugin torrent_tasks (data_downloads p)
                                (client p) (outbox p))
                end
            end
      end
  end.

(** *** IngestionHandler *)

(** [__create_torrent_instance] for the two classes; [now] is the default
    of the field [time]. *)
Definition __create_torrent_history (now : Q) (torrent_hash : string)
    (torrent_data : TorrentInfo.t) (task_type : TaskType.t) : TorrentHistory.t :=
  TorrentHistory.mk
    (TorrentInfo.site torrent_data) (TorrentInfo.site_name torrent_data)
    (TorrentInfo.title torrent_data) (TorrentInfo.description torrent_data)
    (TorrentInfo.size torrent_data) now torrent_hash task_type
    (TorrentInfo.hit_and_run torrent_data).

Definition __create_torrent_task (now : Q) (torrent_hash : string)
    (torrent_data : TorrentInfo.t) (task_type : TaskType.t) : TorrentTask.t :=
  TorrentTask.of_fields
    (TorrentInfo.site torrent_data) (TorrentInfo.site_name torrent_data)
    (TorrentInfo.title torrent_data) (TorrentInfo.description torrent_data)
    (TorrentInfo.size torrent_data) now torrent_hash task_type
    (TorrentInfo.hit_and_run torrent_data).

(** The readings of [time.time()] during one ingestion. *)
Record IngestClock : Set := mkIngestClock {
  at_history : Q;
  at_purge : Q;
  at_task : Q
}.

(** [__save_and_cleanup_downloads]: the new document "downloads". *)
Definition __save_and_cleanup_downloads (clock : IngestClock)
    (torrent_hash : string) (torrent_data : TorrentInfo.t)
    (task_type : TaskType.t) (downloads : gmap string TorrentHistory.t)
    : gmap string TorrentHistory.t :=
  let torrent_history :=
    __create_torrent_history (at_history clock) torrent_hash torrent_data
      task_type in
  let downloads := <[torrent_hash := torrent_history]> downloads in
  let current_time := at_purge clock in
  let cutoff_time := (current_time - 30 * 24 * 60 * 60)%Q in
  filter (λ item, Qltb cutoff_time (TorrentHistory.time item.2) = true)
         downloads.

(** [__process_torrent_task]: the task is saved and the tag requested
    before the log line and the message, either of which may raise. *)
Definition __process_torrent_task (clock : IngestClock) (torrent_hash : string)
    (torrent_data : TorrentInfo.t) (task_type : TaskType.t) (p : Plugin)
    : Outcome Plugin :=
  let torrent_task :=
    __create_torrent_task (at_task clock) torrent_hash torrent_data task_type in
  if decide (TorrentTask.site torrent_task ∈ HNRConfig.sites cfg) then
    let torrent_task := __init_hr_status torrent_task in
    if TorrentTask.hit_and_run torrent_task then
      let p :=
        mkPlugin
          (<[TorrentTask.hash torrent_task := torrent_task]> (data_torrents p))
          (data_downloads p)
          (__set_hit_and_run_tag torrent_task (client p))
          (outbox p) in
      match __log_torrent_hr_status torrent_task with
      | None => Raised p
      | Some _ =>
          match __send_hr_message torrent_task "【H&R种子任务下载】" false with
          | None => Raised p
          | Some notices =>
              Returned (mkPlugin (data_torrents p) (data_downloads p)
                          (client p) (outbox p ++ notices))
          end
      end
    else Returned p
  else Returned p.

(** [__process_event]; a missing [torrent_data] is [None]. *)
Definition __process_event (clock : IngestClock) (torrent_hash : string)
    (torrent_data : option TorrentInfo.t) (task_type : TaskType.t)
    (p : Plugin) : Outcome Plugin :=
  if decide (torrent_hash = "") then Returned p
  else
    match torrent_data with
    | None => Returned p
    | Some torrent_data =>
        match Downloader.get_torrents torrent_hash (client p) with
        | [] => Returned p
        | _ :: _ =>
            let p :=
              mkPlugin (data_torrents p)
                (__save_and_cleanup_downloads clock torrent_hash torrent_data
                   task_type (data_downloads p))
                (client p) (outbox p) in
            __process_torrent_task clock torrent_hash torrent_data task_type p
        end
    end.

End Engine.

(** ** Configuration validation *)

Module ConfigDict.
(** The dictionary handed to [init_plugin] and saved by [update_config], by
    the entries the engine reads.  The two switches are given by their
    truthiness, a numeric entry that is not a number is [None], and
    [site_configs] is what [hnrconfig.py] resolves from the entry
    [site_config_str] and the global defaults. *)
Record t : Type := mk {
  enabled : bool;
  onlyonce : bool;
  notify : NotifyMode.t;
  downloader : string;
  hit_and_run_tag : string;
  sites : list Z;
  hr_ratio : option Q;
  hr_duration : option Q;
  hr_deadline_days : option Q;
  auto_cleanup_days : option Q;
  site_configs : string -> SiteConfig.t
}.

Definition set_switches (e o : bool) (c : t) : t :=
  mk e o (notify c) (downloader c) (hit_and_run_tag c) (sites c) (hr_ratio c)
     (hr_duration c) (hr_deadline_days c) (auto_cleanup_days c)
     (site_configs c).
End ConfigDict.

(** Modelled from the spec: [HNRConfig.parse_obj] of [hnrconfig.py], the
    entries copied into the typed configuration; [None] is the validation
    error it raises for an entry of the wrong type. *)
Definition parse_obj (config : ConfigDict.t) : option HNRConfig.t :=
  match ConfigDict.hr_ratio config, ConfigDict.hr_duration config,
        ConfigDict.hr_deadline_days config,
        ConfigDict.auto_cleanup_days config with
  | Some hr_ratio, Some hr_duration, Some hr_deadline_days,
    Some auto_cleanup_days =>
      Some (HNRConfig.mk (ConfigDict.enabled config)
              (ConfigDict.onlyonce config) (ConfigDict.notify config)
              (ConfigDict.downloader config)
              (ConfigDict.hit_and_run_tag config) (ConfigDict.sites config)
              hr_ratio hr_duration hr_deadline_days auto_cleanup_days
              (ConfigDict.site_configs config))
  | _, _, _, _ => None
  end.

(** Modelled from the spec: [HNRConfig.to_dict] of [hnrconfig.py]. *)
Definition to_dict (config : HNRConfig.t) : ConfigDict.t :=
  ConfigDict.mk (HNRConfig.enabled config) (HNRConfig.onlyonce config)
    (HNRConfig.notify config) (HNRConfig.downloader config)
    (HNRConfig.hit_and_run_tag config) (HNRConfig.sites config)
    (Some (HNRConfig.hr_ratio config)) (Some (HNRConfig.hr_duration config))
    (Some (HNRConfig.hr_deadline_days config))
    (Some (HNRConfig.auto_cleanup_days config))
    (HNRConfig.get_site_config config).

Definition __validate_config (config : HNRConfig.t) : bool * string :=
  if negb (HNRConfig.enabled config) && negb (HNRConfig.onlyonce config) then
    (true, "插件未启用，无需进行验证")
  else if decide (HNRConfig.downloader config = "") then
    (false, "下载器不能为空")
  else if Qle_bool (HNRConfig.hr_duration config) 0 then
    (false, "H&R时间必须大于0")
  else if Qle_bool (HNRConfig.hr_deadline_days config) 0 then
    (false, "H&R满足要求的期限必须大于0")
  else if Qle_bool (HNRConfig.hr_ratio config) 0 then
    (false, "H&R分享率必须大于0")
  else (true, "所有配置项都有效").

(** The state [init_plugin] works on: the runtime configuration
    [self._hnr_config], the configuration last given to [update_config],
    the system messages put so far, and whether a run-once job was
    scheduled. *)
Record Runtime : Type := mkRuntime {
  _hnr_config : option HNRConfig.t;
  saved_config : option ConfigDict.t;
  alerts : list Notice;
  run_once_scheduled : bool
}.

Section Init.

(** [sites_helper.get_indexers()]: the identifier of each site and whether
    it is public. *)
Variable indexers : list (Z * bool).

Definition private_site (site_id : Z) : bool :=
  match list_find (λ indexer, indexer.1 = site_id) (reverse indexers) with
  | Some (_, (_, public)) => negb public
  | None => false
  end.

(** [__validate_and_fix_config]: its result and the runtime configuration
    it leaves. *)
Definition __validate_and_fix_config (config : option ConfigDict.t)
    (current : option HNRConfig.t) : (bool * string) * option HNRConfig.t :=
  match config with
  | None => ((false, ""), current)
  | Some config =>
      match parse_obj config with
      | None => ((false, "validation error"), None)
      | Some hnr_config =>
          let '(result, reason) := __validate_config hnr_config in
          if result then
            ((true, ""),
             Some (HNRConfig.set_sites
                     (filter (λ site_id, private_site site_id = true)
                             (HNRConfig.sites hnr_config))
                     hnr_config))
          else ((result, reason), None)
      end
  end.

(** [__update_config_if_error] *)
Definition __update_config_if_error (config : option ConfigDict.t)
    (error : string) (rt : Runtime) : Runtime :=
  match config with
  | None => rt
  | Some config =>
      if ConfigDict.enabled config || ConfigDict.onlyonce config then
        mkRuntime (_hnr_config rt)
          (Some (ConfigDict.set_switches false false config))
          (alerts rt ++ [SystemMessage "H&R助手"])
          (run_once_scheduled rt)
      else
        mkRuntime (_hnr_config rt) (Some config) (alerts rt)
          (run_once_scheduled rt)
  end.

(** [init_plugin]; [None] is the [AttributeError] of reading
    [self._hnr_config.onlyonce] on a missing configuration. *)
Definition init_plugin (config : option ConfigDict.t) (rt : Runtime)
    : option Runtime :=
  match config with
  | None => Some rt
  | Some _ =>
      let '((result, reason), hnr_config) :=
        __validate_and_fix_config config (_hnr_config rt) in
      let rt :=
        mkRuntime hnr_config (saved_config rt) (alerts rt)
          (run_once_scheduled rt) in
      if negb result && negb (bool_decide (is_Some hnr_config)) then
        Some (__update_config_if_error config reason rt)
      else
        match hnr_config with
        | None => None
        | Some hnr_config =>
            let once := HNRConfig.onlyonce hnr_config in
            let hnr_config := HNRConfig.set_onlyonce false hnr_config in
            Some (mkRuntime (Some hnr_config) (Some (to_dict hnr_config))
                    (alerts rt) once)
        end
  end.

End Init.

(** ** Statistics *)

Module Statistic.
(** The six counters [__update_and_save_statistic_info] writes into the
    document "statistic", by their keys. *)
Record t : Set := mk {
  total_count : nat;
  pending : nat;
  in_progress : nat;
  compliant : nat;
  deleted : nat;
  other : nat
}.
End Statistic.

(** The body of the loop over [combined_tasks.values()]. *)
Definition count_task (task : TorrentTask.t) (s : Statistic.t) : Statistic.t :=
  let deleted_count :=
    if TorrentTask.deleted task then S (Statistic.deleted s)
    else Statistic.deleted s in
  if TorrentTask.hit_and_run task then
    match TorrentTask.hr_status task with
    | HNRStatus.PENDING =>
        Statistic.mk (S (Statistic.total_count s)) (S (Statistic.pending s))
          (Statistic.in_progress s) (Statistic.compliant s) deleted_count
          (Statistic.other s)
    | HNRStatus.IN_PROGRESS =>
        Statistic.mk (S (Statistic.total_count s)) (Statistic.pending s)
          (S (Statistic.in_progress s)) (Statistic.compliant s) deleted_count
          (Statistic.other s)
    | HNRStatus.COMPLIANT =>
        Statistic.mk (S (Statistic.total_count s)) (Statistic.pending s)
          (Statistic.in_progress s) (S (Statistic.compliant s)) deleted_count
          (Statistic.other s)
    | _ =>
        Statistic.mk (S (Statistic.total_count s)) (Statistic.pending s)
          (Statistic.in_progress s) (Statistic.compliant s) deleted_count
          (S (Statistic.other s))
    end
  else
    Statistic.mk (Statistic.total_count s) (Statistic.pending s)
      (Statistic.in_progress s) (Statistic.compliant s) deleted_count
      (Statistic.other s).

(** [__update_and_save_statistic_info]: the counters it computes from the
    active tasks and the document "archived";
    [{**torrent_tasks, **archived_tasks}] keeps the archived record of a
    hash that both have. *)
Definition __update_and_save_statistic_info
    (torrent_tasks archived_tasks : gmap string TorrentTask.t) : Statistic.t :=
  let combined_tasks := archived_tasks ∪ torrent_tasks in
  foldr count_task (Statistic.mk 0 0 0 0 0 0) (map_to_list combined_tasks).*2.

(** ** Event handlers *)

Module Event.
(** Modelled from the spec: the data of an event of the host application
    (section 6), by the entries the handlers read: ["event_name"], ["hash"],
    the [torrent_info] of ["context"] ([None] when the context or its
    descriptor is missing), ["data"] and ["downloader"]; a missing string is
    empty. *)
Record t : Set := mk {
  event_name : string;
  hash : string;
  torrent_info : option TorrentInfo.t;
  data : option TorrentInfo.t;
  downloader : string
}.
End Event.

(** [__validate_and_log_event]; the event is [None] when it is missing or
    carries no data, the expected name is [None] when it is not given. *)
Definition __validate_and_log_event (event : option Event.t)
    (event_name : option string) : bool :=
  match event with
  | None => false
  | Some e =>
      match event_name with
      | Some name =>
          if decide (name = "") then true
          else if decide (Event.event_name e = name) then true else false
      | None => true
      end
  end.

Section Handlers.

Variable cfg : HNRConfig.t.

(** [self.service_info], read when the handler starts. *)
Variable service_info : option ServiceInfo.t.

Definition handle_download_added_event (clock : IngestClock)
    (event : option Event.t) (p : Plugin) : Outcome Plugin :=
  match service_info with
  | None => Returned p
  | Some service =>
      if negb (__validate_and_log_event event None) then Returned p
      else
        match event with
        | None => Returned p
        | Some e =>
            if decide (Event.downloader e = "") then Returned p
            else if decide (ServiceInfo.name service = Event.downloader e) then
              if decide (Event.hash e = "") then Returned p
              else
                match Event.torrent_info e with
                | None => Returned p
                | Some torrent_info =>
                    let task_type :=
                      if decide (TorrentInfo.description torrent_info = "")
                      then TaskType.RSS_SUBSCRIBE else TaskType.NORMAL in
                    __process_event cfg clock (Event.hash e)
                      (Some torrent_info) task_type p
                end
            else Returned p
        end
  end.

Definition handle_brushflow_event (clock : IngestClock)
    (event : option Event.t) (p : Plugin) : Outcome Plugin :=
  match service_info with
  | None => Returned p
  | Some service =>
      if negb (__validate_and_log_event event
                 (Some "brushflow_download_added")) then Returned p
      else
        match event with
        | None => Returned p
        | Some e =>
            if decide (Event.downloader e = "") then Returned p
            else if decide (ServiceInfo.name service = Event.downloader e) then
              if decide (Event.hash e = "") then Returned p
              else
                match Event.data e with
                | None => Returned p
                | Some torrent_data =>
                    __process_event cfg clock (Event.hash e)
                      (Some torrent_data) TaskType.BRUSH p
                end
            else Returned p
        end
  end.

End Handlers.

(** ** The engine as the plugin runs it *)

Section Service.

(** [downloader_helper.get_service(name=_, type_filter="qbittorrent")] and
    [service.instance.is_inactive()], of the host application. *)
Variable get_service : string -> option ServiceInfo.t.
Variable is_inactive : ServiceInfo.t -> bool.

(** The property [service_info]. *)
Definition service_info (hnr_config : option HNRConfig.t)
    : option ServiceInfo.t :=
  match hnr_config with
  | None => None
  | Some config =>
      if decide (HNRConfig.downloader config = "") then None
      else
        match get_service (HNRConfig.downloader config) with
        | None => None
        | Some service => if is_inactive service then None else Some service
        end
  end.

(** [get_state], by the truthiness of what it returns. *)
Definition get_state (rt : Runtime) : bool :=
  match _hnr_config rt with
  | Some config => HNRConfig.enabled config
  | None => false
  end.

(** [check] as a method: the service and the configuration it works with
    are those of the runtime. *)
Definition check_method (rt : Runtime) (clock : Clock) (p : Plugin)
    : Outcome Plugin :=
  match service_info (_hnr_config rt), _hnr_config rt with
  | Some service, Some config => check config (Some service) clock p
  | _, _ => Returned p
  end.

(** [handle_download_added_event] as a method. *)
Definition download_added_method (rt : Runtime) (clock : IngestClock)
    (event : option Event.t) (p : Plugin) : Outcome Plugin :=
  match service_info (_hnr_config rt), _hnr_config rt with
  | Some service, Some config =>
      handle_download_added_event config (Some service) clock event p
  | _, _ => Returned p
  end.

End Service.

(** ** Statements about the later properties *)

(** Two records of one task that differ at most in the live statistics
    [__update_torrent_tasks_state] assigns. *)
Definition same_but_stats (a b : TorrentTask.t) : Prop :=
  b = TorrentTask.set_stats (TorrentTask.downloaded b) (TorrentTask.uploaded b)
        (TorrentTask.ratio b) (TorrentTask.seeding_time b) a.

(** Two configuration dictionaries that differ at most in the two
    switches [enabled] and [onlyonce]. *)
Definition same_settings (a b : ConfigDict.t) : Prop :=
  ConfigDict.notify b = ConfigDict.notify a
  /\ ConfigDict.downloader b = ConfigDict.downloader a
  /\ ConfigDict.hit_and_run_tag b = ConfigDict.hit_and_run_tag a
  /\ ConfigDict.sites b = ConfigDict.sites a
  /\ ConfigDict.hr_ratio b = ConfigDict.hr_ratio a
  /\ ConfigDict.hr_duration b = ConfigDict.hr_duration a
  /\ ConfigDict.hr_deadline_days b = ConfigDict.hr_deadline_days a
  /\ ConfigDict.auto_cleanup_days b = ConfigDict.auto_cleanup_days a
  /\ ConfigDict.site_configs b = ConfigDict.site_configs a.

(** ** Statements of the specification *)

(** The retention rules R1 to R4, as section 4.4 words them; a time is
    set when it is truthy for Python. *)
Definition retention_rule (now window_seconds : Q) (t : TorrentTask.t) : Prop :=
  (TorrentTask.hr_status t = HNRStatus.COMPLIANT
   /\ exists met, TorrentTask.hr_met_time t = Some met
                  /\ truthy (TorrentTask.hr_met_time t) = true
                  /\ (window_seconds < now - met)%Q)
  \/ (TorrentTask.hr_status t = HNRStatus.COMPLIANT
      /\ truthy (TorrentTask.hr_met_time t) = false)
  \/ (TorrentTask.deleted t = true
      /\ exists del, TorrentTask.deleted_time t = Some del
                     /\ truthy (TorrentTask.deleted_time t) = true
                     /\ (window_seconds < now - del)%Q)
  \/ (TorrentTask.deleted t = true
      /\ truthy (TorrentTask.deleted_time t) = false).

(** The entry of [torrent_tasks] under a hash once the loop of the
    reconciliation has visited the torrent of the snapshot with that hash,
    from the entry before the visit. *)
Definition reconciled (cfg : HNRConfig.t) (now : Q)
    (histories : gmap string TorrentHistory.t) (torrent : Torrent.t)
    (entry : option TorrentTask.t) : option TorrentTask.t :=
  if decide (HNRConfig.hit_and_run_tag cfg ∈ Torrent.tags torrent) then
    match entry with
    | None => __convert_torrent_info_to_task cfg now torrent histories
    | Some t =>
        Some (if TorrentTask.deleted t then TorrentTask.set_deleted false t
              else t)
    end
  else
    match entry with
    | Some t =>
        if HNRStatus.eqb (TorrentTask.hr_status t) HNRStatus.COMPLIANT
        then Some t else None
    | None => None
    end.

(** A torrent of the snapshot that the loop of the reconciliation can
    visit without raising: tagged and untracked, it converts to a task. *)
Definition convertible (cfg : HNRConfig.t) (now : string -> Q)
    (histories : gmap string TorrentHistory.t)
    (store : gmap string TorrentTask.t) (entry : string * Torrent.t) : Prop :=
  HNRConfig.hit_and_run_tag cfg ∈ Torrent.tags entry.2 ->
  store !! entry.1 = None ->
  is_Some (__convert_torrent_info_to_task cfg (now entry.1) entry.2 histories).

(** An entry the loop of the reconciliation leaves alone when it visits
    the torrent: under the tag, a task not marked deleted; without the
    tag, no task or a COMPLIANT one. *)
Definition settled (cfg : HNRConfig.t) (torrent : Torrent.t)
    (entry : option TorrentTask.t) : Prop :=
  if decide (HNRConfig.hit_and_run_tag cfg ∈ Torrent.tags torrent) then
    exists t, entry = Some t /\ TorrentTask.deleted t = false
  else
    forall t, entry = Some t ->
              TorrentTask.hr_status t = HNRStatus.COMPLIANT.

(** The number of changes a reconciliation has recorded. *)
Definition diff_size (d : TagDiff) : nat :=
  length (added_tasks d) + length (reset_tasks d) + length (removed_tasks d).

(** What the steps of a check cycle between the reconciliation and the
    Cleaner make of the task the reconciliation left under a hash: marked
    deleted when the snapshot lacks the hash, refreshed from the torrent
    when it has it, then evaluated. *)
Definition cycled (cfg : HNRConfig.t) (clock : Clock)
    (snapshot : list (string * Torrent.t)) (h : string) (t : TorrentTask.t)
    : TorrentTask.t :=
  task (__update_hr_status cfg (at_evaluation clock h)
          match dict_get h snapshot with
          | Some torrent => refresh torrent t
          | None =>
              if TorrentTask.deleted t then t
              else mark_deleted (at_deleted clock h) t
          end).

(** A task the marking loop cannot get past, once it has marked it: the
    log line needs an [hr_duration]; the text of the message, sent under
    the mode "always" or, for a status other than COMPLIANT and
    UNRESTRICTED, under the mode "on error", needs a [seeding_time] as
    well when the status is neither IN_PROGRESS nor PENDING. *)
Definition mark_raises (cfg : HNRConfig.t) (t : TorrentTask.t) : Prop :=
  TorrentTask.hr_duration t = None
  \/ (TorrentTask.seeding_time t = None
      /\ TorrentTask.hr_status t <> HNRStatus.IN_PROGRESS
      /\ TorrentTask.hr_status t <> HNRStatus.PENDING
      /\ (HNRConfig.notify cfg = NotifyMode.ALWAYS
          \/ (HNRConfig.notify cfg = NotifyMode.ON_ERROR
              /\ TorrentTask.hr_status t <> HNRStatus.COMPLIANT
              /\ TorrentTask.hr_status t <> HNRStatus.UNRESTRICTED))).

(** * Properties *)

(** ** Numbers and statuses *)

Lemma Qltb_lt (x y : Q) : Qltb x y = true <-> (x < y)%Q.
Proof.
  unfold Qltb. rewrite negb_true_iff. split.
  - intros H. apply Qnot_le_lt. intros Hle.
    apply Qle_bool_iff in Hle. congruence.
  - intros H. destruct (Qle_bool y x) eqn:E; [|reflexivity].
    apply Qle_bool_iff in E. destruct (Qlt_not_le _ _ H E).
Qed.

Lemma Qltb_nlt (x y : Q) : Qltb x y = false <-> ~ (x < y)%Q.
Proof.
  rewrite <- Qltb_lt. destruct (Qltb x y); split; congruence.
Qed.

Lemma Qle_bool_false (x y : Q) : Qle_bool x y = false <-> (y < x)%Q.
Proof.
  rewrite <- Qltb_lt. unfold Qltb. destruct (Qle_bool x y); simpl; split; congruence.
Qed.

Lemma status_eqb_eq (a b : HNRStatus.t) : HNRStatus.eqb a b = true <-> a = b.
Proof. destruct a, b; simpl; split; congruence. Qed.

Lemma status_eqb_neq (a b : HNRStatus.t) : HNRStatus.eqb a b = false <-> a <> b.
Proof. destruct a, b; simpl; split; congruence. Qed.

Lemma python_or_zero_default (o : option Q) :
  (python_or_zero o == default 0 o)%Q.
Proof.
  destruct o as [q|]; simpl; [|reflexivity].
  destruct (Qeq_bool q 0) eqn:E; [|reflexivity].
  apply Qeq_bool_iff in E. symmetry. exact E.
Qed.

(** ** StatusEvaluator *)

Section StatusEvaluator.

Variable cfg : HNRConfig.t.

(** The boolean of [__meets_hr_requirements] is the disjunction of the
    duration threshold and the ratio threshold, each holding only of
    values that are present. *)
Lemma meets_hr_requirements_iff (t : TorrentTask.t) (extra required : Q) :
  __meets_hr_requirements t extra required = true <->
  (exists s d, TorrentTask.seeding_time t = Some s
               /\ TorrentTask.hr_duration t = Some d
               /\ ((d + extra) * 3600 < s)%Q)
  \/ (exists r, TorrentTask.ratio t = Some r /\ (required < r)%Q).
Proof.
  unfold __meets_hr_requirements. rewrite orb_true_iff. split.
  - intros [H|H].
    + left. destruct (TorrentTask.seeding_time t) as [s|]; [|discriminate].
      destruct (TorrentTask.hr_duration t) as [d|]; [|discriminate].
      exists s, d. repeat split. by apply Qltb_lt.
    + right. destruct (TorrentTask.ratio t) as [r|]; [|discriminate].
      exists r. split; [reflexivity|]. by apply Qltb_lt.
  - intros [(s & d & -> & -> & H)|(r & -> & H)].
    + left. by apply Qltb_lt.
    + right. by apply Qltb_lt.
Qed.

Lemma meets_hr_requirements_ext (t : TorrentTask.t) (a b required : Q) :
  (a == b)%Q ->
  __meets_hr_requirements t a required = __meets_hr_requirements t b required.
Proof.
  intros Hab. unfold __meets_hr_requirements.
  destruct (TorrentTask.seeding_time t) as [s|]; [|reflexivity].
  destruct (TorrentTask.hr_duration t) as [d|]; [|reflexivity].
  f_equal. unfold Qltb. f_equal.
  destruct (Qle_bool s ((d + a) * 3600)) eqn:E1,
           (Qle_bool s ((d + b) * 3600)) eqn:E2; try reflexivity.
  - apply Qle_bool_iff in E1. rewrite Hab in E1.
    apply Qle_bool_iff in E1. congruence.
  - apply Qle_bool_iff in E2. rewrite <- Hab in E2.
    apply Qle_bool_iff in E2. congruence.
Qed.

Lemma report_task (t : TorrentTask.t) (u : option TorrentTask.t)
    (message : option (list Notice)) :
  task (report t u message) = t.
Proof. unfold report. by destruct message. Qed.

Lemma report_untag (t : TorrentTask.t) (u : option TorrentTask.t)
    (message : option (list Notice)) :
  untag (report t u message) = u.
Proof. unfold report. by destruct message. Qed.

(** C1.  For a task under obligation in state IN_PROGRESS, one evaluation
    makes it COMPLIANT with [hr_met_time = now], and asks the client to
    drop the tag, when the seeding time exceeds (required duration +
    additional seed time) * 3600 or the ratio exceeds the required ratio;
    otherwise OVERDUE when [now] is past the
    deadline; otherwise NEEDS_SEEDING when the task is marked deleted;
    otherwise the task is left as it is, IN_PROGRESS. *)
Theorem update_hr_status_in_progress (now : Q) (t : TorrentTask.t) :
  TorrentTask.hit_and_run t = true ->
  TorrentTask.hr_status t = HNRStatus.IN_PROGRESS ->
  let extra :=
    default 0%Q (SiteConfig.additional_seed_time
                   (__get_site_config cfg (TorrentTask.site_name t))) in
  let duration_met :=
    exists s d, TorrentTask.seeding_time t = Some s
                /\ TorrentTask.hr_duration t = Some d
                /\ ((d + extra) * 3600 < s)%Q in
  let ratio_met :=
    exists r, TorrentTask.ratio t = Some r /\ (TorrentTask.hr_ratio t < r)%Q in
  let t' := task (__update_hr_status cfg now t) in
  (duration_met \/ ratio_met ->
     TorrentTask.hr_status t' = HNRStatus.COMPLIANT
     /\ TorrentTask.hr_met_time t' = Some now
     /\ untag (__update_hr_status cfg now t) = Some t')
  /\ (~ (duration_met \/ ratio_met) ->
      ((TorrentTask.deadline_time t < now)%Q ->
         TorrentTask.hr_status t' = HNRStatus.OVERDUE)
      /\ (~ (TorrentTask.deadline_time t < now)%Q ->
          TorrentTask.deleted t = true ->
          TorrentTask.hr_status t' = HNRStatus.NEEDS_SEEDING)
      /\ (~ (TorrentTask.deadline_time t < now)%Q ->
          TorrentTask.deleted t = false ->
          t' = t /\ TorrentTask.hr_status t' = HNRStatus.IN_PROGRESS)).
Proof.
  intros Hhr Hst extra duration_met ratio_met t'.
  assert (Hmeets :
    __meets_hr_requirements t
      (python_or_zero (SiteConfig.additional_seed_time
         (__get_site_config cfg (TorrentTask.site_name t))))
      (TorrentTask.hr_ratio t) = true <-> duration_met \/ ratio_met).
  { rewrite (meets_hr_requirements_ext t _ extra _ (python_or_zero_default _)).
    apply meets_hr_requirements_iff. }
  subst t'. unfold __update_hr_status. rewrite Hhr, Hst.
  cbn [negb HNRStatus.eqb].
  destruct (__meets_hr_requirements t _ _) eqn:Em.
  - rewrite report_task, report_untag.
    split; [intros _; repeat split; reflexivity|].
    intros Hn. destruct Hn. by apply Hmeets.
  - split.
    { intros Hm. apply Hmeets in Hm. congruence. }
    intros _. destruct (Qltb (TorrentTask.deadline_time t) now) eqn:Ed.
    + rewrite report_task.
      apply Qltb_lt in Ed. split; [intros _; reflexivity|].
      split; intros Hnd; by destruct Hnd.
    + apply Qltb_nlt in Ed. split; [intros Hd; by destruct Ed|].
      destruct (TorrentTask.deleted t) eqn:Edel; rewrite report_task.
      * split; [reflexivity|]. intros _ Hf. discriminate.
      * split; [intros _ Hf; discriminate|]. intros _ _. by split.
Qed.

(** C2.  The evaluation acts only on a task in state IN_PROGRESS: in any
    other state (PENDING, UNRESTRICTED, COMPLIANT, OVERDUE, NEEDS_SEEDING)
    one call returns, leaves the task as it is, untags nothing and posts
    nothing;
    and over any number of later cycles, each refreshing the live
    statistics from the client before it evaluates, the status stays what
    it was, whatever the statistics become. *)
Theorem update_hr_status_only_in_progress
    (now : Q) (t : TorrentTask.t) (cycles : list (Q * Torrent.t)) :
  TorrentTask.hr_status t <> HNRStatus.IN_PROGRESS ->
  __update_hr_status cfg now t = mkEvaluation t None [] false
  /\ TorrentTask.hr_status
       (fold_left
          (fun t cycle => task (__update_hr_status cfg cycle.1 (refresh cycle.2 t)))
          cycles t)
     = TorrentTask.hr_status t.
Proof.
  intros Hst.
  assert (Hstep : forall now t, TorrentTask.hr_status t <> HNRStatus.IN_PROGRESS ->
                  __update_hr_status cfg now t = mkEvaluation t None [] false).
  { clear. intros now t Hst. unfold __update_hr_status.
    destruct (TorrentTask.hit_and_run t); [|reflexivity]. simpl.
    apply status_eqb_neq in Hst. by rewrite Hst. }
  split; [by apply Hstep|].
  revert t Hst. induction cycles as [|[now' torrent] cycles IH]; intros t Hst.
  - reflexivity.
  - simpl. rewrite Hstep by exact Hst. simpl.
    rewrite IH; [reflexivity|exact Hst].
Qed.

End StatusEvaluator.

Lemma update_hr_status_in_progress_witness :
  let cfg0 :=
    HNRConfig.mk true false NotifyMode.NONE "qb" "H&R" [1%Z] 5 100 14 7
      (fun _ => SiteConfig.mk false 5 (Some 100%Q) 14 (Some 0%Q)) in
  let t :=
    TorrentTask.mk 1 "A" "title" "" 0 0 "h1" TaskType.NORMAL true
      HNRStatus.IN_PROGRESS 5 (Some 100%Q) 14 (Some 0.1%Q) 0 0
      (Some 363600%Q) false None None in
  TorrentTask.hr_status (task (__update_hr_status cfg0 1000 t))
  = HNRStatus.COMPLIANT
  /\ TorrentTask.hr_met_time (task (__update_hr_status cfg0 1000 t))
     = Some 1000%Q
  /\ untag (__update_hr_status cfg0 1000 t)
     = Some (task (__update_hr_status cfg0 1000 t)).
Proof.
  intros cfg0 t.
  apply (update_hr_status_in_progress cfg0 1000 t); [reflexivity|reflexivity|].
  left. exists 363600%Q, 100%Q. repeat split.
Defined.

Lemma update_hr_status_only_in_progress_witness :
  let cfg0 :=
    HNRConfig.mk true false NotifyMode.ALWAYS "qb" "H&R" [1%Z] 5 100 14 7
      (fun _ => SiteConfig.mk false 5 (Some 100%Q) 14 (Some 0%Q)) in
  let t :=
    TorrentTask.mk 1 "A" "title" "" 0 0 "h1" TaskType.NORMAL true
      HNRStatus.OVERDUE 5 (Some 100%Q) 14 (Some 0.1%Q) 0 0
      (Some 363600%Q) false None None in
  let torrent :=
    Torrent.mk "h1" ["H&R"] None None None (Some 9%Q) None None
      (Some 999999%Q) 1 "A" in
  TorrentTask.hr_status
    (fold_left
       (fun t cycle => task (__update_hr_status cfg0 cycle.1 (refresh cycle.2 t)))
       [(2000%Q, torrent); (3000%Q, torrent)] t)
  = HNRStatus.OVERDUE.
Proof.
  intros cfg0 t torrent.
  apply (update_hr_status_only_in_progress cfg0 1000 t
           [(2000%Q, torrent); (3000%Q, torrent)]).
  discriminate.
Defined.

(** ** Cleaner *)

Lemma lookup_foldr_delete_elem {A : Type} (m : gmap string A)
    (ks : list string) (k : string) :
  foldr delete m ks !! k = if decide (k ∈ ks) then None else m !! k.
Proof.
  induction ks as [|k' ks IH]; cbn [foldr].
  - destruct (decide (k ∈ [])) as [H|H]; [by apply elem_of_nil in H|done].
  - destruct (decide (k' = k)) as [->|Hne].
    + rewrite lookup_delete_eq.
      destruct (decide (k ∈ k :: ks)) as [H|H]; [done|]. destruct H. by left.
    + rewrite lookup_delete_ne by exact Hne. rewrite IH.
      destruct (decide (k ∈ ks)) as [Hin|Hnin];
        destruct (decide (k ∈ k' :: ks)) as [Hin'|Hnin']; try done.
      * destruct Hnin'. by right.
      * apply elem_of_cons in Hin' as [Heq|Hin']; [congruence|contradiction].
Qed.

Lemma truthy_Some (q : Q) : truthy (Some q) = true <-> ~ (q == 0)%Q.
Proof.
  simpl. rewrite negb_true_iff. split.
  - intros H Hq. apply Qeq_bool_iff in Hq. congruence.
  - intros H. destruct (Qeq_bool q 0) eqn:E; [|reflexivity].
    apply Qeq_bool_iff in E. contradiction.
Qed.

Lemma set_and_older_iff (o : option Q) (now threshold : Q) :
  set_and_older o now threshold = true <->
  exists q, o = Some q /\ truthy o = true /\ (threshold < now - q)%Q.
Proof.
  unfold set_and_older. destruct o as [q|].
  - rewrite andb_true_iff, Qltb_lt. split.
    + intros [H1 H2]. by exists q.
    + intros (q' & [= <-] & H1 & H2). by split.
  - split; [discriminate|]. by intros (q & [=] & _).
Qed.

Lemma cleanup_scenario_iff (now window_seconds : Q) (t : TorrentTask.t) :
  cleanup_scenario now window_seconds t = true <->
  retention_rule now window_seconds t.
Proof.
  unfold cleanup_scenario, retention_rule.
  rewrite <- !set_and_older_iff, <- !status_eqb_eq.
  destruct (HNRStatus.eqb _ _), (TorrentTask.deleted t),
    (set_and_older (TorrentTask.hr_met_time t) _ _),
    (set_and_older (TorrentTask.deleted_time t) _ _),
    (truthy (TorrentTask.hr_met_time t)),
    (truthy (TorrentTask.deleted_time t)); simpl; intuition congruence.
Qed.

Lemma log_torrent_hr_status_Some (t : TorrentTask.t) :
  is_Some (__log_torrent_hr_status t) <-> is_Some (TorrentTask.hr_duration t).
Proof.
  unfold __log_torrent_hr_status.
  destruct (TorrentTask.hr_duration t); split; intros [x Hx];
    try discriminate; by eexists.
Qed.

Section Cleaner.

Variable cfg : HNRConfig.t.

Lemma auto_cleanup_disabled (now : Q) (store : gmap string TorrentTask.t) :
  ~ (0 < HNRConfig.auto_cleanup_days cfg)%Q ->
  __auto_cleanup cfg now store = Returned store.
Proof.
  intros H. unfold __auto_cleanup.
  destruct (Qle_bool _ 0) eqn:E; [reflexivity|].
  apply Qle_bool_false in E. contradiction.
Qed.

(** The Cleaner changes [torrent_tasks] only when it returns. *)
Lemma auto_cleanup_raised (now : Q) (store s : gmap string TorrentTask.t) :
  __auto_cleanup cfg now store = Raised s -> s = store.
Proof.
  unfold __auto_cleanup. destruct (Qle_bool _ 0); [discriminate|].
  cbn zeta. destruct (decide _); [discriminate|]. by intros [= <-].
Qed.

(** With a window above 0 the Cleaner returns exactly when every task it
    selects has the [hr_duration] its log line needs. *)
Lemma auto_cleanup_returns (now : Q) (store : gmap string TorrentTask.t) :
  (0 < HNRConfig.auto_cleanup_days cfg)%Q ->
  returns (__auto_cleanup cfg now store) = true <->
  forall h t,
    store !! h = Some t ->
    cleanup_scenario now (HNRConfig.auto_cleanup_days cfg * 86400) t = true ->
    is_Some (TorrentTask.hr_duration t).
Proof.
  intros Hpos. unfold __auto_cleanup.
  destruct (Qle_bool _ 0) eqn:E.
  { apply Qle_bool_iff in E. destruct (Qlt_not_le _ _ Hpos E). }
  cbn zeta. destruct (decide _) as [Hall|Hex]; cbn [returns].
  - split; [|reflexivity]. intros _ h t Hh Hc.
    apply log_torrent_hr_status_Some. apply (Hall h t).
    apply map_lookup_filter_Some. by split.
  - split; [discriminate|]. intros Hall. destruct Hex.
    intros h t Ht. apply map_lookup_filter_Some in Ht as [Ht Hc].
    apply log_torrent_hr_status_Some. by apply (Hall h t).
Qed.

Lemma auto_cleanup_lookup (now : Q) (store store' : gmap string TorrentTask.t)
    (h : string) :
  (0 < HNRConfig.auto_cleanup_days cfg)%Q ->
  __auto_cleanup cfg now store = Returned store' ->
  store' !! h =
  match store !! h with
  | Some t =>
      if cleanup_scenario now (HNRConfig.auto_cleanup_days cfg * 86400) t
      then None else Some t
  | None => None
  end.
Proof.
  intros Hpos. unfold __auto_cleanup.
  destruct (Qle_bool _ 0) eqn:E.
  { apply Qle_bool_iff in E. destruct (Qlt_not_le _ _ Hpos E). }
  cbn zeta. destruct (decide _) as [_|_]; [|discriminate]. intros [= <-].
  rewrite lookup_foldr_delete_elem.
  destruct (store !! h) as [t|] eqn:Hh.
  - destruct (cleanup_scenario _ _ t) eqn:Hc.
    + rewrite decide_True; [reflexivity|].
      apply elem_of_elements, elem_of_dom. exists t.
      apply map_lookup_filter_Some. by split.
    + rewrite decide_False; [reflexivity|].
      intros Hin%elem_of_elements%elem_of_dom. destruct Hin as [t' Ht'].
      apply map_lookup_filter_Some in Ht' as [Ht' Hp]. simpl in Hp.
      congruence.
  - by destruct (decide _).
Qed.

(** The retention rules on the Cleaner as far as it returns.  With a
    retention window above 0 the Cleaner returns exactly when every task of
    which one of R1 to R4 holds has an [hr_duration]; when it returns it has
    removed exactly the tasks of which one of R1 to R4 holds (R1, R3: the
    time is set and now minus it is strictly more than the window; R2, R4:
    the time is unset), kept every other task as it is and added none; when
    it raises it has removed nothing.  With a window of 0 or less it
    returns and removes nothing.  When it returns, a COMPLIANT, not deleted
    task whose [hr_met_time] is set and one day less than the window old is
    kept; one that is one day more than the window old is removed. *)
Theorem auto_cleanup_retention (now : Q) (store : gmap string TorrentTask.t) :
  let days := HNRConfig.auto_cleanup_days cfg in
  ((0 < days)%Q ->
     returns (__auto_cleanup cfg now store) = true <->
     forall h t, store !! h = Some t ->
                 retention_rule now (days * 86400) t ->
                 is_Some (TorrentTask.hr_duration t))
  /\ (forall s, __auto_cleanup cfg now store = Raised s -> s = store)
  /\ (~ (0 < days)%Q -> __auto_cleanup cfg now store = Returned store)
  /\ (forall store',
        (0 < days)%Q ->
        __auto_cleanup cfg now store = Returned store' ->
        (forall h,
           (store' !! h = None <->
            forall t, store !! h = Some t -> retention_rule now (days * 86400) t)
           /\ (forall t', store' !! h = Some t' -> store !! h = Some t'))
        /\ (forall h t met,
              store !! h = Some t ->
              TorrentTask.hr_status t = HNRStatus.COMPLIANT ->
              TorrentTask.hr_met_time t = Some met ->
              ((now - met == (days - 1) * 86400)%Q ->
               truthy (Some met) = true -> TorrentTask.deleted t = false ->
               store' !! h = Some t)
              /\ ((now - met == (days + 1) * 86400)%Q -> store' !! h = None))).
Proof.
  intros days. split; [|split; [|split]].
  - intros Hpos. rewrite auto_cleanup_returns by exact Hpos. fold days.
    split; intros Hall h t Hh Hc; apply (Hall h t Hh);
      by apply cleanup_scenario_iff.
  - apply auto_cleanup_raised.
  - apply auto_cleanup_disabled.
  - intros store' Hpos Hrun. split.
    + intros h. rewrite (auto_cleanup_lookup now store store' h Hpos Hrun).
      destruct (store !! h) as [t|];
        [|split; [split; [discriminate|done]|discriminate]].
      destruct (cleanup_scenario _ _ t) eqn:Hc.
      * split; [|discriminate]. split; [|done].
        intros _ t' [= <-]. by apply cleanup_scenario_iff.
      * split; [|done]. split; [discriminate|].
        intros Hr. specialize (Hr t eq_refl).
        apply cleanup_scenario_iff in Hr. subst days. congruence.
    + intros h t met Hh Hst Hmet.
      rewrite (auto_cleanup_lookup now store store' h Hpos Hrun). rewrite Hh.
      split.
      * intros Hage Hset Hdel.
        destruct (cleanup_scenario _ _ t) eqn:Hc; [|reflexivity].
        apply cleanup_scenario_iff in Hc.
        destruct Hc
          as [(_ & m & Hm & _ & Hlt)|[(_ & Hunset)|[(Hd & _)|(Hd & _)]]];
          try congruence.
        rewrite Hmet in Hm. injection Hm as <-. exfalso.
        rewrite Hage in Hlt. fold days in Hlt.
        apply (Qlt_irrefl (days * 86400)).
        eapply Qlt_trans; [exact Hlt|].
        apply Qmult_lt_compat_r; [reflexivity|].
        rewrite <- (Qplus_0_r days) at 2. unfold Qminus.
        apply Qplus_lt_r. reflexivity.
      * intros Hage.
        assert (Hr : retention_rule now (days * 86400) t).
        { destruct (truthy (TorrentTask.hr_met_time t)) eqn:Hset.
          - left. split; [exact Hst|]. exists met.
            repeat split; try assumption.
            rewrite Hage. apply Qmult_lt_compat_r; [reflexivity|].
            rewrite <- (Qplus_0_r days) at 1. apply Qplus_lt_r. reflexivity.
          - right. left. by split. }
        apply cleanup_scenario_iff in Hr. fold days. by rewrite Hr.
Qed.

End Cleaner.

(** The boundary of the retention window, for tasks the Cleaner can log:
    with a window of 7 days a COMPLIANT task met 6 days ago is kept and one
    met 8 days ago is removed. *)
Example auto_cleanup_boundary :
  let cfg0 :=
    HNRConfig.mk true false NotifyMode.NONE "qb" "H&R" [1%Z] 5 100 14 7
      (fun _ => SiteConfig.mk false 5 (Some 100%Q) 14 (Some 0%Q)) in
  let compliant met :=
    TorrentTask.mk 1 "A" "title" "" 0 0 "h" TaskType.NORMAL true
      HNRStatus.COMPLIANT 5 (Some 100%Q) 14 (Some 6%Q) 0 0
      (Some 363600%Q) false None (Some met) in
  let now := 1000000%Q in
  let store : gmap string TorrentTask.t :=
    <["old" := compliant (now - 8 * 86400)%Q]>
      (<["new" := compliant (now - 6 * 86400)%Q]> ∅) in
  exists store',
    __auto_cleanup cfg0 now store = Returned store'
    /\ store' !! "new" = Some (compliant (now - 6 * 86400)%Q)
    /\ store' !! "old" = None.
Proof.
  intros cfg0 compliant now store.
  destruct (__auto_cleanup cfg0 now store) as [store'|store'] eqn:Hrun;
    [|vm_compute in Hrun; discriminate].
  exists store'. split; [reflexivity|].
  destruct (auto_cleanup_retention cfg0 now store) as (_ & _ & _ & H).
  destruct (H store' eq_refl Hrun) as [_ Hb].
  split.
  - apply (Hb "new" (compliant (now - 6 * 86400)%Q) (now - 6 * 86400)%Q);
      reflexivity.
  - apply (Hb "old" (compliant (now - 8 * 86400)%Q) (now - 8 * 86400)%Q);
      reflexivity.
Qed.

(** ** TagSynchronizer *)

Section TagSynchronizer.

Variable cfg : HNRConfig.t.

Lemma init_hr_status_deleted (t : TorrentTask.t) :
  TorrentTask.deleted (__init_hr_status cfg t) = TorrentTask.deleted t.
Proof.
  unfold __init_hr_status.
  destruct (SiteConfig.hr_active _); simpl; [reflexivity|].
  destruct (TorrentTask.hit_and_run t); reflexivity.
Qed.

Lemma convert_not_deleted (now : Q) (torrent : Torrent.t)
    (histories : gmap string TorrentHistory.t) (t : TorrentTask.t) :
  __convert_torrent_info_to_task cfg now torrent histories = Some t ->
  TorrentTask.deleted t = false.
Proof.
  unfold __convert_torrent_info_to_task.
  destruct (decide (Torrent.hash torrent = "")); [discriminate|].
  destruct (histories !! Torrent.hash torrent) as [th|].
  - intros [= <-]. by rewrite init_hr_status_deleted.
  - destruct (decide (Torrent.site_name torrent = "")); [discriminate|].
    intros [= <-]. by rewrite init_hr_status_deleted.
Qed.

Ltac diff_arith := cbn; rewrite ?length_app; cbn; lia.

Section Loop.

Variable now : string -> Q.
Variable histories : gmap string TorrentHistory.t.

Lemma reconcile_entry_key (m : gmap string TorrentTask.t) (d : TagDiff)
    (k : string) (torrent : Torrent.t)
    (st' : gmap string TorrentTask.t * TagDiff) :
  reconcile_entry cfg now histories (m, d) (k, torrent) = Some st' ->
  st'.1 !! k = reconciled cfg (now k) histories torrent (m !! k)
  /\ (forall h, h <> k -> st'.1 !! h = m !! h)
  /\ settled cfg torrent (st'.1 !! k)
  /\ (diff_size d <= diff_size st'.2)%nat
  /\ (diff_size st'.2 = diff_size d -> st' = (m, d)).
Proof.
  unfold reconcile_entry, reconciled, settled, diff_size. cbn [fst snd].
  destruct (decide (HNRConfig.hit_and_run_tag cfg ∈ Torrent.tags torrent))
    as [Htag|Htag].
  - destruct (m !! k) as [t|] eqn:Hk.
    + destruct (TorrentTask.deleted t) eqn:Hdel; intros [= <-]; cbn [fst snd].
      * rewrite lookup_insert_eq.
        split; [reflexivity|]. split; [|split; [|split]].
        -- intros h Hh. by rewrite lookup_insert_ne.
        -- by eexists.
        -- diff_arith.
        -- diff_arith.
      * rewrite Hk. split; [reflexivity|]. split; [done|]. split; [|done].
        by exists t.
    + destruct (__convert_torrent_info_to_task cfg (now k) torrent histories)
        as [t|] eqn:Hc; [|discriminate].
      intros [= <-]; cbn [fst snd]. rewrite lookup_insert_eq.
      split; [reflexivity|]. split; [|split; [|split]].
      * intros h Hh. by rewrite lookup_insert_ne.
      * exists t. split; [reflexivity|]. by eapply convert_not_deleted.
      * diff_arith.
      * diff_arith.
  - destruct (m !! k) as [t|] eqn:Hk.
    + destruct (HNRStatus.eqb (TorrentTask.hr_status t) HNRStatus.COMPLIANT)
        eqn:Hst; intros [= <-]; cbn [fst snd].
      * rewrite Hk. split; [reflexivity|]. split; [done|]. split; [|done].
        intros t' [= <-]. by apply status_eqb_eq.
      * rewrite lookup_delete_eq.
        split; [reflexivity|]. split; [|split; [|split]].
        -- intros h Hh. by rewrite lookup_delete_ne.
        -- discriminate.
        -- diff_arith.
        -- diff_arith.
    + intros [= <-]; cbn [fst snd]. rewrite Hk.
      split; [reflexivity|]. split; [done|]. split; [|done]. discriminate.
Qed.

Lemma reconcile_entry_progress (m : gmap string TorrentTask.t) (d : TagDiff)
    (entry : string * Torrent.t) :
  convertible cfg now histories m entry ->
  is_Some (reconcile_entry cfg now histories (m, d) entry).
Proof.
  unfold convertible, reconcile_entry. cbn [fst snd]. intros Hc.
  destruct (decide (HNRConfig.hit_and_run_tag cfg ∈ Torrent.tags entry.2))
    as [Htag|Htag].
  - destruct (m !! entry.1) as [t|] eqn:Hk.
    + destruct (TorrentTask.deleted t); by eexists.
    + destruct (Hc Htag eq_refl) as [t ->]. by eexists.
  - destruct (m !! entry.1) as [t|]; [|by eexists].
    destruct (HNRStatus.eqb _ _); by eexists.
Qed.

Lemma reconcile_entry_settled (m : gmap string TorrentTask.t) (d : TagDiff)
    (k : string) (torrent : Torrent.t) :
  settled cfg torrent (m !! k) ->
  reconcile_entry cfg now histories (m, d) (k, torrent) = Some (m, d).
Proof.
  unfold settled, reconcile_entry. cbn [fst snd].
  destruct (decide (HNRConfig.hit_and_run_tag cfg ∈ Torrent.tags torrent)).
  - intros (t & -> & ->). reflexivity.
  - intros H. destruct (m !! k) as [t|]; [|reflexivity].
    specialize (H t eq_refl). apply status_eqb_eq in H. by rewrite H.
Qed.

Lemma reconcile_loop_inv (es : list (string * Torrent.t))
    (m : gmap string TorrentTask.t) (d : TagDiff)
    (st' : gmap string TorrentTask.t * TagDiff) :
  NoDup es.*1 ->
  reconcile_loop cfg now histories es (m, d) = Some st' ->
  (forall h, h ∉ es.*1 -> st'.1 !! h = m !! h)
  /\ (forall k torrent, (k, torrent) ∈ es ->
        st'.1 !! k = reconciled cfg (now k) histories torrent (m !! k)
        /\ settled cfg torrent (st'.1 !! k))
  /\ (diff_size d <= diff_size st'.2)%nat
  /\ (diff_size st'.2 = diff_size d -> st' = (m, d)).
Proof.
  revert m d. induction es as [|[k torrent] es IH]; intros m d Hnd; cbn.
  - intros [= <-]. split; [done|]. split; [|done].
    intros k' torrent' H. by apply elem_of_nil in H.
  - apply NoDup_cons in Hnd as [Hk Hnd].
    destruct (reconcile_entry cfg now histories (m, d) (k, torrent))
      as [[m1 d1]|] eqn:Hstep; [|discriminate].
    intros Hloop.
    apply reconcile_entry_key in Hstep as (Hat & Hframe & Hset & Hle & Heq).
    destruct (IH m1 d1 Hnd Hloop) as (IHframe & IHat & IHle & IHeq).
    cbn [fst snd] in *. split; [|split; [|split]].
    + intros h Hh. apply not_elem_of_cons in Hh as [Hne Hh].
      rewrite IHframe by exact Hh. by apply Hframe.
    + intros k' torrent' H. apply elem_of_cons in H as [[= -> ->]|H].
      * rewrite IHframe by exact Hk. by split.
      * destruct (IHat _ _ H) as [-> Hs]. split; [|exact Hs].
        rewrite Hframe; [reflexivity|].
        intros ->. apply Hk. apply list_elem_of_fmap. by exists (k, torrent').
    + lia.
    + intros Hsz. assert (diff_size d1 = diff_size d) as Hd1 by lia.
      specialize (Heq Hd1). injection Heq as -> ->. apply IHeq. lia.
Qed.

Lemma reconcile_loop_progress (es : list (string * Torrent.t))
    (m : gmap string TorrentTask.t) (d : TagDiff) :
  NoDup es.*1 ->
  Forall (convertible cfg now histories m) es ->
  is_Some (reconcile_loop cfg now histories es (m, d)).
Proof.
  revert m d. induction es as [|[k torrent] es IH]; intros m d Hnd Hall; cbn.
  - by eexists.
  - apply NoDup_cons in Hnd as [Hk Hnd].
    apply Forall_cons in Hall as [Hhd Hall].
    destruct (reconcile_entry_progress m d (k, torrent) Hhd) as [[m1 d1] Hstep].
    rewrite Hstep.
    apply reconcile_entry_key in Hstep as (_ & Hframe & _).
    apply IH; [exact Hnd|].
    apply Forall_forall. intros [k' torrent'] Hin.
    rewrite Forall_forall in Hall. specialize (Hall _ Hin).
    unfold convertible in *. cbn [fst snd] in *.
    rewrite Hframe; [exact Hall|].
    intros ->. apply Hk. apply list_elem_of_fmap. by exists (k, torrent').
Qed.

End Loop.

(** When the pass runs on a qbittorrent service and returns, its result is
    that of the loop. *)
Lemma update_seeding_tasks_inv (service : option ServiceInfo.t)
    (now : string -> Q) (store : gmap string TorrentTask.t)
    (histories : gmap string TorrentHistory.t)
    (snapshot : list (string * Torrent.t)) (sync : TagSync) :
  is_qbittorrent service = true ->
  __update_seeding_tasks_based_on_tags cfg service now store histories snapshot
  = Some sync ->
  reconcile_loop cfg now histories snapshot (store, no_diff)
  = Some (tasks sync, diff sync)
  /\ is_modified sync = negb (Nat.eqb (diff_size (diff sync)) 0).
Proof.
  intros Hqb. unfold __update_seeding_tasks_based_on_tags. rewrite Hqb. cbn.
  destruct (reconcile_loop _ _ _ _ _) as [[m' d']|]; [|discriminate].
  intros [= <-]. cbn. split; [reflexivity|].
  unfold diff_size. by destruct (added_tasks d'), (removed_tasks d'), (reset_tasks d').
Qed.

(** The untagged torrents of a pass that returns.  When the reconciliation
    runs (a qbittorrent service) on a snapshot, for every torrent of the
    snapshot that does not carry the tag and has an entry in TaskStore:
    whenever the pass returns, the entry is removed, unless its status is
    COMPLIANT, in which case it is kept as it is; and the pass does return
    when every tagged torrent of the snapshot that has no entry converts to
    a task. *)
Theorem untagged_entry_removed_unless_compliant
    (service : option ServiceInfo.t) (now : string -> Q)
    (store : gmap string TorrentTask.t)
    (histories : gmap string TorrentHistory.t)
    (snapshot : list (string * Torrent.t))
    (h : string) (torrent : Torrent.t) (t : TorrentTask.t) :
  is_qbittorrent service = true ->
  NoDup snapshot.*1 ->
  (h, torrent) ∈ snapshot ->
  HNRConfig.hit_and_run_tag cfg ∉ Torrent.tags torrent ->
  store !! h = Some t ->
  (forall sync,
     __update_seeding_tasks_based_on_tags cfg service now store histories
       snapshot = Some sync ->
     (TorrentTask.hr_status t <> HNRStatus.COMPLIANT ->
      tasks sync !! h = None)
     /\ (TorrentTask.hr_status t = HNRStatus.COMPLIANT ->
         tasks sync !! h = Some t))
  /\ (Forall (convertible cfg now histories store) snapshot ->
      exists sync,
        __update_seeding_tasks_based_on_tags cfg service now store histories
          snapshot = Some sync).
Proof.
  intros Hqb Hnd Hin Htag Hh. split.
  - intros sync Hrun.
    apply update_seeding_tasks_inv in Hrun as [Hloop _]; [|exact Hqb].
    apply reconcile_loop_inv in Hloop as (_ & Hat & _); [|exact Hnd].
    destruct (Hat _ _ Hin) as [Hr _]. cbn [fst] in Hr. rewrite Hr.
    unfold reconciled. rewrite decide_False by exact Htag. rewrite Hh. split.
    + intros Hst. apply status_eqb_neq in Hst. by rewrite Hst.
    + intros Hst. apply status_eqb_eq in Hst. by rewrite Hst.
  - intros Hall.
    destruct (reconcile_loop_progress now histories snapshot store no_diff
                Hnd Hall) as [[m' d'] Hloop].
    unfold __update_seeding_tasks_based_on_tags. rewrite Hqb, Hloop. cbn.
    by eexists.
Qed.

(** C4.  A second reconciliation against the same snapshot, on the
    TaskStore the first one returned, changes nothing: it adds no task,
    removes none, resets no deleted flag, posts nothing, saves nothing and
    returns the same TaskStore. *)
Theorem update_seeding_tasks_idempotent
    (service : option ServiceInfo.t) (now now' : string -> Q)
    (store : gmap string TorrentTask.t)
    (histories histories' : gmap string TorrentHistory.t)
    (snapshot : list (string * Torrent.t)) (sync : TagSync) :
  NoDup snapshot.*1 ->
  __update_seeding_tasks_based_on_tags cfg service now store histories snapshot
  = Some sync ->
  __update_seeding_tasks_based_on_tags cfg service now' (tasks sync) histories'
    snapshot
  = Some (mkTagSync (tasks sync) no_diff [] false).
Proof.
  intros Hnd Hrun. destruct (is_qbittorrent service) eqn:Hqb.
  - apply update_seeding_tasks_inv in Hrun as [Hloop _]; [|exact Hqb].
    apply reconcile_loop_inv in Hloop as (_ & Hat & _); [|exact Hnd].
    cbn [fst] in Hat.
    assert (Hquiet : forall es d,
              (forall k torrent, (k, torrent) ∈ es ->
                                 settled cfg torrent (tasks sync !! k)) ->
              reconcile_loop cfg now' histories' es (tasks sync, d)
              = Some (tasks sync, d)).
    { clear. induction es as [|[k torrent] es IH]; intros d Hs; cbn.
      - reflexivity.
      - rewrite reconcile_entry_settled.
        + apply IH. intros k' torrent' H. apply Hs. by right.
        + apply Hs. by left. }
    unfold __update_seeding_tasks_based_on_tags. rewrite Hqb. cbn.
    rewrite Hquiet.
    + unfold __log_and_send_torrent_task_update_message. cbn.
      by destruct (HNRConfig.notify cfg).
    + intros k torrent H. by destruct (Hat _ _ H).
  - unfold __update_seeding_tasks_based_on_tags in *. rewrite Hqb in *. cbn in *.
    by injection Hrun as <-.
Qed.

(** C10.  When the service is not a qbittorrent instance the
    reconciliation is skipped: it returns the TaskStore it was given, with
    no task added, removed or reset, nothing posted and nothing saved. *)
Theorem update_seeding_tasks_skipped
    (service : option ServiceInfo.t) (now : string -> Q)
    (store : gmap string TorrentTask.t)
    (histories : gmap string TorrentHistory.t)
    (snapshot : list (string * Torrent.t)) :
  is_qbittorrent service = false ->
  __update_seeding_tasks_based_on_tags cfg service now store histories snapshot
  = Some (mkTagSync store (mkTagDiff [] [] []) [] false).
Proof.
  intros Hqb. unfold __update_seeding_tasks_based_on_tags. by rewrite Hqb.
Qed.

End TagSynchronizer.

(** ** Dictionaries in insertion order *)

Section Dict.

Context {V : Type}.

Lemma dict_get_set_eq (k : string) (v : V) (d : list (string * V)) :
  dict_get k (dict_set k v d) = Some v.
Proof.
  induction d as [|[k' v'] d IH]; cbn.
  - by rewrite decide_True.
  - destruct (decide (k = k')) as [->|Hne]; cbn.
    + by rewrite decide_True.
    + by rewrite decide_False.
Qed.

Lemma dict_get_set_ne (k k' : string) (v : V) (d : list (string * V)) :
  k <> k' -> dict_get k' (dict_set k v d) = dict_get k' d.
Proof.
  intros Hne. induction d as [|[k0 v0] d IH]; cbn.
  - by rewrite decide_False.
  - destruct (decide (k = k0)) as [->|Hne0]; cbn.
    + by rewrite !decide_False.
    + destruct (decide (k' = k0)); [reflexivity|exact IH].
Qed.

Lemma dict_set_keys (k : string) (v : V) (d : list (string * V)) (k' : string) :
  k' ∈ (dict_set k v d).*1 <-> k' = k \/ k' ∈ d.*1.
Proof.
  induction d as [|[k0 v0] d IH]; cbn.
  - rewrite list_elem_of_singleton. split; [by left|].
    intros [H|H]; [exact H|by apply elem_of_nil in H].
  - destruct (decide (k = k0)) as [->|Hne]; cbn.
    + rewrite !elem_of_cons. tauto.
    + rewrite !elem_of_cons, IH. tauto.
Qed.

Lemma dict_set_NoDup (k : string) (v : V) (d : list (string * V)) :
  NoDup d.*1 -> NoDup (dict_set k v d).*1.
Proof.
  induction d as [|[k0 v0] d IH]; cbn; intros Hnd.
  - apply NoDup_singleton.
  - apply NoDup_cons in Hnd as [Hk0 Hnd].
    destruct (decide (k = k0)) as [->|Hne]; cbn.
    + by apply NoDup_cons.
    + apply NoDup_cons. split; [|by apply IH].
      rewrite dict_set_keys. intros [H|H]; [congruence|contradiction].
Qed.

Lemma dict_get_None (k : string) (d : list (string * V)) :
  dict_get k d = None <-> k ∉ d.*1.
Proof.
  induction d as [|[k0 v0] d IH]; cbn.
  - split; [intros _ H; by apply elem_of_nil in H|done].
  - rewrite not_elem_of_cons. destruct (decide (k = k0)) as [->|Hne].
    + split; [discriminate|]. by intros [H _].
    + rewrite IH. tauto.
Qed.

Lemma dict_get_Some (k : string) (v : V) (d : list (string * V)) :
  NoDup d.*1 -> dict_get k d = Some v <-> (k, v) ∈ d.
Proof.
  induction d as [|[k0 v0] d IH]; cbn; intros Hnd.
  - split; [discriminate|]. intros H. by apply elem_of_nil in H.
  - apply NoDup_cons in Hnd as [Hk0 Hnd]. rewrite elem_of_cons.
    destruct (decide (k = k0)) as [->|Hne].
    + split.
      * intros [= ->]. by left.
      * intros [[= ->]|H]; [reflexivity|]. destruct Hk0.
        apply list_elem_of_fmap. by exists (k0, v).
    + rewrite IH by exact Hnd. split; [by right|].
      intros [[= -> _]|H]; [congruence|exact H].
Qed.

End Dict.

Lemma seeding_torrents_dict_inv (seeding_torrents : list Torrent.t) :
  let d := seeding_torrents_dict seeding_torrents in
  NoDup d.*1
  /\ (forall k torrent, dict_get k d = Some torrent -> Torrent.hash torrent = k)
  /\ (forall k, k ∈ d.*1 <-> k ∈ Torrent.hash <$> seeding_torrents).
Proof.
  unfold seeding_torrents_dict.
  assert (H : forall l (d0 : list (string * Torrent.t)),
    NoDup d0.*1 ->
    (forall k torrent, dict_get k d0 = Some torrent -> Torrent.hash torrent = k) ->
    let d := fold_left (λ d torrent, dict_set (Torrent.hash torrent) torrent d)
                       l d0 in
    NoDup d.*1
    /\ (forall k torrent, dict_get k d = Some torrent -> Torrent.hash torrent = k)
    /\ (forall k, k ∈ d.*1 <-> k ∈ d0.*1 \/ k ∈ Torrent.hash <$> l)).
  { induction l as [|x l IH]; intros d0 Hnd Hkeys; cbn.
    - split; [exact Hnd|]. split; [exact Hkeys|]. intros k.
      split; [by left|]. intros [H|H]; [exact H|by apply elem_of_nil in H].
    - destruct (IH (dict_set (Torrent.hash x) x d0)) as (H1 & H2 & H3).
      + by apply dict_set_NoDup.
      + intros k torrent. destruct (decide (Torrent.hash x = k)) as [<-|Hne].
        * rewrite dict_get_set_eq. by intros [= <-].
        * rewrite dict_get_set_ne by exact Hne. apply Hkeys.
      + split; [exact H1|]. split; [exact H2|]. intros k.
        rewrite H3, dict_set_keys, elem_of_cons. tauto. }
  destruct (H seeding_torrents [] (NoDup_nil_2) ltac:(discriminate))
    as (H1 & H2 & H3).
  cbn. split; [exact H1|]. split; [exact H2|]. intros k. rewrite H3.
  split; [|by right]. intros [Hk|Hk]; [by apply elem_of_nil in Hk|exact Hk].
Qed.

(** ** Torrents missing in the client *)

Section Missing.

Variable cfg : HNRConfig.t.
Variable now : string -> Q.

Lemma undeleted_hashes_spec (store : gmap string TorrentTask.t)
    (l : list string) :
  Forall (fun h => is_Some (store !! h)) l ->
  exists u,
    undeleted_hashes store l = Some u
    /\ (forall h, h ∈ u <->
                  h ∈ l /\ exists t, store !! h = Some t
                                     /\ TorrentTask.deleted t = false)
    /\ (NoDup l -> NoDup u).
Proof.
  induction l as [|a l IH]; intros Hall; cbn.
  - exists []. split; [reflexivity|]. split; [|done].
    intros h. split; [intros H; by apply elem_of_nil in H|].
    intros [H _]. by apply elem_of_nil in H.
  - apply Forall_cons in Hall as [[t Ha] Hall].
    destruct (IH Hall) as (u & -> & Hmem & Hnd). rewrite Ha.
    eexists. split; [reflexivity|]. split.
    + intros h. destruct (TorrentTask.deleted t) eqn:Hdel.
      * rewrite Hmem, elem_of_cons. split; [intros [? ?]; by split; [right|]|].
        intros [[->|Hin] (t' & Ht' & Hd)]; [congruence|]. split; [done|by exists t'].
      * rewrite !elem_of_cons, Hmem. split.
        -- intros [->|[Hin Ht]]; [split; [by left|by exists t]|].
           split; [by right|exact Ht].
        -- intros [[->|Hin] Ht]; [by left|right; by split].
    + intros Hndl. apply NoDup_cons in Hndl as [Hal Hndl].
      destruct (TorrentTask.deleted t); [by apply Hnd|].
      apply NoDup_cons. split; [|by apply Hnd].
      rewrite Hmem. by intros [? _].
Qed.

Lemma undeleted_hashes_None (store : gmap string TorrentTask.t)
    (l : list string) :
  undeleted_hashes store l = None <-> exists h, h ∈ l /\ store !! h = None.
Proof.
  induction l as [|a l IH]; cbn.
  - split; [discriminate|]. intros (h & Hh & _). by apply elem_of_nil in Hh.
  - destruct (store !! a) as [t|] eqn:Ha.
    + destruct (undeleted_hashes store l) as [rest|].
      * split; [discriminate|]. intros (h & Hh & Hn).
        apply elem_of_cons in Hh as [->|Hh]; [congruence|].
        assert (Some rest = None) by (apply IH; by exists h). discriminate.
      * split; [|reflexivity]. intros _.
        destruct (proj1 IH eq_refl) as (h & Hh & Hn).
        exists h. split; [by right|exact Hn].
    + split; [|reflexivity]. intros _. exists a. split; [by left|exact Ha].
Qed.

Lemma undeleted_hashes_elem (store : gmap string TorrentTask.t)
    (l u : list string) (h : string) :
  undeleted_hashes store l = Some u ->
  h ∈ u <-> h ∈ l /\ exists t, store !! h = Some t
                               /\ TorrentTask.deleted t = false.
Proof.
  intros Hu.
  destruct (undeleted_hashes_spec store l) as (u' & Hu' & Hmem & _).
  - apply Forall_forall. intros k Hk.
    destruct (store !! k) eqn:Hsk; [by eexists|].
    assert (undeleted_hashes store l = None) as Hn
      by (apply undeleted_hashes_None; by exists k).
    congruence.
  - rewrite Hu in Hu'. injection Hu' as <-. apply Hmem.
Qed.

Lemma mark_raises_mark_deleted (at_time : Q) (t : TorrentTask.t) :
  mark_raises cfg (mark_deleted at_time t) <-> mark_raises cfg t.
Proof. by destruct t. Qed.

(** The log line and the message of a task just marked raise exactly when
    [mark_raises] holds of the task. *)
Lemma mark_step_raises (at_time : Q) (t : TorrentTask.t) :
  let t' := mark_deleted at_time t in
  __log_torrent_hr_status t' = None
  \/ __send_hr_message cfg t' "【H&R种子任务已删除】" (deleted_warning t') = None
  <-> mark_raises cfg t.
Proof.
  destruct t as [? ? ? ? ? ? ? ? ? status ? duration ? ? ? ? seeding ? ? ?].
  unfold mark_raises, __log_torrent_hr_status, __send_hr_message,
    __build_hr_message_text, deleted_warning. cbn.
  destruct duration, seeding, status, (HNRConfig.notify cfg); cbn;
    split; intros H; try (by left); try (by right);
    try (destruct H as [H|H]; discriminate);
    try (right; repeat split; try discriminate; (by left) || (right; repeat split; discriminate));
    try (destruct H as [H|(H & H1 & H2 & [H3|(H3 & H4 & H5)])];
         congruence).
Qed.

Lemma mark_loop_returned (u : list string) (m m' : gmap string TorrentTask.t)
    (n n' : list Notice) (h : string) :
  NoDup u ->
  mark_loop cfg now u (m, n) = Returned (m', n') ->
  m' !! h = if decide (h ∈ u) then mark_deleted (now h) <$> m !! h else m !! h.
Proof.
  revert m n. induction u as [|a u IH]; intros m n Hnd; cbn [mark_loop fst snd].
  - intros [= <- _].
    destruct (decide (h ∈ [])) as [H|H]; [by apply elem_of_nil in H|done].
  - apply NoDup_cons in Hnd as [Ha Hnd].
    destruct (m !! a) as [t|] eqn:Hma; [|discriminate].
    destruct (__log_torrent_hr_status _); [|discriminate].
    destruct (__send_hr_message _ _ _ _) as [notices|]; [|discriminate].
    intros Hrun. rewrite (IH _ _ Hnd Hrun).
    destruct (decide (h = a)) as [->|Hne].
    + rewrite decide_False by exact Ha. rewrite lookup_insert_eq.
      destruct (decide (a ∈ a :: u)) as [_|H]; [by rewrite Hma|].
      destruct H. by left.
    + rewrite lookup_insert_ne by done.
      destruct (decide (h ∈ u)) as [Hin|Hnin];
        destruct (decide (h ∈ a :: u)) as [Hin'|Hnin']; try done.
      * destruct Hnin'. by right.
      * apply elem_of_cons in Hin' as [?|?]; [congruence|contradiction].
Qed.

Lemma mark_loop_raises (u : list string) (m : gmap string TorrentTask.t)
    (n : list Notice) :
  (forall h, h ∈ u -> is_Some (m !! h)) ->
  returns (mark_loop cfg now u (m, n)) = false
  <-> exists h t, h ∈ u /\ m !! h = Some t /\ mark_raises cfg t.
Proof.
  revert m n. induction u as [|a u IH]; intros m n Hkeys;
    cbn [mark_loop fst snd].
  - cbn. split; [discriminate|]. intros (h & t & Hh & _).
    by apply elem_of_nil in Hh.
  - destruct (Hkeys a) as [t Hma]; [by left|]. rewrite Hma.
    pose proof (mark_step_raises (now a) t) as Hstep. cbn zeta in Hstep.
    destruct (__log_torrent_hr_status _) as [[]|].
    2:{ cbn. split; [|reflexivity]. intros _. exists a, t.
        split; [by left|]. split; [exact Hma|]. apply Hstep. by left. }
    destruct (__send_hr_message _ _ _ _) as [notices|].
    2:{ cbn. split; [|reflexivity]. intros _. exists a, t.
        split; [by left|]. split; [exact Hma|]. apply Hstep. by right. }
    assert (Hok : ~ mark_raises cfg t).
    { intros Hr. apply Hstep in Hr as [Hr|Hr]; discriminate. }
    rewrite IH.
    + split.
      * intros (h & t' & Hh & Hm1 & Hr). destruct (decide (h = a)) as [->|Hne].
        -- rewrite lookup_insert_eq in Hm1. injection Hm1 as <-.
           apply mark_raises_mark_deleted in Hr. contradiction.
        -- rewrite lookup_insert_ne in Hm1 by done.
           exists h, t'. split; [by right|]. by split.
      * intros (h & t' & Hh & Hm & Hr). destruct (decide (h = a)) as [->|Hne].
        -- rewrite Hma in Hm. injection Hm as <-. contradiction.
        -- apply elem_of_cons in Hh as [?|Hh]; [contradiction|].
           exists h, t'. split; [exact Hh|].
           rewrite lookup_insert_ne by done. by split.
    + intros h Hh. apply lookup_insert_is_Some'. right. apply Hkeys. by right.
Qed.

(** The hashes of [check_torrents] are the keys of the store that the
    snapshot has. *)
Lemma check_torrents_hashes (store : gmap string TorrentTask.t)
    (snapshot : list (string * Torrent.t)) (h : string) :
  (forall k torrent, dict_get k snapshot = Some torrent ->
                     Torrent.hash torrent = k) ->
  h ∈ Torrent.hash
        <$> omap (λ th, dict_get th snapshot) (map_to_list store).*1
  <-> is_Some (store !! h) /\ is_Some (dict_get h snapshot).
Proof.
  intros Hkeys. rewrite list_elem_of_fmap. split.
  - intros (torrent & -> & Hin). apply list_elem_of_omap in Hin
      as (th & Hth & Hget).
    rewrite (Hkeys _ _ Hget).
    apply list_elem_of_fmap in Hth as ([k t] & Hk & Hkt).
    apply elem_of_map_to_list in Hkt. cbn in Hk. subst th.
    split; by eexists.
  - intros [[t Ht] [torrent Hget]]. exists torrent.
    split; [symmetry; by apply Hkeys|].
    apply list_elem_of_omap. exists h. split; [|exact Hget].
    apply list_elem_of_fmap. exists (h, t). split; [reflexivity|].
    by apply elem_of_map_to_list.
Qed.

Lemma update_undeleted_lookup (store store' : gmap string TorrentTask.t)
    (notices : list Notice) (snapshot : list (string * Torrent.t)) :
  (forall k torrent, dict_get k snapshot = Some torrent ->
                     Torrent.hash torrent = k) ->
  __update_undeleted_torrents_missing_in_downloader cfg now store
    (map_to_list store).*1
    (omap (λ th, dict_get th snapshot) (map_to_list store).*1)
  = Returned (store', notices) ->
  forall h,
    store' !! h =
    match store !! h with
    | Some t =>
        if decide (dict_get h snapshot = None)
        then if TorrentTask.deleted t then Some t
             else Some (mark_deleted (now h) t)
        else Some t
    | None => None
    end.
Proof.
  intros Hkeys. unfold __update_undeleted_torrents_missing_in_downloader.
  set (hashes := (map_to_list store).*1).
  set (all := Torrent.hash <$> omap (λ th, dict_get th snapshot) hashes).
  assert (Hnd : NoDup hashes) by apply NoDup_fst_map_to_list.
  assert (Hin : forall h, h ∈ hashes <-> is_Some (store !! h)).
  { intros h. unfold hashes. rewrite list_elem_of_fmap. split.
    - intros ([k t] & -> & Hkt). apply elem_of_map_to_list in Hkt. by eexists.
    - intros [t Ht]. exists (h, t). split; [reflexivity|].
      by apply elem_of_map_to_list. }
  set (missing := filter (λ hash_value, hash_value ∉ all) hashes).
  assert (Hmiss : forall h, h ∈ missing <->
                            is_Some (store !! h) /\ dict_get h snapshot = None).
  { intros h. unfold missing. rewrite list_elem_of_filter, Hin. unfold all, hashes.
    rewrite check_torrents_hashes by exact Hkeys. split.
    - intros [Hn Hs]. split; [exact Hs|].
      destruct (dict_get h snapshot) eqn:E; [|reflexivity].
      destruct Hn. split; [exact Hs|by eexists].
    - intros [Hs Hn]. split; [|exact Hs]. rewrite Hn.
      intros [_ [? ?]]. discriminate. }
  destruct (undeleted_hashes_spec store missing) as (u & Hueq & Hu & Hndu).
  { apply Forall_forall. intros h Hh. by apply Hmiss in Hh as [? _]. }
  rewrite Hueq. intros Hrun h.
  rewrite (mark_loop_returned u store store' [] notices h); [|
    apply Hndu; by apply NoDup_filter | exact Hrun].
  destruct (store !! h) as [t|] eqn:Hh.
  - destruct (decide (h ∈ u)) as [Hhu|Hhu].
    + apply Hu in Hhu as [Hm (t' & Ht' & Hdel)].
      apply Hmiss in Hm as [_ Hn]. rewrite Hh in Ht'. injection Ht' as <-.
      rewrite decide_True by exact Hn. by rewrite Hdel.
    + destruct (decide (dict_get h snapshot = None)) as [Hn|Hn]; [|reflexivity].
      destruct (TorrentTask.deleted t) eqn:Hdel; [reflexivity|].
      destruct Hhu. apply Hu. split; [|by exists t].
      apply Hmiss. split; [by eexists|exact Hn].
  - by destruct (decide (h ∈ u)).
Qed.

(** The marking step of a check cycle, given the keys of TaskStore and the
    torrents the snapshot of the client has for them.  When it
    returns it has marked deleted, with the reading of the clock as deleted
    time and nothing else changed, every task whose hash is absent from the
    full snapshot and that was not yet marked deleted; it has left as they
    are the tasks already marked deleted and the tasks whose hash is in the
    snapshot; it has added and removed no task. *)
Theorem missing_torrents_marked_deleted
    (store : gmap string TorrentTask.t) (seeding_torrents : list Torrent.t) :
  let snapshot := seeding_torrents_dict seeding_torrents in
  let torrent_check_hashes := (map_to_list store).*1 in
  let check_torrents :=
    omap (λ th, dict_get th snapshot) torrent_check_hashes in
  let step :=
    __update_undeleted_torrents_missing_in_downloader cfg now store
      torrent_check_hashes check_torrents in
  forall store' notices,
       step = Returned (store', notices) ->
       (forall h t, store !! h = Some t ->
          (h ∉ Torrent.hash <$> seeding_torrents ->
           TorrentTask.deleted t = false ->
           exists t',
             store' !! h = Some t'
             /\ TorrentTask.deleted t' = true
             /\ TorrentTask.deleted_time t' = Some (now h)
             /\ t' = TorrentTask.set_deleted_time (TorrentTask.deleted_time t')
                       (TorrentTask.set_deleted (TorrentTask.deleted t') t))
          /\ (h ∈ Torrent.hash <$> seeding_torrents
              \/ TorrentTask.deleted t = true ->
              store' !! h = Some t))
       /\ (forall h, store !! h = None -> store' !! h = None).
Proof.
  intros snapshot torrent_check_hashes check_torrents step.
  destruct (seeding_torrents_dict_inv seeding_torrents) as (Hnd & Hkeys & Hdom).
  fold snapshot in Hnd, Hkeys, Hdom.
  intros store' notices Hrun.
  pose proof (update_undeleted_lookup store store' notices snapshot Hkeys
                Hrun) as Hlookup.
  split.
  - intros h t Hh. rewrite Hlookup, Hh. split.
    + intros Habs Hdel.
      rewrite decide_True; [|apply dict_get_None; by rewrite Hdom].
      rewrite Hdel. eexists. split; [reflexivity|]. by destruct t.
    + intros [Hpres|Hdel].
      * rewrite decide_False; [reflexivity|].
        rewrite dict_get_None. rewrite Hdom. tauto.
      * rewrite Hdel. by destruct (decide _).
  - intros h Hh. by rewrite Hlookup, Hh.
Qed.

End Missing.

(** ** The check cycle, hash by hash *)

Section Cycle.

Variable cfg : HNRConfig.t.

Lemma update_torrent_tasks_state_absent (torrents : list Torrent.t)
    (m : gmap string TorrentTask.t) (h : string) :
  h ∉ Torrent.hash <$> torrents ->
  __update_torrent_tasks_state torrents m !! h = m !! h.
Proof.
  unfold __update_torrent_tasks_state. revert m.
  induction torrents as [|x l IH]; intros m Hh; cbn [fold_left].
  - reflexivity.
  - rewrite fmap_cons in Hh. apply not_elem_of_cons in Hh as [Hne Hh].
    rewrite IH by exact Hh.
    destruct (m !! Torrent.hash x); [|reflexivity].
    by rewrite lookup_insert_ne.
Qed.

Lemma update_torrent_tasks_state_present (torrents : list Torrent.t)
    (m : gmap string TorrentTask.t) (torrent : Torrent.t) :
  NoDup (Torrent.hash <$> torrents) ->
  torrent ∈ torrents ->
  __update_torrent_tasks_state torrents m !! Torrent.hash torrent
  = refresh torrent <$> m !! Torrent.hash torrent.
Proof.
  unfold __update_torrent_tasks_state. revert m.
  induction torrents as [|x l IH]; intros m Hnd Hin; cbn [fold_left].
  - by apply elem_of_nil in Hin.
  - rewrite fmap_cons in Hnd. apply NoDup_cons in Hnd as [Hx Hnd].
    apply elem_of_cons in Hin as [->|Hin].
    + pose proof (update_torrent_tasks_state_absent l) as Habs.
      unfold __update_torrent_tasks_state in Habs. rewrite Habs by exact Hx.
      destruct (m !! Torrent.hash x) as [t|] eqn:Hm.
      * by rewrite lookup_insert_eq.
      * by rewrite Hm.
    + rewrite IH by assumption.
      assert (Torrent.hash x <> Torrent.hash torrent) as Hne.
      { intros Heq. apply Hx. rewrite Heq. apply list_elem_of_fmap.
        by exists torrent. }
      destruct (m !! Torrent.hash x); [|reflexivity].
      by rewrite lookup_insert_ne.
Qed.

Lemma check_torrents_NoDup (hashes : list string)
    (snapshot : list (string * Torrent.t)) :
  (forall k torrent, dict_get k snapshot = Some torrent ->
                     Torrent.hash torrent = k) ->
  NoDup hashes ->
  NoDup (Torrent.hash <$> omap (λ th, dict_get th snapshot) hashes).
Proof.
  intros Hkeys. induction hashes as [|a l IH]; intros Hnd; cbn.
  - apply NoDup_nil_2.
  - apply NoDup_cons in Hnd as [Ha Hnd].
    destruct (dict_get a snapshot) as [torrent|] eqn:Hget; [|by apply IH].
    rewrite fmap_cons. apply NoDup_cons. split; [|by apply IH].
    rewrite (Hkeys _ _ Hget). intros Hin.
    apply list_elem_of_fmap in Hin as (y & Hy & Hin).
    apply list_elem_of_omap in Hin as (th & Hth & Hgy).
    rewrite (Hkeys _ _ Hgy) in Hy. by subst th.
Qed.

Lemma evaluations_lookup (now : string -> Q)
    (m : gmap string TorrentTask.t) (h : string) :
  (task <$> evaluations cfg now m) !! h
  = (fun t => task (__update_hr_status cfg (now h) t)) <$> m !! h.
Proof.
  unfold evaluations. rewrite lookup_fmap, map_lookup_imap.
  by destruct (m !! h).
Qed.

Lemma sync_unmodified (service : option ServiceInfo.t) (now : string -> Q)
    (store : gmap string TorrentTask.t)
    (histories : gmap string TorrentHistory.t)
    (snapshot : list (string * Torrent.t)) (sync : TagSync) :
  NoDup snapshot.*1 ->
  __update_seeding_tasks_based_on_tags cfg service now store histories snapshot
  = Some sync ->
  is_modified sync = false ->
  tasks sync = store.
Proof.
  intros Hnd Hrun Hmod. destruct (is_qbittorrent service) eqn:Hqb.
  - apply update_seeding_tasks_inv in Hrun as [Hloop Hm]; [|exact Hqb].
    apply reconcile_loop_inv in Hloop as (_ & _ & _ & Heq); [|exact Hnd].
    rewrite Hmod in Hm. symmetry in Hm. apply negb_false_iff in Hm.
    apply Nat.eqb_eq in Hm. cbn [snd] in Heq.
    assert (Hz : diff_size (diff sync) = diff_size no_diff) by (rewrite Hm; reflexivity).
    specialize (Heq Hz). by injection Heq as -> _.
  - unfold __update_seeding_tasks_based_on_tags in Hrun. rewrite Hqb in Hrun.
    cbn in Hrun. by injection Hrun as <-.
Qed.

(** What the reconciliation leaves in the document "torrents": the
    dictionary it returns, saved or found unchanged. *)
Lemma sync_saved (service : option ServiceInfo.t) (now : string -> Q)
    (store : gmap string TorrentTask.t)
    (histories : gmap string TorrentHistory.t)
    (snapshot : list (string * Torrent.t)) (sync : TagSync) :
  NoDup snapshot.*1 ->
  __update_seeding_tasks_based_on_tags cfg service now store histories snapshot
  = Some sync ->
  (if is_modified sync then tasks sync else store) = tasks sync.
Proof.
  intros Hnd Hrun. destruct (is_modified sync) eqn:Hmod; [reflexivity|].
  symmetry. by eapply sync_unmodified.
Qed.

(** A check cycle that raises after the reconciliation returned [sync]
    leaves the document "torrents" as the reconciliation left it. *)
Lemma check_raised_store (service : ServiceInfo.t) (clock : Clock) (p : Plugin)
    (sync : TagSync) :
  let snapshot := seeding_torrents_dict (Downloader.torrents (client p)) in
  __update_seeding_tasks_based_on_tags cfg (Some service) (at_added clock)
    (data_torrents p) (data_downloads p) snapshot = Some sync ->
  returns (check cfg (Some service) clock p) = false ->
  data_torrents (state_after (check cfg (Some service) clock p)) = tasks sync.
Proof.
  intros snapshot Hrun.
  destruct (seeding_torrents_dict_inv (Downloader.torrents (client p)))
    as (Hnd & _). fold snapshot in Hnd.
  pose proof (sync_saved _ _ _ _ _ _ Hnd Hrun) as Hsaved.
  unfold check. fold snapshot. rewrite Hrun.
  destruct (negb (nonempty _)); [discriminate|].
  destruct (__update_undeleted_torrents_missing_in_downloader _ _ _ _ _)
    as [[store2 notices]|[store2 notices]].
  - cbn zeta. destruct (__auto_cleanup _ _ _); [discriminate|].
    intros _. exact Hsaved.
  - intros _. exact Hsaved.
Qed.

(** The document "torrents" after a check cycle that returns and whose
    reconciliation returned [sync]: under each hash, what the later steps
    make of the task the reconciliation left there, unless the Cleaner
    removes it. *)
Lemma check_lookup (service : ServiceInfo.t) (clock : Clock) (p : Plugin)
    (sync : TagSync) (h : string) :
  let snapshot := seeding_torrents_dict (Downloader.torrents (client p)) in
  __update_seeding_tasks_based_on_tags cfg (Some service) (at_added clock)
    (data_torrents p) (data_downloads p) snapshot = Some sync ->
  returns (check cfg (Some service) clock p) = true ->
  data_torrents (state_after (check cfg (Some service) clock p)) !! h
  = match tasks sync !! h with
    | None => None
    | Some t =>
        if Qle_bool (HNRConfig.auto_cleanup_days cfg) 0
        then Some (cycled cfg clock snapshot h t)
        else if cleanup_scenario (at_cleanup clock)
                  (HNRConfig.auto_cleanup_days cfg * 86400)
                  (cycled cfg clock snapshot h t)
             then None
             else Some (cycled cfg clock snapshot h t)
    end.
Proof.
  intros snapshot Hrun.
  destruct (seeding_torrents_dict_inv (Downloader.torrents (client p)))
    as (Hnd & Hkeys & Hdom). fold snapshot in Hnd, Hkeys, Hdom.
  unfold check. fold snapshot. rewrite Hrun.
  destruct (map_to_list (tasks sync)) as [|kv l] eqn:Hlist.
  - apply map_to_list_empty_iff in Hlist. cbn. intros _.
    rewrite (sync_saved _ _ _ _ _ _ Hnd Hrun).
    by rewrite Hlist, lookup_empty.
  - rewrite <- Hlist. replace (negb (nonempty (map_to_list (tasks sync)).*1))
      with false by (rewrite Hlist; reflexivity).
    destruct (__update_undeleted_torrents_missing_in_downloader _ _ _ _ _)
      as [[store2 notices]|[store2 notices]] eqn:Hmark; [|discriminate].
    pose proof (update_undeleted_lookup cfg (at_deleted clock) (tasks sync)
                  store2 notices snapshot Hkeys Hmark) as Hlookup.
    cbn zeta.
    assert (Hpre :
      (task <$> evaluations cfg (at_evaluation clock)
         (__update_torrent_tasks_state
            (omap (λ th, dict_get th snapshot) (map_to_list (tasks sync)).*1)
            store2)) !! h
      = cycled cfg clock snapshot h <$> tasks sync !! h).
    { rewrite evaluations_lookup. unfold cycled.
      destruct (dict_get h snapshot) as [torrent|] eqn:Hget.
      - destruct (tasks sync !! h) as [t|] eqn:Hh.
        + rewrite <- (Hkeys _ _ Hget).
          rewrite update_torrent_tasks_state_present.
          * rewrite (Hkeys _ _ Hget), Hlookup, Hh.
            rewrite decide_False by congruence. reflexivity.
          * apply check_torrents_NoDup; [exact Hkeys|].
            apply NoDup_fst_map_to_list.
          * apply list_elem_of_omap. exists h. split; [|exact Hget].
            apply list_elem_of_fmap. exists (h, t). split; [reflexivity|].
            by apply elem_of_map_to_list.
        + rewrite update_torrent_tasks_state_absent.
          * by rewrite Hlookup, Hh.
          * rewrite check_torrents_hashes by exact Hkeys.
            rewrite Hh. intros [[? ?] _]. discriminate.
      - rewrite update_torrent_tasks_state_absent.
        + rewrite Hlookup. destruct (tasks sync !! h) as [t|]; [|reflexivity].
          rewrite decide_True by exact Hget. cbn.
          by destruct (TorrentTask.deleted t).
        + rewrite check_torrents_hashes by exact Hkeys.
          rewrite Hget. intros [_ [? ?]]. discriminate. }
    destruct (__auto_cleanup _ _ _) as [cleaned|s] eqn:Hclean; [|discriminate].
    intros _. cbn [state_after data_torrents].
    destruct (Qle_bool (HNRConfig.auto_cleanup_days cfg) 0) eqn:Hdays.
    + rewrite auto_cleanup_disabled in Hclean.
      * injection Hclean as <-. rewrite Hpre. by destruct (tasks sync !! h).
      * intros Hpos. apply Qle_bool_iff in Hdays.
        destruct (Qlt_not_le _ _ Hpos Hdays).
    + apply Qle_bool_false in Hdays.
      rewrite (auto_cleanup_lookup cfg _ _ _ h Hdays Hclean). rewrite Hpre.
      by destruct (tasks sync !! h).
Qed.

(** Either way a check cycle ends. *)
Lemma check_lookup_cases (service : ServiceInfo.t) (clock : Clock) (p : Plugin)
    (sync : TagSync) (h : string) :
  let snapshot := seeding_torrents_dict (Downloader.torrents (client p)) in
  __update_seeding_tasks_based_on_tags cfg (Some service) (at_added clock)
    (data_torrents p) (data_downloads p) snapshot = Some sync ->
  data_torrents (state_after (check cfg (Some service) clock p)) !! h
  = tasks sync !! h
  \/ data_torrents (state_after (check cfg (Some service) clock p)) !! h
     = match tasks sync !! h with
       | None => None
       | Some t =>
           if Qle_bool (HNRConfig.auto_cleanup_days cfg) 0
           then Some (cycled cfg clock snapshot h t)
           else if cleanup_scenario (at_cleanup clock)
                     (HNRConfig.auto_cleanup_days cfg * 86400)
                     (cycled cfg clock snapshot h t)
                then None
                else Some (cycled cfg clock snapshot h t)
       end.
Proof.
  intros snapshot Hrun.
  destruct (returns (check cfg (Some service) clock p)) eqn:Hret.
  - right. by apply check_lookup.
  - left. by rewrite (check_raised_store service clock p sync Hrun Hret).
Qed.

End Cycle.

(** ** Which steps take a task out of TaskStore *)

Section Removal.

Variable cfg : HNRConfig.t.

Lemma process_event_keeps (clock : IngestClock) (torrent_hash : string)
    (torrent_data : option TorrentInfo.t) (task_type : TaskType.t)
    (p : Plugin) (h : string) :
  is_Some (data_torrents p !! h) ->
  is_Some (data_torrents
             (state_after
                (__process_event cfg clock torrent_hash torrent_data
                   task_type p))
           !! h).
Proof.
  intros Hh. unfold __process_event.
  destruct (decide (torrent_hash = "")); [exact Hh|].
  destruct torrent_data as [torrent_data|]; [|exact Hh].
  destruct (Downloader.get_torrents torrent_hash (client p)); [exact Hh|].
  unfold __process_torrent_task.
  destruct (decide (_ ∈ HNRConfig.sites cfg)); [|exact Hh].
  destruct (TorrentTask.hit_and_run _); [|exact Hh].
  cbn zeta. destruct (__log_torrent_hr_status _);
    [destruct (__send_hr_message _ _ _ _)|];
    cbn [state_after data_torrents]; rewrite lookup_insert_is_Some'; by right.
Qed.

(** C7, amended.  A task of TaskStore is missing from it after a check
    cycle only if the tag reconciliation ran and found its torrent in the
    snapshot without the management tag while its status was not COMPLIANT,
    or the retention window is above 0 and a retention rule held, at the
    time of the Cleaner, of the task as the cycle had made it; and the
    ingestion of an event takes no task out of TaskStore. *)
Theorem task_leaves_store_by_untagging_or_cleaner
    (service : option ServiceInfo.t) (clock : Clock) (iclock : IngestClock)
    (torrent_hash : string) (torrent_data : option TorrentInfo.t)
    (task_type : TaskType.t) (p : Plugin) (h : string) (t : TorrentTask.t) :
  data_torrents p !! h = Some t ->
  let snapshot := seeding_torrents_dict (Downloader.torrents (client p)) in
  (data_torrents (state_after (check cfg service clock p)) !! h = None ->
   (is_qbittorrent service = true
    /\ exists torrent,
         dict_get h snapshot = Some torrent
         /\ (HNRConfig.hit_and_run_tag cfg ∉ Torrent.tags torrent)
         /\ TorrentTask.hr_status t <> HNRStatus.COMPLIANT)
   \/ ((0 < HNRConfig.auto_cleanup_days cfg)%Q
       /\ exists sync t1,
            __update_seeding_tasks_based_on_tags cfg service (at_added clock)
              (data_torrents p) (data_downloads p) snapshot = Some sync
            /\ tasks sync !! h = Some t1
            /\ retention_rule (at_cleanup clock)
                 (HNRConfig.auto_cleanup_days cfg * 86400)
                 (cycled cfg clock snapshot h t1)))
  /\ is_Some (data_torrents
                (state_after
                   (__process_event cfg iclock torrent_hash torrent_data
                      task_type p)) !! h).
Proof.
  intros Hh snapshot. split; [|apply process_event_keeps; by eexists].
  destruct (seeding_torrents_dict_inv (Downloader.torrents (client p)))
    as (Hnd & Hkeys & Hdom). fold snapshot in Hnd, Hkeys, Hdom.
  destruct service as [service|]; [|cbn; congruence].
  destruct (__update_seeding_tasks_based_on_tags cfg (Some service)
              (at_added clock) (data_torrents p) (data_downloads p) snapshot)
    as [sync|] eqn:Hrun.
  2:{ unfold check. fold snapshot. rewrite Hrun. cbn. congruence. }
  destruct (tasks sync !! h) as [t1|] eqn:Ht1.
  - destruct (returns (check cfg (Some service) clock p)) eqn:Hret.
    2:{ rewrite (check_raised_store cfg service clock p sync Hrun Hret).
        congruence. }
    rewrite (check_lookup cfg service clock p sync h Hrun Hret).
    fold snapshot. rewrite Ht1.
    destruct (Qle_bool (HNRConfig.auto_cleanup_days cfg) 0) eqn:Hdays;
      [discriminate|].
    destruct (cleanup_scenario _ _ _) eqn:Hc; [|discriminate].
    intros _. right. split; [by apply Qle_bool_false|].
    exists sync, t1. split; [reflexivity|]. split; [exact Ht1|].
    by apply cleanup_scenario_iff.
  - intros _. left. destruct (is_qbittorrent (Some service)) eqn:Hqb.
    2:{ unfold __update_seeding_tasks_based_on_tags in Hrun.
        rewrite Hqb in Hrun. cbn in Hrun. injection Hrun as <-.
        cbn in Ht1. congruence. }
    split; [reflexivity|].
    apply update_seeding_tasks_inv in Hrun as [Hloop _]; [|exact Hqb].
    apply reconcile_loop_inv in Hloop as (Hframe & Hat & _); [|exact Hnd].
    cbn [fst] in Hframe, Hat.
    destruct (dict_get h snapshot) as [torrent|] eqn:Hget.
    + exists torrent. split; [reflexivity|].
      apply dict_get_Some in Hget; [|exact Hnd].
      destruct (Hat _ _ Hget) as [Hr _]. rewrite Ht1, Hh in Hr.
      unfold reconciled in Hr.
      destruct (decide (HNRConfig.hit_and_run_tag cfg ∈ Torrent.tags torrent));
        [discriminate|].
      split; [assumption|].
      destruct (HNRStatus.eqb _ _) eqn:Hst; [discriminate|].
      by apply status_eqb_neq.
    + apply dict_get_None in Hget. rewrite Hframe in Ht1 by exact Hget.
      congruence.
Qed.

End Removal.

Lemma task_leaves_store_by_untagging_or_cleaner_witness :
  let cfg0 :=
    HNRConfig.mk true false NotifyMode.NONE "qb" "H&R" [1%Z] 5 100 14 7
      (fun _ => SiteConfig.mk false 5 (Some 100%Q) 14 (Some 0%Q)) in
  let t :=
    TorrentTask.mk 1 "A" "title" "" 0 0 "h1" TaskType.NORMAL true
      HNRStatus.IN_PROGRESS 5 (Some 100%Q) 14 (Some 0.1%Q) 0 0
      (Some 3600%Q) false None None in
  let torrent h :=
    Torrent.mk h [] (Some "title") None None (Some 0.1%Q) None None
      (Some 3600%Q) 1 "A" in
  let service := Some (ServiceInfo.mk "qb" true) in
  let clock := mkClock (fun _ => 50%Q) (fun _ => 50%Q) (fun _ => 50%Q) 50 in
  let iclock := mkIngestClock 100 101 102 in
  let data := TorrentInfo.mk 1 "A" "other" "" 10 true in
  let p :=
    mkPlugin (<["h1" := t]> ∅) ∅
      (Downloader.mk [torrent "h1"; torrent "h2"] false) [] in
  let snapshot := seeding_torrents_dict (Downloader.torrents (client p)) in
  let ingested :=
    state_after (__process_event cfg0 iclock "h2" (Some data) TaskType.NORMAL p)
  in
  data_torrents (state_after (check cfg0 service clock p)) !! "h1" = None
  /\ ((is_qbittorrent service = true
       /\ exists found,
            dict_get "h1" snapshot = Some found
            /\ (HNRConfig.hit_and_run_tag cfg0 ∉ Torrent.tags found)
            /\ TorrentTask.hr_status t <> HNRStatus.COMPLIANT)
      \/ ((0 < HNRConfig.auto_cleanup_days cfg0)%Q
          /\ exists sync t1,
               __update_seeding_tasks_based_on_tags cfg0 service
                 (at_added clock) (data_torrents p) (data_downloads p)
                 snapshot = Some sync
               /\ tasks sync !! "h1" = Some t1
               /\ retention_rule (at_cleanup clock)
                    (HNRConfig.auto_cleanup_days cfg0 * 86400)
                    (cycled cfg0 clock snapshot "h1" t1)))
  /\ is_Some (data_torrents ingested !! "h2")
  /\ is_Some (data_torrents ingested !! "h1").
Proof.
  intros cfg0 t torrent service clock iclock data p snapshot ingested.
  assert (Hh : data_torrents p !! "h1" = Some t) by reflexivity.
  pose proof (task_leaves_store_by_untagging_or_cleaner cfg0 service clock
                iclock "h2" (Some data) TaskType.NORMAL p "h1" t Hh) as H.
  cbn zeta in H. destruct H as [Hcheck Hingest].
  split; [reflexivity|]. split; [apply Hcheck; reflexivity|].
  split; [by eexists|exact Hingest].
Defined.

(** C7 as stated fails: with the Cleaner disabled, a check cycle whose
    snapshot shows the torrent without the management tag takes an
    IN_PROGRESS task out of TaskStore, in the tag reconciliation. *)
Lemma reconciliation_removes_without_cleaner :
  let cfg0 :=
    HNRConfig.mk true false NotifyMode.NONE "qb" "H&R" [1%Z] 5 100 14 0
      (fun _ => SiteConfig.mk false 5 (Some 100%Q) 14 (Some 0%Q)) in
  let t :=
    TorrentTask.mk 1 "A" "title" "" 0 0 "h1" TaskType.NORMAL true
      HNRStatus.IN_PROGRESS 5 (Some 100%Q) 14 (Some 0.1%Q) 0 0
      (Some 3600%Q) false None None in
  let torrent :=
    Torrent.mk "h1" [] (Some "title") None None (Some 0.1%Q) None None
      (Some 3600%Q) 1 "A" in
  let service := Some (ServiceInfo.mk "qb" true) in
  let clock := mkClock (fun _ => 50%Q) (fun _ => 50%Q) (fun _ => 50%Q) 50 in
  let p := mkPlugin (<["h1" := t]> ∅) ∅ (Downloader.mk [torrent] false) [] in
  data_torrents p !! "h1" = Some t
  /\ __auto_cleanup cfg0 50 (data_torrents p) = Returned (data_torrents p)
  /\ (tasks <$> __update_seeding_tasks_based_on_tags cfg0 service
                  (at_added clock) (data_torrents p) (data_downloads p)
                  (seeding_torrents_dict (Downloader.torrents (client p))))
     = Some ∅
  /\ check cfg0 service clock p
     = Returned (mkPlugin ∅ ∅ (Downloader.mk [torrent] false) []).
Proof.
  repeat split.
Qed.

(** ** IngestionHandler *)

Section Ingestion.

Variable cfg : HNRConfig.t.

Lemma init_hr_status_hash (t : TorrentTask.t) :
  TorrentTask.hash (__init_hr_status cfg t) = TorrentTask.hash t.
Proof.
  unfold __init_hr_status.
  destruct (SiteConfig.hr_active _); simpl; [reflexivity|].
  destruct (TorrentTask.hit_and_run t); reflexivity.
Qed.

Lemma init_hr_status_site (t : TorrentTask.t) :
  TorrentTask.site (__init_hr_status cfg t) = TorrentTask.site t.
Proof.
  unfold __init_hr_status.
  destruct (SiteConfig.hr_active _); simpl; [reflexivity|].
  destruct (TorrentTask.hit_and_run t); reflexivity.
Qed.

Lemma get_torrents_set_torrent_tag (h : string) (v : list string)
    (d : Downloader.t) :
  Downloader.get_torrents h (Downloader.set_torrent_tag h v d)
  = map (Torrent.set_tags v) (Downloader.get_torrents h d).
Proof.
  unfold Downloader.get_torrents, Downloader.set_torrent_tag. cbn.
  induction (Downloader.torrents d) as [|x l IH]; [reflexivity|].
  cbn [map]. destruct (decide (Torrent.hash x = h)) as [Hx|Hx].
  - rewrite !filter_cons_True by done. cbn [map]. by rewrite IH.
  - rewrite !filter_cons_False by done. exact IH.
Qed.

(** Where the client answers, the torrent of a task under obligation
    carries the tag once [__set_hit_and_run_tag] has run. *)
Lemma set_hit_and_run_tag_tagged (t : TorrentTask.t) (d : Downloader.t) :
  TorrentTask.hash t <> "" ->
  TorrentTask.hit_and_run t = true ->
  Downloader.get_torrents (TorrentTask.hash t) d <> [] ->
  Downloader.tag_calls_raise d = false ->
  exists torrent rest,
    Downloader.get_torrents (TorrentTask.hash t) (__set_hit_and_run_tag cfg t d)
    = torrent :: rest
    /\ HNRConfig.hit_and_run_tag cfg ∈ Torrent.tags torrent.
Proof.
  intros Hhash Hhr Hfound Hok.
  unfold __set_hit_and_run_tag, __update_hit_and_run_tag.
  rewrite decide_False by exact Hhash. rewrite Hhr. cbn [negb].
  destruct (Downloader.get_torrents (TorrentTask.hash t) d)
    as [|torrent rest] eqn:Hget; [done|].
  rewrite Hok.
  destruct (decide (HNRConfig.hit_and_run_tag cfg ∈ Torrent.tags torrent))
    as [Hin|Hnin].
  - exists torrent, rest. by split.
  - rewrite get_torrents_set_torrent_tag, Hget. cbn [map].
    eexists _, _. split; [reflexivity|]. cbn.
    apply elem_of_app. right. by left.
Qed.

(** C8.  An event that passes validation (a hash, a descriptor, the torrent
    found in the client) leaves the history record of the event in the
    document "downloads" whatever the obligation; when the site is enabled
    and [hit_and_run] holds after initialization, the task is stored under
    the hash and the tag call is made on the client (so that, where the
    client answers, the torrent carries the tag); otherwise TaskStore, the
    client and the messages posted are left as they were. *)
Theorem process_event_ingests (clock : IngestClock) (torrent_hash : string)
    (torrent_data : TorrentInfo.t) (task_type : TaskType.t) (p : Plugin) :
  torrent_hash <> "" ->
  Downloader.get_torrents torrent_hash (client p) <> [] ->
  (at_purge clock - 30 * 24 * 60 * 60 < at_history clock)%Q ->
  let p' :=
    state_after
      (__process_event cfg clock torrent_hash (Some torrent_data) task_type p)
  in
  let torrent_task :=
    __init_hr_status cfg
      (__create_torrent_task (at_task clock) torrent_hash torrent_data
         task_type) in
  let obligation :=
    TorrentInfo.site torrent_data ∈ HNRConfig.sites cfg
    /\ TorrentTask.hit_and_run torrent_task = true in
  data_downloads p' !! torrent_hash
  = Some (__create_torrent_history (at_history clock) torrent_hash
            torrent_data task_type)
  /\ (obligation ->
      data_torrents p' = <[torrent_hash := torrent_task]> (data_torrents p)
      /\ client p' = __set_hit_and_run_tag cfg torrent_task (client p)
      /\ (Downloader.tag_calls_raise (client p) = false ->
          exists torrent rest,
            Downloader.get_torrents torrent_hash (client p') = torrent :: rest
            /\ HNRConfig.hit_and_run_tag cfg ∈ Torrent.tags torrent))
  /\ (~ obligation ->
      data_torrents p' = data_torrents p
      /\ client p' = client p
      /\ outbox p' = outbox p).
Proof.
  intros Hhash Hfound Hfresh p' torrent_task obligation.
  assert (Hth : TorrentTask.hash torrent_task = torrent_hash).
  { unfold torrent_task. by rewrite init_hr_status_hash. }
  subst p'. unfold __process_event. rewrite decide_False by exact Hhash.
  destruct (Downloader.get_torrents torrent_hash (client p))
    as [|found rest] eqn:Hget; [done|].
  unfold __process_torrent_task. cbn [TorrentTask.site __create_torrent_task
    TorrentTask.of_fields data_torrents data_downloads client outbox].
  fold (__create_torrent_task (at_task clock) torrent_hash torrent_data task_type).
  fold torrent_task.
  assert (Hhist :
    __save_and_cleanup_downloads clock torrent_hash torrent_data task_type
      (data_downloads p) !! torrent_hash
    = Some (__create_torrent_history (at_history clock) torrent_hash
              torrent_data task_type)).
  { unfold __save_and_cleanup_downloads. apply map_lookup_filter_Some.
    split; [apply lookup_insert_eq|]. cbn. by apply Qltb_lt. }
  destruct (decide (TorrentInfo.site torrent_data ∈ HNRConfig.sites cfg))
    as [Hsite|Hsite].
  - destruct (TorrentTask.hit_and_run torrent_task) eqn:Hhr.
    + assert (Hstate : forall q : Outcome Plugin,
                data_torrents (state_after q)
                = <[torrent_hash := torrent_task]> (data_torrents p) ->
                data_downloads (state_after q)
                = __save_and_cleanup_downloads clock torrent_hash torrent_data
                    task_type (data_downloads p) ->
                client (state_after q)
                = __set_hit_and_run_tag cfg torrent_task (client p) ->
                data_downloads (state_after q) !! torrent_hash
                = Some (__create_torrent_history (at_history clock)
                          torrent_hash torrent_data task_type)
                /\ (obligation ->
                    data_torrents (state_after q)
                    = <[torrent_hash := torrent_task]> (data_torrents p)
                    /\ client (state_after q)
                       = __set_hit_and_run_tag cfg torrent_task (client p)
                    /\ (Downloader.tag_calls_raise (client p) = false ->
                        exists torrent rest,
                          Downloader.get_torrents torrent_hash
                            (client (state_after q)) = torrent :: rest
                          /\ HNRConfig.hit_and_run_tag cfg
                               ∈ Torrent.tags torrent))
                /\ (~ obligation ->
                    data_torrents (state_after q) = data_torrents p
                    /\ client (state_after q) = client p
                    /\ outbox (state_after q) = outbox p)).
      { intros q Hq1 Hq2 Hq3. rewrite Hq2. split; [exact Hhist|]. split.
        - intros _. split; [exact Hq1|]. split; [exact Hq3|].
          intros Hok. rewrite Hq3, <- Hth.
          apply set_hit_and_run_tag_tagged; try assumption.
          + by rewrite Hth.
          + rewrite Hth, Hget. discriminate.
        - intros Hno. destruct Hno. by split. }
      cbn zeta. rewrite Hth.
      destruct (__log_torrent_hr_status torrent_task);
        [destruct (__send_hr_message cfg torrent_task _ _)|];
        by apply Hstate.
    + cbn [state_after data_torrents data_downloads client outbox].
      split; [exact Hhist|]. split.
      * intros [_ Hf]. discriminate.
      * by intros _.
  - cbn [state_after data_torrents data_downloads client outbox].
    split; [exact Hhist|]. split.
    + intros [Hs _]. contradiction.
    + by intros _.
Qed.

End Ingestion.

(** ** Configuration validation *)

Lemma validate_config_disabled (config : HNRConfig.t) :
  HNRConfig.enabled config = false ->
  HNRConfig.onlyonce config = false ->
  (__validate_config config).1 = true.
Proof. intros He Ho. unfold __validate_config. by rewrite He, Ho. Qed.

Lemma validate_config_enforced (config : HNRConfig.t) :
  HNRConfig.enabled config = true \/ HNRConfig.onlyonce config = true ->
  (__validate_config config).1 = false <->
  HNRConfig.downloader config = ""
  \/ (HNRConfig.hr_duration config <= 0)%Q
  \/ (HNRConfig.hr_deadline_days config <= 0)%Q
  \/ (HNRConfig.hr_ratio config <= 0)%Q.
Proof.
  intros Hon. unfold __validate_config.
  replace (negb (HNRConfig.enabled config) && negb (HNRConfig.onlyonce config))
    with false by (destruct Hon as [-> | ->]; by rewrite ?andb_false_r).
  rewrite <- !Qle_bool_iff.
  destruct (decide (HNRConfig.downloader config = "")) as [Hd|Hd];
    [split; [by left|reflexivity]|].
  destruct (Qle_bool (HNRConfig.hr_duration config) 0);
    [split; [by right; left|reflexivity]|].
  destruct (Qle_bool (HNRConfig.hr_deadline_days config) 0);
    [split; [by right; right; left|reflexivity]|].
  destruct (Qle_bool (HNRConfig.hr_ratio config) 0);
    [split; [by right; right; right|reflexivity]|].
  cbn. split; [discriminate|]. intros [?|[?|[?|?]]]; congruence.
Qed.

Lemma validate_config_failure_enabled (config : HNRConfig.t) :
  (__validate_config config).1 = false ->
  HNRConfig.enabled config || HNRConfig.onlyonce config = true.
Proof.
  unfold __validate_config.
  destruct (HNRConfig.enabled config), (HNRConfig.onlyonce config);
    cbn; try reflexivity. discriminate.
Qed.

Lemma parse_obj_switches (config : ConfigDict.t) (hnr_config : HNRConfig.t) :
  parse_obj config = Some hnr_config ->
  HNRConfig.enabled hnr_config = ConfigDict.enabled config
  /\ HNRConfig.onlyonce hnr_config = ConfigDict.onlyonce config.
Proof.
  unfold parse_obj.
  destruct (ConfigDict.hr_ratio config), (ConfigDict.hr_duration config),
    (ConfigDict.hr_deadline_days config), (ConfigDict.auto_cleanup_days config);
    try discriminate.
  by intros [= <-].
Qed.

(** C9, amended.  Validation passes whenever the engine is neither
    enabled nor asked to run once; otherwise it fails exactly when the
    downloader is unset or the duration, the deadline days or the ratio is
    0 or less.  On such a failure [init_plugin] returns without raising:
    the configuration is saved with [enabled] and [onlyonce] both off and
    its other entries as they were given, one alert is put, no job is
    scheduled, and the runtime configuration is cleared, whatever it was
    before. *)
Theorem invalid_config_disables_engine (indexers : list (Z * bool))
    (config : ConfigDict.t) (hnr_config : HNRConfig.t) (rt : Runtime) :
  parse_obj config = Some hnr_config ->
  (HNRConfig.enabled hnr_config = false ->
   HNRConfig.onlyonce hnr_config = false ->
   (__validate_config hnr_config).1 = true)
  /\ (HNRConfig.enabled hnr_config = true
      \/ HNRConfig.onlyonce hnr_config = true ->
      ((__validate_config hnr_config).1 = false <->
       HNRConfig.downloader hnr_config = ""
       \/ (HNRConfig.hr_duration hnr_config <= 0)%Q
       \/ (HNRConfig.hr_deadline_days hnr_config <= 0)%Q
       \/ (HNRConfig.hr_ratio hnr_config <= 0)%Q))
  /\ ((__validate_config hnr_config).1 = false ->
      exists rt' saved,
        init_plugin indexers (Some config) rt = Some rt'
        /\ saved_config rt' = Some saved
        /\ ConfigDict.enabled saved = false
        /\ ConfigDict.onlyonce saved = false
        /\ same_settings config saved
        /\ alerts rt' = alerts rt ++ [SystemMessage "H&R助手"]
        /\ run_once_scheduled rt' = run_once_scheduled rt
        /\ _hnr_config rt' = None).
Proof.
  intros Hparse. split; [apply validate_config_disabled|].
  split; [apply validate_config_enforced|].
  intros Hfail. pose proof (validate_config_failure_enabled _ Hfail) as Hon.
  destruct (parse_obj_switches _ _ Hparse) as [He Ho]. rewrite He, Ho in Hon.
  unfold init_plugin, __validate_and_fix_config. rewrite Hparse.
  destruct (__validate_config hnr_config) as [result reason].
  cbn in Hfail. subst result. cbn.
  rewrite Hon. eexists _, _. split; [reflexivity|]. cbn.
  split; [reflexivity|]. split; [reflexivity|]. split; [reflexivity|].
  split; [by repeat split|]. by repeat split.
Qed.

Lemma invalid_config_disables_engine_witness :
  let sc := fun _ : string => SiteConfig.mk false 5 (Some 100%Q) 14 (Some 0%Q) in
  let config :=
    ConfigDict.mk true false NotifyMode.ALWAYS "qb" "H&R" [1%Z] (Some 0%Q)
      (Some 144%Q) (Some 14%Q) (Some 7%Q) sc in
  let rt := mkRuntime None None [] false in
  exists rt' saved,
    init_plugin [] (Some config) rt = Some rt'
    /\ saved_config rt' = Some saved
    /\ ConfigDict.enabled saved = false
    /\ ConfigDict.onlyonce saved = false
    /\ same_settings config saved
    /\ alerts rt' = alerts rt ++ [SystemMessage "H&R助手"]
    /\ run_once_scheduled rt' = run_once_scheduled rt
    /\ _hnr_config rt' = None.
Proof.
  intros sc config rt.
  apply (invalid_config_disables_engine [] config
           (HNRConfig.mk true false NotifyMode.ALWAYS "qb" "H&R" [1%Z] 0 144 14
              7 sc) rt); reflexivity.
Defined.

(** C9 as stated fails in its last part: a valid runtime configuration in
    place before [init_plugin] is given a configuration that fails
    validation is not left in place, it is cleared. *)
Lemma invalid_config_clears_runtime_config :
  let sc := fun _ : string => SiteConfig.mk false 5 (Some 100%Q) 14 (Some 0%Q) in
  let good :=
    HNRConfig.mk true false NotifyMode.ALWAYS "qb" "H&R" [1%Z] 2 144 14 7 sc in
  let config :=
    ConfigDict.mk true false NotifyMode.ALWAYS "qb" "H&R" [1%Z] (Some 0%Q)
      (Some 144%Q) (Some 14%Q) (Some 7%Q) sc in
  let rt := mkRuntime (Some good) (Some (to_dict good)) [] false in
  (__validate_config good).1 = true
  /\ (exists bad, parse_obj config = Some bad
                  /\ (__validate_config bad).1 = false)
  /\ exists rt', init_plugin [] (Some config) rt = Some rt'
                 /\ _hnr_config rt' = None
                 /\ _hnr_config rt' <> _hnr_config rt.
Proof.
  intros sc good config rt. split; [reflexivity|]. split.
  - eexists. split; reflexivity.
  - eexists. split; [reflexivity|]. split; [reflexivity|]. discriminate.
Qed.

(** ** The theorems at concrete inputs *)

Lemma untagged_entry_removed_unless_compliant_witness :
  let cfg0 :=
    HNRConfig.mk true false NotifyMode.NONE "qb" "H&R" [1%Z] 5 100 14 7
      (fun _ => SiteConfig.mk false 5 (Some 100%Q) 14 (Some 0%Q)) in
  let t :=
    TorrentTask.mk 1 "A" "title" "" 0 0 "h1" TaskType.NORMAL true
      HNRStatus.IN_PROGRESS 5 (Some 100%Q) 14 (Some 0.1%Q) 0 0
      (Some 3600%Q) false None None in
  let torrent :=
    Torrent.mk "h1" ["other"] (Some "title") None None (Some 0.1%Q) None None
      (Some 3600%Q) 1 "A" in
  exists sync,
    __update_seeding_tasks_based_on_tags cfg0
      (Some (ServiceInfo.mk "qb" true)) (fun _ => 50%Q) (<["h1" := t]> ∅) ∅
      [("h1", torrent)] = Some sync
    /\ tasks sync !! "h1" = None.
Proof.
  intros cfg0 t torrent.
  destruct (untagged_entry_removed_unless_compliant cfg0
              (Some (ServiceInfo.mk "qb" true)) (fun _ => 50%Q)
              (<["h1" := t]> ∅) ∅ [("h1", torrent)] "h1" torrent t)
    as [Hremoved Hreturns].
  - reflexivity.
  - apply NoDup_singleton.
  - apply list_elem_of_here.
  - cbn. intros Htag. apply list_elem_of_singleton in Htag. discriminate.
  - reflexivity.
  - destruct Hreturns as [sync Hrun].
    + apply Forall_cons. split; [|apply Forall_nil_2].
      intros Htag. cbn in Htag. apply list_elem_of_singleton in Htag.
      discriminate.
    + exists sync. split; [exact Hrun|].
      apply (Hremoved sync Hrun). discriminate.
Defined.

Lemma update_seeding_tasks_idempotent_witness :
  let cfg0 :=
    HNRConfig.mk true false NotifyMode.ALWAYS "qb" "H&R" [1%Z] 5 100 14 7
      (fun _ => SiteConfig.mk false 5 (Some 100%Q) 14 (Some 0%Q)) in
  let t :=
    TorrentTask.mk 1 "A" "title" "" 0 0 "h1" TaskType.NORMAL true
      HNRStatus.IN_PROGRESS 5 (Some 100%Q) 14 (Some 0.1%Q) 0 0
      (Some 3600%Q) true (Some 40%Q) None in
  let gone :=
    TorrentTask.mk 1 "A" "gone" "" 0 0 "h2" TaskType.NORMAL true
      HNRStatus.OVERDUE 5 (Some 100%Q) 14 (Some 0.1%Q) 0 0
      (Some 3600%Q) false None None in
  let snapshot :=
    [("h1", Torrent.mk "h1" ["H&R"] (Some "title") None None (Some 0.1%Q)
              None None (Some 3600%Q) 1 "A");
     ("h2", Torrent.mk "h2" [] (Some "gone") None None (Some 0.1%Q)
              None None (Some 3600%Q) 1 "A")] in
  let service := Some (ServiceInfo.mk "qb" true) in
  let first :=
    mkTagSync (<["h1" := TorrentTask.set_deleted false t]> ∅)
      (mkTagDiff [] [TorrentTask.set_deleted false t] [gone])
      [SiteMessage "【H&R种子任务移除】" ["h2"];
       SiteMessage "【H&R任务状态更新】" ["h1"]]
      true in
  __update_seeding_tasks_based_on_tags cfg0 service (fun _ => 60%Q)
    (tasks first) ∅ snapshot
  = Some (mkTagSync (tasks first) no_diff [] false).
Proof.
  intros cfg0 t gone snapshot service first.
  apply (update_seeding_tasks_idempotent cfg0 service (fun _ => 50%Q)
           (fun _ => 60%Q) (<["h1" := t]> (<["h2" := gone]> ∅)) ∅ ∅ snapshot
           first).
  - apply NoDup_cons. split; [|apply NoDup_singleton].
    intros H. apply list_elem_of_singleton in H. discriminate.
  - reflexivity.
Defined.

(** The marking step on a task it can log: the task missing from the
    snapshot is marked deleted at the reading of the clock. *)
Example missing_torrent_marked :
  let cfg0 :=
    HNRConfig.mk true false NotifyMode.ALWAYS "qb" "H&R" [1%Z] 5 100 14 7
      (fun _ => SiteConfig.mk false 5 (Some 100%Q) 14 (Some 0%Q)) in
  let t :=
    TorrentTask.mk 1 "A" "title" "" 0 0 "h1" TaskType.NORMAL true
      HNRStatus.IN_PROGRESS 5 (Some 100%Q) 14 (Some 0.1%Q) 0 0
      (Some 3600%Q) false None None in
  let store : gmap string TorrentTask.t := <["h1" := t]> ∅ in
  exists store' notices t',
    __update_undeleted_torrents_missing_in_downloader cfg0 (fun _ => 70%Q)
      store (map_to_list store).*1
      (omap (λ th, dict_get th (seeding_torrents_dict []))
            (map_to_list store).*1)
    = Returned (store', notices)
    /\ store' !! "h1" = Some t'
    /\ TorrentTask.deleted t' = true
    /\ TorrentTask.deleted_time t' = Some 70%Q.
Proof.
  intros cfg0 t store.
  destruct (__update_undeleted_torrents_missing_in_downloader cfg0 _ store _ _)
    as [[store' notices]|[store' notices]] eqn:Hrun;
    [|vm_compute in Hrun; discriminate].
  destruct (missing_torrents_marked_deleted cfg0 (fun _ => 70%Q) store []
              store' notices Hrun) as [Hmark _].
  destruct (Hmark "h1" t eq_refl) as [Hm _].
  destruct Hm as (t' & Ht' & Hd & Hdt & _);
    [cbn; apply not_elem_of_nil|reflexivity|].
  exists store', notices, t'. by repeat split.
Qed.

(** A call of [__update_hr_status] that raises has made its assignments:
    under the mode "always", a task that meets the ratio but has no
    [seeding_time] becomes COMPLIANT and loses its tag, and the call raises
    on the text of the message, which is not posted. *)
Example update_hr_status_raises_after_assigning :
  let cfg0 :=
    HNRConfig.mk true false NotifyMode.ALWAYS "qb" "H&R" [1%Z] 5 100 14 7
      (fun _ => SiteConfig.mk false 5 (Some 100%Q) 14 (Some 0%Q)) in
  let t :=
    TorrentTask.mk 1 "A" "title" "" 0 0 "h1" TaskType.NORMAL true
      HNRStatus.IN_PROGRESS 5 (Some 100%Q) 14 (Some 6%Q) 0 0
      None false None None in
  let e := __update_hr_status cfg0 1000 t in
  TorrentTask.hr_status (task e) = HNRStatus.COMPLIANT
  /\ TorrentTask.hr_met_time (task e) = Some 1000%Q
  /\ untag e = Some (task e)
  /\ posted e = []
  /\ raised e = true.
Proof. by repeat split. Qed.



Lemma process_event_ingests_witness :
  let cfg0 :=
    HNRConfig.mk true false NotifyMode.ALWAYS "qb" "H&R" [1%Z] 5 100 14 7
      (fun _ => SiteConfig.mk true 5 (Some 100%Q) 14 (Some 0%Q)) in
  let torrent :=
    Torrent.mk "h1" [] (Some "title") None None (Some 0%Q) None None
      (Some 0%Q) 1 "A" in
  let p := mkPlugin ∅ ∅ (Downloader.mk [torrent] false) [] in
  let data := TorrentInfo.mk 1 "A" "title" "" 10 false in
  let clock := mkIngestClock 100 101 102 in
  data_downloads
    (state_after
       (__process_event cfg0 clock "h1" (Some data) TaskType.NORMAL p)) !! "h1"
  = Some (__create_torrent_history 100 "h1" data TaskType.NORMAL).
Proof.
  intros cfg0 torrent p data clock.
  apply (process_event_ingests cfg0 clock "h1" data TaskType.NORMAL p).
  - discriminate.
  - discriminate.
  - reflexivity.
Defined.

Lemma update_seeding_tasks_skipped_witness :
  let cfg0 :=
    HNRConfig.mk true false NotifyMode.ALWAYS "tr" "H&R" [1%Z] 5 100 14 7
      (fun _ => SiteConfig.mk false 5 (Some 100%Q) 14 (Some 0%Q)) in
  let t :=
    TorrentTask.mk 1 "A" "title" "" 0 0 "h1" TaskType.NORMAL true
      HNRStatus.IN_PROGRESS 5 (Some 100%Q) 14 (Some 0.1%Q) 0 0
      (Some 3600%Q) false None None in
  let torrent :=
    Torrent.mk "h1" [] (Some "title") None None (Some 0.1%Q) None None
      (Some 3600%Q) 1 "A" in
  __update_seeding_tasks_based_on_tags cfg0
    (Some (ServiceInfo.mk "tr" false)) (fun _ => 50%Q) (<["h1" := t]> ∅) ∅
    [("h1", torrent)]
  = Some (mkTagSync (<["h1" := t]> ∅) (mkTagDiff [] [] []) [] false).
Proof.
  intros cfg0 t torrent.
  apply (update_seeding_tasks_skipped cfg0 (Some (ServiceInfo.mk "tr" false))).
  reflexivity.
Defined.

(** C3.  The claim fails when the snapshot has, besides the untagged
    torrent of a task, a tagged torrent the engine does not track and
    cannot convert (no history record and no site): the converted task is
    [None], the next line reads its [site_name], and the pass raises.  The
    check cycle ends there, before anything is saved, and TaskStore still
    holds the task of the untagged torrent, which is not COMPLIANT. *)
Theorem reconciliation_raises_on_unconvertible_torrent :
  let cfg0 :=
    HNRConfig.mk true false NotifyMode.NONE "qb" "H&R" [1%Z] 5 100 14 7
      (fun _ => SiteConfig.mk false 5 (Some 100%Q) 14 (Some 0%Q)) in
  let t :=
    TorrentTask.mk 1 "A" "title" "" 0 0 "h1" TaskType.NORMAL true
      HNRStatus.IN_PROGRESS 5 (Some 100%Q) 14 (Some 0.1%Q) 0 0
      (Some 3600%Q) false None None in
  let stray :=
    Torrent.mk "h0" ["H&R"] (Some "stray") None None None None None None 0 "" in
  let torrent :=
    Torrent.mk "h1" [] (Some "title") None None (Some 0.1%Q) None None
      (Some 3600%Q) 1 "A" in
  let service := Some (ServiceInfo.mk "qb" true) in
  let clock := mkClock (fun _ => 50%Q) (fun _ => 50%Q) (fun _ => 50%Q) 50 in
  let p :=
    mkPlugin (<["h1" := t]> ∅) ∅ (Downloader.mk [torrent; stray] false) [] in
  let snapshot := seeding_torrents_dict (Downloader.torrents (client p)) in
  dict_get "h1" snapshot = Some torrent
  /\ (HNRConfig.hit_and_run_tag cfg0 ∉ Torrent.tags torrent)
  /\ data_torrents p !! "h1" = Some t
  /\ TorrentTask.hr_status t <> HNRStatus.COMPLIANT
  /\ __update_seeding_tasks_based_on_tags cfg0 service (at_added clock)
       (data_torrents p) (data_downloads p) snapshot = None
  /\ check cfg0 service clock p = Raised p
  /\ data_torrents (state_after (check cfg0 service clock p)) !! "h1" = Some t.
Proof.
  intros cfg0 t stray torrent service clock p snapshot.
  split; [reflexivity|]. split; [apply not_elem_of_nil|].
  split; [reflexivity|]. split; [discriminate|].
  split; [reflexivity|]. split; reflexivity.
Qed.

(** * Further properties of the engine *)

(** ** What the reconciliation adds, resets and leaves alone *)

Section TagSynchronizerMore.

Variable cfg : HNRConfig.t.

Lemma init_hr_status_site_name (t : TorrentTask.t) :
  TorrentTask.site_name (__init_hr_status cfg t) = TorrentTask.site_name t.
Proof.
  unfold __init_hr_status.
  destruct (SiteConfig.hr_active _); simpl; [reflexivity|].
  destruct (TorrentTask.hit_and_run t); reflexivity.
Qed.

(** A task under obligation comes out of the initialization IN_PROGRESS
    with the three requirements of its site. *)
Lemma init_hr_status_obliged (t : TorrentTask.t) :
  TorrentTask.hit_and_run t = true ->
  let site_config := __get_site_config cfg (TorrentTask.site_name t) in
  let t' := __init_hr_status cfg t in
  TorrentTask.hit_and_run t' = true
  /\ TorrentTask.hr_status t' = HNRStatus.IN_PROGRESS
  /\ TorrentTask.hr_ratio t' = SiteConfig.hr_ratio site_config
  /\ TorrentTask.hr_duration t' = SiteConfig.hr_duration site_config
  /\ TorrentTask.hr_deadline_days t' = SiteConfig.hr_deadline_days site_config.
Proof.
  intros Hhr. cbn zeta. unfold __init_hr_status.
  destruct (SiteConfig.hr_active _); cbn; [by repeat split|].
  rewrite Hhr. by repeat split.
Qed.

Lemma reconcile_loop_settled (now : string -> Q)
    (histories : gmap string TorrentHistory.t)
    (es : list (string * Torrent.t)) (m : gmap string TorrentTask.t)
    (d : TagDiff) :
  (forall k torrent, (k, torrent) ∈ es -> settled cfg torrent (m !! k)) ->
  reconcile_loop cfg now histories es (m, d) = Some (m, d).
Proof.
  induction es as [|[k torrent] es IH]; intros Hs; cbn.
  - reflexivity.
  - rewrite reconcile_entry_settled.
    + apply IH. intros k' torrent' H. apply Hs. by right.
    + apply Hs. by left.
Qed.

Lemma reconcile_loop_raises (now : string -> Q)
    (histories : gmap string TorrentHistory.t)
    (es : list (string * Torrent.t)) (m : gmap string TorrentTask.t)
    (d : TagDiff) :
  NoDup es.*1 ->
  reconcile_loop cfg now histories es (m, d) = None ->
  exists k torrent,
    (k, torrent) ∈ es
    /\ HNRConfig.hit_and_run_tag cfg ∈ Torrent.tags torrent
    /\ m !! k = None
    /\ __convert_torrent_info_to_task cfg (now k) torrent histories = None.
Proof.
  revert m d. induction es as [|[k torrent] es IH]; intros m d Hnd; cbn.
  - discriminate.
  - apply NoDup_cons in Hnd as [Hk Hnd].
    destruct (reconcile_entry cfg now histories (m, d) (k, torrent))
      as [[m1 d1]|] eqn:Hstep.
    + intros Hloop. destruct (IH m1 d1 Hnd Hloop)
        as (k' & torrent' & Hin & Htag & Hnone & Hconv).
      exists k', torrent'. split; [by right|]. split; [exact Htag|].
      split; [|exact Hconv].
      apply reconcile_entry_key in Hstep as (_ & Hframe & _).
      cbn [fst] in Hframe. rewrite <- Hframe; [exact Hnone|].
      intros ->. apply Hk. apply list_elem_of_fmap. by exists (k, torrent').
    + intros _. exists k, torrent. split; [by left|].
      unfold reconcile_entry in Hstep. cbn [fst snd] in Hstep.
      destruct (decide (HNRConfig.hit_and_run_tag cfg ∈ Torrent.tags torrent))
        as [Htag|Htag].
      * split; [exact Htag|]. destruct (m !! k) as [t|].
        -- by destruct (TorrentTask.deleted t).
        -- split; [reflexivity|].
           by destruct (__convert_torrent_info_to_task cfg (now k) torrent
                          histories).
      * destruct (m !! k) as [t|]; [|discriminate].
        by destruct (HNRStatus.eqb _ _).
Qed.

(** X1.  When the pass returns, a tagged torrent of the snapshot that had
    no entry has one: the task converted from it, under obligation,
    IN_PROGRESS, not marked deleted, with the requirements of its site. *)
Theorem tagged_untracked_torrent_added
    (service : option ServiceInfo.t) (now : string -> Q)
    (store : gmap string TorrentTask.t)
    (histories : gmap string TorrentHistory.t)
    (snapshot : list (string * Torrent.t)) (sync : TagSync)
    (h : string) (torrent : Torrent.t) :
  is_qbittorrent service = true ->
  NoDup snapshot.*1 ->
  (h, torrent) ∈ snapshot ->
  HNRConfig.hit_and_run_tag cfg ∈ Torrent.tags torrent ->
  store !! h = None ->
  __update_seeding_tasks_based_on_tags cfg service now store histories snapshot
  = Some sync ->
  exists t,
    __convert_torrent_info_to_task cfg (now h) torrent histories = Some t
    /\ tasks sync !! h = Some t
    /\ TorrentTask.hit_and_run t = true
    /\ TorrentTask.hr_status t = HNRStatus.IN_PROGRESS
    /\ TorrentTask.deleted t = false
    /\ TorrentTask.hr_ratio t
       = SiteConfig.hr_ratio (__get_site_config cfg (TorrentTask.site_name t))
    /\ TorrentTask.hr_duration t
       = SiteConfig.hr_duration
           (__get_site_config cfg (TorrentTask.site_name t))
    /\ TorrentTask.hr_deadline_days t
       = SiteConfig.hr_deadline_days
           (__get_site_config cfg (TorrentTask.site_name t)).
Proof.
  intros Hqb Hnd Hin Htag Hh Hrun.
  apply update_seeding_tasks_inv in Hrun as [Hloop _]; [|exact Hqb].
  apply reconcile_loop_inv in Hloop as (_ & Hat & _); [|exact Hnd].
  destruct (Hat _ _ Hin) as [Hr Hs]. cbn [fst] in Hr, Hs.
  unfold reconciled in Hr. rewrite decide_True in Hr by exact Htag.
  rewrite Hh in Hr. unfold settled in Hs.
  rewrite decide_True in Hs by exact Htag. destruct Hs as (t & Ht & Hdel).
  rewrite Ht in Hr. exists t. split; [by symmetry|]. split; [exact Ht|].
  symmetry in Hr. unfold __convert_torrent_info_to_task in Hr.
  destruct (decide (Torrent.hash torrent = "")); [discriminate|].
  assert (Hgen : forall t0, t = __init_hr_status cfg
                                  (TorrentTask.set_hit_and_run true t0) ->
    TorrentTask.hit_and_run t = true
    /\ TorrentTask.hr_status t = HNRStatus.IN_PROGRESS
    /\ TorrentTask.deleted t = false
    /\ TorrentTask.hr_ratio t
       = SiteConfig.hr_ratio (__get_site_config cfg (TorrentTask.site_name t))
    /\ TorrentTask.hr_duration t
       = SiteConfig.hr_duration
           (__get_site_config cfg (TorrentTask.site_name t))
    /\ TorrentTask.hr_deadline_days t
       = SiteConfig.hr_deadline_days
           (__get_site_config cfg (TorrentTask.site_name t))).
  { intros t0 ->. rewrite init_hr_status_site_name.
    destruct (init_hr_status_obliged (TorrentTask.set_hit_and_run true t0)
                eq_refl) as (H1 & H2 & H3 & H4 & H5).
    by repeat split. }
  destruct (histories !! Torrent.hash torrent) as [th|].
  - injection Hr as Hr. by eapply Hgen.
  - destruct (decide (Torrent.site_name torrent = "")); [discriminate|].
    injection Hr as Hr. by eapply Hgen.
Qed.

(** X2.  When the pass returns, a tagged torrent of the snapshot that had
    an entry keeps it; the entry is the same task, with the deleted flag
    cleared if it was set and nothing else changed. *)
Theorem tagged_tracked_entry_revived
    (service : option ServiceInfo.t) (now : string -> Q)
    (store : gmap string TorrentTask.t)
    (histories : gmap string TorrentHistory.t)
    (snapshot : list (string * Torrent.t)) (sync : TagSync)
    (h : string) (torrent : Torrent.t) (t : TorrentTask.t) :
  is_qbittorrent service = true ->
  NoDup snapshot.*1 ->
  (h, torrent) ∈ snapshot ->
  HNRConfig.hit_and_run_tag cfg ∈ Torrent.tags torrent ->
  store !! h = Some t ->
  __update_seeding_tasks_based_on_tags cfg service now store histories snapshot
  = Some sync ->
  tasks sync !! h = Some (TorrentTask.set_deleted false t)
  /\ (TorrentTask.deleted t = false -> tasks sync !! h = Some t).
Proof.
  intros Hqb Hnd Hin Htag Hh Hrun.
  apply update_seeding_tasks_inv in Hrun as [Hloop _]; [|exact Hqb].
  apply reconcile_loop_inv in Hloop as (_ & Hat & _); [|exact Hnd].
  destruct (Hat _ _ Hin) as [Hr _]. cbn [fst] in Hr. rewrite Hr.
  unfold reconciled. rewrite decide_True by exact Htag. rewrite Hh.
  destruct t as [? ? ? ? ? ? ? ? ? ? ? ? ? ? ? ? ? del ? ?]. cbn.
  destruct del; split; try reflexivity. discriminate.
Qed.

(** X3.  The pass touches only the hashes of the snapshot: under any other
    hash TaskStore holds after the pass what it held before. *)
Theorem reconciliation_frame
    (service : option ServiceInfo.t) (now : string -> Q)
    (store : gmap string TorrentTask.t)
    (histories : gmap string TorrentHistory.t)
    (snapshot : list (string * Torrent.t)) (sync : TagSync) (h : string) :
  NoDup snapshot.*1 ->
  h ∉ snapshot.*1 ->
  __update_seeding_tasks_based_on_tags cfg service now store histories snapshot
  = Some sync ->
  tasks sync !! h = store !! h.
Proof.
  intros Hnd Hh Hrun. destruct (is_qbittorrent service) eqn:Hqb.
  - apply update_seeding_tasks_inv in Hrun as [Hloop _]; [|exact Hqb].
    apply reconcile_loop_inv in Hloop as (Hframe & _); [|exact Hnd].
    by apply Hframe.
  - unfold __update_seeding_tasks_based_on_tags in Hrun. rewrite Hqb in Hrun.
    cbn in Hrun. by injection Hrun as <-.
Qed.

(** X4.  On a qbittorrent service the pass raises exactly when the
    snapshot has a tagged torrent without entry that does not convert to a
    task. *)
Theorem reconciliation_raises_iff
    (service : option ServiceInfo.t) (now : string -> Q)
    (store : gmap string TorrentTask.t)
    (histories : gmap string TorrentHistory.t)
    (snapshot : list (string * Torrent.t)) :
  is_qbittorrent service = true ->
  NoDup snapshot.*1 ->
  __update_seeding_tasks_based_on_tags cfg service now store histories snapshot
  = None
  <-> exists k torrent,
        (k, torrent) ∈ snapshot
        /\ HNRConfig.hit_and_run_tag cfg ∈ Torrent.tags torrent
        /\ store !! k = None
        /\ __convert_torrent_info_to_task cfg (now k) torrent histories = None.
Proof.
  intros Hqb Hnd. split.
  - unfold __update_seeding_tasks_based_on_tags. rewrite Hqb. cbn.
    destruct (reconcile_loop cfg now histories snapshot (store, no_diff))
      as [[m' d']|] eqn:Hloop; [discriminate|].
    intros _. by eapply reconcile_loop_raises.
  - intros (k & torrent & Hin & Htag & Hk & Hconv).
    destruct (__update_seeding_tasks_based_on_tags cfg service now store
                histories snapshot) as [sync|] eqn:Hrun; [|reflexivity].
    apply update_seeding_tasks_inv in Hrun as [Hloop _]; [|exact Hqb].
    apply reconcile_loop_inv in Hloop as (_ & Hat & _); [|exact Hnd].
    destruct (Hat _ _ Hin) as [Hr Hs]. cbn [fst] in Hr, Hs.
    unfold reconciled in Hr. rewrite decide_True in Hr by exact Htag.
    rewrite Hk, Hconv in Hr. unfold settled in Hs.
    rewrite decide_True in Hs by exact Htag.
    destruct Hs as (t & Ht & _). congruence.
Qed.

(** X5.  The conversion of a torrent gives no task exactly when the
    torrent has no hash, or has neither a history record nor a site; and
    when a history record exists, the task takes its site, title and
    creation time from the record, not from the torrent. *)
Theorem convert_torrent_info_to_task_none_iff (now : Q) (torrent : Torrent.t)
    (histories : gmap string TorrentHistory.t) :
  (__convert_torrent_info_to_task cfg now torrent histories = None
   <-> Torrent.hash torrent = ""
       \/ (histories !! Torrent.hash torrent = None
           /\ Torrent.site_name torrent = ""))
  /\ (forall th t,
        histories !! Torrent.hash torrent = Some th ->
        __convert_torrent_info_to_task cfg now torrent histories = Some t ->
        TorrentTask.site t = TorrentHistory.site th
        /\ TorrentTask.site_name t = TorrentHistory.site_name th
        /\ TorrentTask.title t = TorrentHistory.title th
        /\ TorrentTask.time t = TorrentHistory.time th
        /\ TorrentTask.hash t = TorrentHistory.hash th).
Proof.
  unfold __convert_torrent_info_to_task. split.
  - destruct (decide (Torrent.hash torrent = "")) as [He|He].
    + split; [by left|reflexivity].
    + destruct (histories !! Torrent.hash torrent) as [th|].
      * split; [discriminate|]. intros [?|[? _]]; [contradiction|discriminate].
      * destruct (decide (Torrent.site_name torrent = "")) as [Hs|Hs].
        -- split; [by right|reflexivity].
        -- split; [discriminate|]. intros [?|[_ ?]]; contradiction.
  - intros th t Hth. rewrite Hth.
    destruct (decide (Torrent.hash torrent = "")); [discriminate|].
    intros [= <-].
    rewrite init_hr_status_site_name.
    unfold __init_hr_status.
    destruct (SiteConfig.hr_active _); by cbn.
Qed.

(** X6.  The pass saves TaskStore exactly when it changed it. *)
Theorem reconciliation_saves_iff_changed
    (service : option ServiceInfo.t) (now : string -> Q)
    (store : gmap string TorrentTask.t)
    (histories : gmap string TorrentHistory.t)
    (snapshot : list (string * Torrent.t)) (sync : TagSync) :
  NoDup snapshot.*1 ->
  __update_seeding_tasks_based_on_tags cfg service now store histories snapshot
  = Some sync ->
  is_modified sync = false <-> tasks sync = store.
Proof.
  intros Hnd Hrun. split; [by eapply sync_unmodified|].
  intros Hsame. destruct (is_qbittorrent service) eqn:Hqb.
  - apply update_seeding_tasks_inv in Hrun as [Hloop Hm]; [|exact Hqb].
    pose proof Hloop as Hloop'.
    apply reconcile_loop_inv in Hloop' as (_ & Hat & _); [|exact Hnd].
    cbn [fst] in Hat. rewrite Hsame in Hat.
    rewrite (reconcile_loop_settled now histories snapshot store no_diff)
      in Hloop.
    + injection Hloop as _ Hd. rewrite Hm, <- Hd. reflexivity.
    + intros k torrent Hin. by destruct (Hat _ _ Hin).
  - unfold __update_seeding_tasks_based_on_tags in Hrun. rewrite Hqb in Hrun.
    cbn in Hrun. by injection Hrun as <-.
Qed.

End TagSynchronizerMore.

(** ** The check cycle as a whole *)

Section CycleMore.

Variable cfg : HNRConfig.t.

(** What the pass can have made of an entry. *)
Lemma sync_entry_cases (service : option ServiceInfo.t) (now : string -> Q)
    (store : gmap string TorrentTask.t)
    (histories : gmap string TorrentHistory.t)
    (snapshot : list (string * Torrent.t)) (sync : TagSync)
    (h : string) (t : TorrentTask.t) :
  NoDup snapshot.*1 ->
  __update_seeding_tasks_based_on_tags cfg service now store histories snapshot
  = Some sync ->
  store !! h = Some t ->
  tasks sync !! h = None
  \/ tasks sync !! h = Some t
  \/ tasks sync !! h = Some (TorrentTask.set_deleted false t).
Proof.
  intros Hnd Hrun Hh. destruct (is_qbittorrent service) eqn:Hqb.
  - apply update_seeding_tasks_inv in Hrun as [Hloop _]; [|exact Hqb].
    apply reconcile_loop_inv in Hloop as (Hframe & Hat & _); [|exact Hnd].
    cbn [fst] in Hframe, Hat.
    destruct (dict_get h snapshot) as [torrent|] eqn:Hget.
    + apply dict_get_Some in Hget; [|exact Hnd].
      destruct (Hat _ _ Hget) as [-> _]. rewrite Hh. unfold reconciled.
      destruct (decide _).
      * destruct (TorrentTask.deleted t); tauto.
      * destruct (HNRStatus.eqb _ _); tauto.
    + apply dict_get_None in Hget. right. left.
      rewrite Hframe by exact Hget. exact Hh.
  - unfold __update_seeding_tasks_based_on_tags in Hrun. rewrite Hqb in Hrun.
    cbn in Hrun. injection Hrun as <-. cbn. tauto.
Qed.

Lemma check_downloads (service : option ServiceInfo.t) (clock : Clock)
    (p : Plugin) :
  data_downloads (state_after (check cfg service clock p)) = data_downloads p.
Proof.
  unfold check. destruct service; [|reflexivity].
  destruct (__update_seeding_tasks_based_on_tags _ _ _ _ _ _); [|reflexivity].
  destruct (negb _); [reflexivity|].
  destruct (__update_undeleted_torrents_missing_in_downloader _ _ _ _ _)
    as [[? ?]|[? ?]]; [|reflexivity].
  cbn zeta. by destruct (__auto_cleanup _ _ _).
Qed.

(** X7.  A check cycle never writes the document "downloads", and a hash
    it leaves in TaskStore was there before or belongs to a torrent of the
    snapshot that carries the management tag. *)
Theorem check_adds_only_tagged_torrents
    (service : option ServiceInfo.t) (clock : Clock) (p : Plugin)
    (h : string) :
  let snapshot := seeding_torrents_dict (Downloader.torrents (client p)) in
  data_downloads (state_after (check cfg service clock p)) = data_downloads p
  /\ (is_Some (data_torrents (state_after (check cfg service clock p)) !! h) ->
      is_Some (data_torrents p !! h)
      \/ exists torrent,
           dict_get h snapshot = Some torrent
           /\ HNRConfig.hit_and_run_tag cfg ∈ Torrent.tags torrent).
Proof.
  intros snapshot. split; [apply check_downloads|].
  destruct (seeding_torrents_dict_inv (Downloader.torrents (client p)))
    as (Hnd & Hkeys & Hdom). fold snapshot in Hnd, Hkeys, Hdom.
  destruct service as [service|]; [|cbn; tauto].
  destruct (__update_seeding_tasks_based_on_tags cfg (Some service)
              (at_added clock) (data_torrents p) (data_downloads p) snapshot)
    as [sync|] eqn:Hrun.
  2:{ unfold check. fold snapshot. rewrite Hrun. cbn. tauto. }
  assert (Hsome :
    is_Some (data_torrents (state_after (check cfg (Some service) clock p))
             !! h) -> is_Some (tasks sync !! h)).
  { destruct (check_lookup_cases cfg service clock p sync h Hrun) as [-> | ->];
      [done|].
    destruct (tasks sync !! h); [by eexists|by intros [? ?]]. }
  intros Hs. apply Hsome in Hs as [t1 Ht1]. clear Hsome.
  destruct (data_torrents p !! h) as [t|] eqn:Hh; [left; by eexists|].
  right. destruct (is_qbittorrent (Some service)) eqn:Hqb.
  - apply update_seeding_tasks_inv in Hrun as [Hloop _]; [|exact Hqb].
    apply reconcile_loop_inv in Hloop as (Hframe & Hat & _); [|exact Hnd].
    cbn [fst] in Hframe, Hat.
    destruct (dict_get h snapshot) as [torrent|] eqn:Hget.
    + exists torrent. split; [reflexivity|].
      apply dict_get_Some in Hget; [|exact Hnd].
      destruct (Hat _ _ Hget) as [Hr _]. rewrite Ht1, Hh in Hr.
      unfold reconciled in Hr. by destruct (decide _).
    + apply dict_get_None in Hget. rewrite Hframe in Ht1 by exact Hget.
      congruence.
  - unfold __update_seeding_tasks_based_on_tags in Hrun. rewrite Hqb in Hrun.
    cbn in Hrun. injection Hrun as <-. cbn in Ht1. congruence.
Qed.

Lemma cycled_sticky (clock : Clock) (snapshot : list (string * Torrent.t))
    (h : string) (t : TorrentTask.t) :
  TorrentTask.hr_status t <> HNRStatus.IN_PROGRESS ->
  TorrentTask.hr_status (cycled cfg clock snapshot h t) = TorrentTask.hr_status t
  /\ TorrentTask.hr_met_time (cycled cfg clock snapshot h t)
     = TorrentTask.hr_met_time t.
Proof.
  intros Hst. unfold cycled, __update_hr_status.
  set (t2 := match dict_get h snapshot with
             | Some torrent => refresh torrent t
             | None => if TorrentTask.deleted t then t
                       else mark_deleted (at_deleted clock h) t
             end).
  assert (H2 : TorrentTask.hr_status t2 = TorrentTask.hr_status t
               /\ TorrentTask.hr_met_time t2 = TorrentTask.hr_met_time t).
  { unfold t2. destruct (dict_get h snapshot); [by split|].
    destruct (TorrentTask.deleted t); by split. }
  destruct H2 as [Hs Hm].
  destruct (TorrentTask.hit_and_run t2); cbn; [|by split].
  apply status_eqb_neq in Hst. rewrite Hs, Hst. cbn. by split.
Qed.

(** X8.  Over a whole check cycle a task that is not IN_PROGRESS keeps its
    status and its [hr_met_time] for as long as it stays in TaskStore. *)
Theorem check_keeps_settled_status
    (service : option ServiceInfo.t) (clock : Clock) (p : Plugin)
    (h : string) (t t' : TorrentTask.t) :
  data_torrents p !! h = Some t ->
  TorrentTask.hr_status t <> HNRStatus.IN_PROGRESS ->
  data_torrents (state_after (check cfg service clock p)) !! h = Some t' ->
  TorrentTask.hr_status t' = TorrentTask.hr_status t
  /\ TorrentTask.hr_met_time t' = TorrentTask.hr_met_time t.
Proof.
  intros Hh Hst.
  destruct (seeding_torrents_dict_inv (Downloader.torrents (client p)))
    as (Hnd & _ & _).
  destruct service as [service|]; [|cbn; intros; simplify_eq; by split].
  destruct (__update_seeding_tasks_based_on_tags cfg (Some service)
              (at_added clock) (data_torrents p) (data_downloads p)
              (seeding_torrents_dict (Downloader.torrents (client p))))
    as [sync|] eqn:Hrun.
  2:{ unfold check. rewrite Hrun. cbn. intros; simplify_eq; by split. }
  destruct (check_lookup_cases cfg service clock p sync h Hrun) as [-> | ->].
  { destruct (sync_entry_cases _ _ _ _ _ _ h t Hnd Hrun Hh) as [->|[->| ->]];
      [discriminate| |]; intros [= <-]; by split. }
  destruct (sync_entry_cases _ _ _ _ _ _ h t Hnd Hrun Hh) as [->|[->| ->]];
    [discriminate| |].
  - destruct (cycled_sticky clock
                (seeding_torrents_dict (Downloader.torrents (client p))) h t Hst)
      as [H1 H2].
    destruct (Qle_bool _ 0); [|destruct (cleanup_scenario _ _ _)];
      intros [= <-]; by split.
  - destruct (cycled_sticky clock
                (seeding_torrents_dict (Downloader.torrents (client p))) h
                (TorrentTask.set_deleted false t) Hst) as [H1 H2].
    destruct (Qle_bool _ 0); [|destruct (cleanup_scenario _ _ _)];
      intros [= <-]; by split.
Qed.

(** X9.  A task marked deleted whose torrent is back in the snapshot with
    the tag ends a check cycle that returns, if it is still in TaskStore,
    with the deleted flag cleared, and the cycle does not make it
    NEEDS_SEEDING. *)
Theorem check_revives_reappeared_torrent
    (service : ServiceInfo.t) (clock : Clock) (p p' : Plugin)
    (h : string) (torrent : Torrent.t) (t t' : TorrentTask.t) :
  ServiceInfo.is_qbittorrent service = true ->
  data_torrents p !! h = Some t ->
  dict_get h (seeding_torrents_dict (Downloader.torrents (client p)))
  = Some torrent ->
  HNRConfig.hit_and_run_tag cfg ∈ Torrent.tags torrent ->
  check cfg (Some service) clock p = Returned p' ->
  data_torrents p' !! h = Some t' ->
  TorrentTask.deleted t' = false
  /\ (TorrentTask.hr_status t' = HNRStatus.NEEDS_SEEDING ->
      TorrentTask.hr_status t = HNRStatus.NEEDS_SEEDING).
Proof.
  intros Hqb Hh Hget Htag Hret.
  destruct (seeding_torrents_dict_inv (Downloader.torrents (client p)))
    as (Hnd & _ & _).
  set (snapshot := seeding_torrents_dict (Downloader.torrents (client p))) in *.
  destruct (__update_seeding_tasks_based_on_tags cfg (Some service)
              (at_added clock) (data_torrents p) (data_downloads p) snapshot)
    as [sync|] eqn:Hrun.
  2:{ unfold check in Hret. fold snapshot in Hret. rewrite Hrun in Hret.
      discriminate. }
  assert (Hreturns : returns (check cfg (Some service) clock p) = true)
    by (by rewrite Hret).
  pose proof (check_lookup cfg service clock p sync h Hrun Hreturns) as Hl.
  rewrite Hret in Hl. cbn [state_after] in Hl. fold snapshot in Hl.
  rewrite Hl. clear Hl.
  pose proof Hrun as Hrun'.
  apply update_seeding_tasks_inv in Hrun' as [Hloop _]; [|exact Hqb].
  apply reconcile_loop_inv in Hloop as (_ & Hat & _); [|exact Hnd].
  apply dict_get_Some in Hget as Hin; [|exact Hnd].
  destruct (Hat _ _ Hin) as [Hr _]. cbn [fst] in Hr. rewrite Hr, Hh.
  unfold reconciled. rewrite decide_True by exact Htag.
  set (t1 := if TorrentTask.deleted t then TorrentTask.set_deleted false t
             else t).
  assert (H1 : TorrentTask.deleted t1 = false
               /\ TorrentTask.hr_status t1 = TorrentTask.hr_status t).
  { unfold t1. destruct (TorrentTask.deleted t) eqn:Hd; by split. }
  destruct H1 as [Hd1 Hs1].
  assert (Hc : TorrentTask.deleted (cycled cfg clock snapshot h t1) = false
               /\ (TorrentTask.hr_status (cycled cfg clock snapshot h t1)
                   = HNRStatus.NEEDS_SEEDING ->
                   TorrentTask.hr_status t = HNRStatus.NEEDS_SEEDING)).
  { unfold cycled. rewrite Hget. unfold __update_hr_status.
    change (TorrentTask.hit_and_run (refresh torrent t1))
      with (TorrentTask.hit_and_run t1).
    change (TorrentTask.hr_status (refresh torrent t1))
      with (TorrentTask.hr_status t1).
    change (TorrentTask.deleted (refresh torrent t1))
      with (TorrentTask.deleted t1).
    rewrite Hd1, Hs1.
    destruct (TorrentTask.hit_and_run t1);
      [cbn [negb]|cbn; split; [exact Hd1|by rewrite Hs1]].
    destruct (HNRStatus.eqb (TorrentTask.hr_status t) HNRStatus.IN_PROGRESS);
      [cbn [negb]|cbn; split; [exact Hd1|by rewrite Hs1]].
    destruct (__meets_hr_requirements _ _ _);
      [rewrite report_task; cbn; split; [exact Hd1|discriminate]|].
    destruct (Qltb _ _);
      [rewrite report_task; cbn; split; [exact Hd1|discriminate]|].
    rewrite report_task. cbn. split; [exact Hd1|by rewrite Hs1]. }
  destruct Hc as [Hc1 Hc2].
  destruct (Qle_bool _ 0); [|destruct (cleanup_scenario _ _ _)];
    intros [= <-]; by split.
Qed.

(** X11.  The step that marks missing torrents raises exactly when one of
    the hashes it is given is absent from the torrents it is given and
    either is not a key of TaskStore, or is the key of a task not yet marked
    deleted whose log line or message cannot be written: a task without
    [hr_duration], or, where the notification mode lets the message of the
    task through and the status is neither IN_PROGRESS nor PENDING, a task
    without [seeding_time]. *)
Theorem update_undeleted_raises_iff (now : string -> Q)
    (store : gmap string TorrentTask.t) (hashes : list string)
    (torrents : list Torrent.t) :
  returns (__update_undeleted_torrents_missing_in_downloader cfg now store
             hashes torrents) = false
  <-> exists h,
        h ∈ hashes /\ (h ∉ Torrent.hash <$> torrents)
        /\ (store !! h = None
            \/ exists t,
                 store !! h = Some t
                 /\ TorrentTask.deleted t = false
                 /\ (TorrentTask.hr_duration t = None
                     \/ (TorrentTask.seeding_time t = None
                         /\ TorrentTask.hr_status t <> HNRStatus.IN_PROGRESS
                         /\ TorrentTask.hr_status t <> HNRStatus.PENDING
                         /\ (HNRConfig.notify cfg = NotifyMode.ALWAYS
                             \/ (HNRConfig.notify cfg = NotifyMode.ON_ERROR
                                 /\ TorrentTask.hr_status t
                                    <> HNRStatus.COMPLIANT
                                 /\ TorrentTask.hr_status t
                                    <> HNRStatus.UNRESTRICTED))))).
Proof.
  fold (mark_raises cfg).
  unfold __update_undeleted_torrents_missing_in_downloader.
  set (missing := filter (λ hash_value, hash_value ∉ Torrent.hash <$> torrents)
                         hashes).
  destruct (undeleted_hashes store missing) as [u|] eqn:Hu.
  - rewrite (mark_loop_raises cfg now).
    + split.
      * intros (h & t & Hh & Ht & Hr).
        apply (undeleted_hashes_elem _ _ _ _ Hu) in Hh
          as [Hm (t' & Ht' & Hdel)].
        apply list_elem_of_filter in Hm as [Hn Hin].
        rewrite Ht in Ht'. injection Ht' as <-.
        exists h. split; [exact Hin|]. split; [exact Hn|]. right. by exists t.
      * intros (h & Hin & Hn & [Hnone|(t & Ht & Hdel & Hr)]).
        -- assert (undeleted_hashes store missing = None) as Hc.
           { apply undeleted_hashes_None. exists h. split; [|exact Hnone].
             apply list_elem_of_filter. by split. }
           congruence.
        -- exists h, t. split; [|by split].
           apply (undeleted_hashes_elem _ _ _ _ Hu). split.
           ++ apply list_elem_of_filter. by split.
           ++ by exists t.
    + intros h Hh. apply (undeleted_hashes_elem _ _ _ _ Hu) in Hh
        as [_ (t & Ht & _)]. by eexists.
  - cbn. split; [|reflexivity]. intros _.
    apply undeleted_hashes_None in Hu as (h & Hh & Hnone).
    apply list_elem_of_filter in Hh as [Hn Hin].
    exists h. split; [exact Hin|]. split; [exact Hn|]. by left.
Qed.

End CycleMore.

(** ** Silence, refresh, snapshot and Cleaner *)

Section Quiet.

Variable cfg : HNRConfig.t.

Hypothesis silent : HNRConfig.notify cfg = NotifyMode.NONE.

Lemma send_hr_message_silent (t : TorrentTask.t) (title : string)
    (warn : bool) :
  __send_hr_message cfg t title warn = Some [].
Proof using silent. unfold __send_hr_message. by rewrite silent. Qed.

Lemma update_hr_status_silent (now : Q) (t : TorrentTask.t) :
  posted (__update_hr_status cfg now t) = [].
Proof using silent.
  unfold __update_hr_status.
  repeat (match goal with |- context [if ?b then _ else _] => destruct b end;
          cbn; rewrite ?send_hr_message_silent; try reflexivity).
Qed.

Lemma mark_loop_silent (now : string -> Q) (u : list string)
    (m : gmap string TorrentTask.t) (n : list Notice) :
  (state_after (mark_loop cfg now u (m, n))).2 = n.
Proof using silent.
  revert m n. induction u as [|a u IH]; intros m n; cbn [mark_loop fst snd].
  - reflexivity.
  - destruct (m !! a) as [t|]; [|reflexivity].
    destruct (__log_torrent_hr_status _); [|reflexivity].
    rewrite send_hr_message_silent, IH. apply app_nil_r.
Qed.

Lemma update_undeleted_silent (now : string -> Q)
    (store : gmap string TorrentTask.t) (hashes : list string)
    (torrents : list Torrent.t) :
  (state_after
     (__update_undeleted_torrents_missing_in_downloader cfg now store hashes
        torrents)).2 = [].
Proof using silent.
  unfold __update_undeleted_torrents_missing_in_downloader.
  destruct (undeleted_hashes _ _); [apply mark_loop_silent|reflexivity].
Qed.

Lemma sync_silent (service : option ServiceInfo.t) (now : string -> Q)
    (store : gmap string TorrentTask.t)
    (histories : gmap string TorrentHistory.t)
    (snapshot : list (string * Torrent.t)) (sync : TagSync) :
  __update_seeding_tasks_based_on_tags cfg service now store histories snapshot
  = Some sync ->
  notices sync = [].
Proof using silent.
  unfold __update_seeding_tasks_based_on_tags.
  destruct (negb _); [by intros [= <-]|].
  destruct (reconcile_loop _ _ _ _ _) as [[m' d']|]; [|discriminate].
  intros [= <-]. cbn. unfold __log_and_send_torrent_task_update_message.
  by rewrite silent.
Qed.

(** X10.  With the notification mode "none" the engine posts nothing:
    neither a check cycle nor the ingestion of an event adds a message,
    whether it returns or raises. *)
Theorem silent_mode_posts_nothing
    (service : option ServiceInfo.t) (clock : Clock) (iclock : IngestClock)
    (torrent_hash : string) (torrent_data : option TorrentInfo.t)
    (task_type : TaskType.t) (p : Plugin) :
  outbox (state_after (check cfg service clock p)) = outbox p
  /\ outbox (state_after
               (__process_event cfg iclock torrent_hash torrent_data
                  task_type p))
     = outbox p.
Proof using silent.
  split.
  - unfold check. destruct service as [service|]; [|reflexivity].
    destruct (__update_seeding_tasks_based_on_tags _ _ _ _ _ _) as [sync|]
      eqn:Hrun; [|reflexivity].
    rewrite (sync_silent _ _ _ _ _ _ Hrun), app_nil_r.
    destruct (negb _); [reflexivity|].
    match goal with
    | |- context [__update_undeleted_torrents_missing_in_downloader cfg ?n ?m
                    ?hs ?ts] =>
        pose proof (update_undeleted_silent n m hs ts) as Hn;
        destruct (__update_undeleted_torrents_missing_in_downloader cfg n m
                    hs ts) as [[m2 n2]|[m2 n2]]
    end; cbn in Hn; subst n2; [|cbn; apply app_nil_r].
    assert (Hnil : forall l : list Evaluation,
              (forall e, e ∈ l -> posted e = []) -> concat (map posted l) = []).
    { clear. induction l as [|e l IH]; intros H; cbn; [reflexivity|].
      rewrite (H e) by (by left). cbn. apply IH. intros e' He'. apply H.
      by right. }
    cbn zeta. rewrite Hnil.
    + destruct (__auto_cleanup _ _ _); cbn; apply app_nil_r.
    + intros e He. apply list_elem_of_fmap in He as ([k e'] & -> & Hke).
      apply elem_of_map_to_list in Hke. unfold evaluations in Hke.
      rewrite map_lookup_imap in Hke. cbn.
      destruct (_ !! k) as [t|]; [|discriminate]. cbn in Hke.
      injection Hke as <-. apply update_hr_status_silent.
  - unfold __process_event.
    destruct (decide (torrent_hash = "")); [reflexivity|].
    destruct torrent_data as [torrent_data|]; [|reflexivity].
    destruct (Downloader.get_torrents torrent_hash (client p));
      [reflexivity|].
    unfold __process_torrent_task.
    destruct (decide _); [|reflexivity].
    destruct (TorrentTask.hit_and_run _); [|reflexivity].
    cbn zeta. destruct (__log_torrent_hr_status _); [|reflexivity].
    rewrite send_hr_message_silent. cbn. apply app_nil_r.
Qed.

End Quiet.

Section RefreshAndCleaner.

Variable cfg : HNRConfig.t.

Lemma same_but_stats_refl (t : TorrentTask.t) : same_but_stats t t.
Proof. unfold same_but_stats. by destruct t. Qed.

Lemma same_but_stats_refresh (torrent : Torrent.t) (a b : TorrentTask.t) :
  same_but_stats a b -> same_but_stats a (refresh torrent b).
Proof. unfold same_but_stats. intros ->. reflexivity. Qed.

(** X12.  The refresh of the live statistics keeps the keys of TaskStore
    and, in every task, everything but the four statistics (status,
    deleted flag, requirements and times among the rest); a task whose hash
    is not among the torrents given is left as it is. *)
Theorem update_torrent_tasks_state_frame (torrents : list Torrent.t)
    (m : gmap string TorrentTask.t) (h : string) :
  (m !! h = None -> __update_torrent_tasks_state torrents m !! h = None)
  /\ (forall t, m !! h = Some t ->
        exists t',
          __update_torrent_tasks_state torrents m !! h = Some t'
          /\ same_but_stats t t'
          /\ TorrentTask.hr_status t' = TorrentTask.hr_status t
          /\ TorrentTask.deleted t' = TorrentTask.deleted t
          /\ TorrentTask.hr_met_time t' = TorrentTask.hr_met_time t)
  /\ (h ∉ Torrent.hash <$> torrents ->
      __update_torrent_tasks_state torrents m !! h = m !! h).
Proof.
  split; [|split].
  - unfold __update_torrent_tasks_state. revert m.
    induction torrents as [|x l IH]; intros m Hh; cbn [fold_left];
      [exact Hh|].
    apply IH. destruct (m !! Torrent.hash x) eqn:Hx; [|exact Hh].
    rewrite lookup_insert_ne; [exact Hh|]. intros Heq. rewrite Heq in Hx.
    congruence.
  - assert (Hgen : forall t0 t, same_but_stats t0 t -> m !! h = Some t ->
              exists t',
                __update_torrent_tasks_state torrents m !! h = Some t'
                /\ same_but_stats t0 t').
    { unfold __update_torrent_tasks_state. revert m.
      induction torrents as [|x l IH]; intros m t0 t Hrel Hh;
        cbn [fold_left]; [by exists t|].
      destruct (m !! Torrent.hash x) as [tx|] eqn:Hx;
        [|by apply (IH m t0 t)].
      destruct (decide (Torrent.hash x = h)) as [Heq|Hne].
      - rewrite Heq in Hx. rewrite Hx in Hh. injection Hh as ->.
        apply (IH _ t0 (refresh x t)).
        + by apply same_but_stats_refresh.
        + rewrite Heq. apply lookup_insert_eq.
      - apply (IH _ t0 t); [exact Hrel|]. by rewrite lookup_insert_ne. }
    intros t Hh. destruct (Hgen t t (same_but_stats_refl t) Hh)
      as (t' & Ht' & Hrel).
    exists t'. split; [exact Ht'|]. split; [exact Hrel|].
    unfold same_but_stats in Hrel. rewrite Hrel. by repeat split.
  - apply update_torrent_tasks_state_absent.
Qed.

(** X13.  The dictionary check() builds from the torrents of the client
    has one key per hash, each key is the hash of its torrent, and a hash
    the client reports twice keeps the torrent reported last. *)
Theorem seeding_torrents_dict_last_wins (l : list Torrent.t) (x : Torrent.t)
    (k : string) :
  dict_get k (seeding_torrents_dict (l ++ [x]))
  = (if decide (Torrent.hash x = k) then Some x
     else dict_get k (seeding_torrents_dict l))
  /\ NoDup (seeding_torrents_dict l).*1
  /\ (forall torrent, dict_get k (seeding_torrents_dict l) = Some torrent ->
                      Torrent.hash torrent = k /\ torrent ∈ l)
  /\ (dict_get k (seeding_torrents_dict l) = None <->
      k ∉ Torrent.hash <$> l).
Proof.
  destruct (seeding_torrents_dict_inv l) as (Hnd & Hkeys & Hdom).
  split; [|split; [exact Hnd|split]].
  - unfold seeding_torrents_dict. rewrite fold_left_app. cbn [fold_left].
    destruct (decide (Torrent.hash x = k)) as [<-|Hne].
    + apply dict_get_set_eq.
    + by apply dict_get_set_ne.
  - intros torrent Hget. split; [by apply Hkeys|].
    clear Hnd Hkeys Hdom. revert Hget. unfold seeding_torrents_dict.
    assert (Hgen : forall (d0 : list (string * Torrent.t)),
      dict_get k (fold_left (λ d t, dict_set (Torrent.hash t) t d) l d0)
      = Some torrent ->
      torrent ∈ l \/ dict_get k d0 = Some torrent).
    { induction l as [|y l IH]; intros d0; cbn [fold_left]; [by right|].
      intros H. destruct (IH _ H) as [Hin|Hd]; [left; by right|].
      destruct (decide (Torrent.hash y = k)) as [<-|Hne].
      - rewrite dict_get_set_eq in Hd. injection Hd as ->. left. by left.
      - rewrite dict_get_set_ne in Hd by exact Hne. by right. }
    intros H. destruct (Hgen [] H) as [Hin|Hd]; [exact Hin|discriminate].
  - rewrite dict_get_None. by rewrite Hdom.
Qed.

(** X14.  The Cleaner only removes, and a second run at the same instant
    removes nothing more: what it leaves, whether it returns or raises, is
    part of what it was given and is left as it is by a second run; and a
    second run after one that returned returns too. *)
Theorem auto_cleanup_idempotent (now : Q)
    (store : gmap string TorrentTask.t) :
  state_after
    (__auto_cleanup cfg now (state_after (__auto_cleanup cfg now store)))
  = state_after (__auto_cleanup cfg now store)
  /\ state_after (__auto_cleanup cfg now store) ⊆ store
  /\ (forall store',
        __auto_cleanup cfg now store = Returned store' ->
        __auto_cleanup cfg now store' = Returned store').
Proof.
  assert (Hagain : forall store',
            __auto_cleanup cfg now store = Returned store' ->
            __auto_cleanup cfg now store' = Returned store').
  { intros store' Hrun.
    destruct (Qle_bool (HNRConfig.auto_cleanup_days cfg) 0) eqn:Hdays.
    { unfold __auto_cleanup. by rewrite Hdays. }
    apply Qle_bool_false in Hdays.
    pose proof (λ h, auto_cleanup_lookup cfg now store store' h Hdays Hrun)
      as Hlookup.
    assert (Hkept : forall h t,
              store' !! h = Some t ->
              cleanup_scenario now (HNRConfig.auto_cleanup_days cfg * 86400) t
              = false).
    { intros h t. rewrite Hlookup. destruct (store !! h) as [t0|];
        [|discriminate].
      destruct (cleanup_scenario _ _ t0) eqn:Hc; [discriminate|].
      by intros [= <-]. }
    destruct (__auto_cleanup cfg now store') as [again|s] eqn:Hsecond.
    - f_equal. apply map_eq. intros h.
      rewrite (auto_cleanup_lookup cfg now store' again h Hdays Hsecond).
      destruct (store' !! h) as [t|] eqn:Hh; [|reflexivity].
      by rewrite (Hkept h t Hh).
    - assert (returns (__auto_cleanup cfg now store') = true) as Hret.
      { apply auto_cleanup_returns; [exact Hdays|].
        intros h t Hh Hc. rewrite (Hkept h t Hh) in Hc. discriminate. }
      rewrite Hsecond in Hret. discriminate. }
  split; [|split; [|exact Hagain]].
  - destruct (__auto_cleanup cfg now store) as [store'|s] eqn:Hrun.
    + cbn [state_after]. by rewrite (Hagain store' eq_refl).
    + pose proof (auto_cleanup_raised cfg now store s Hrun) as ->.
      cbn [state_after]. by rewrite Hrun.
  - destruct (__auto_cleanup cfg now store) as [store'|s] eqn:Hrun.
    + destruct (Qle_bool (HNRConfig.auto_cleanup_days cfg) 0) eqn:Hdays.
      { unfold __auto_cleanup in Hrun. rewrite Hdays in Hrun.
        by injection Hrun as <-. }
      apply Qle_bool_false in Hdays. cbn [state_after].
      apply map_subseteq_spec. intros h t.
      rewrite (auto_cleanup_lookup cfg now store store' h Hdays Hrun).
      destruct (store !! h) as [t0|]; [|discriminate].
      by destruct (cleanup_scenario _ _ t0).
    + by pose proof (auto_cleanup_raised cfg now store s Hrun) as ->.
Qed.

End RefreshAndCleaner.

(** ** The state machine and the tag on the client *)

Section MachineAndTag.

Variable cfg : HNRConfig.t.

(** X15.  One evaluation, whether it returns or raises, assigns nothing
    but the status and [hr_met_time]; it returns on a task without
    [hit_and_run] and leaves it as it is, with no tag call and no message; the
    status it gives is the old one or, from IN_PROGRESS, one of COMPLIANT,
    OVERDUE and NEEDS_SEEDING; [hr_met_time] changes, and the client is
    asked to drop the tag, only on the move to COMPLIANT. *)
Theorem update_hr_status_assigns (now : Q) (t : TorrentTask.t) :
  let e := __update_hr_status cfg now t in
  task e = TorrentTask.set_hr_met_time (TorrentTask.hr_met_time (task e))
             (TorrentTask.set_hr_status (TorrentTask.hr_status (task e)) t)
  /\ (TorrentTask.hit_and_run t = false -> e = mkEvaluation t None [] false)
  /\ (TorrentTask.hr_status (task e) = TorrentTask.hr_status t
      \/ (TorrentTask.hr_status t = HNRStatus.IN_PROGRESS
          /\ (TorrentTask.hr_status (task e) = HNRStatus.COMPLIANT
              \/ TorrentTask.hr_status (task e) = HNRStatus.OVERDUE
              \/ TorrentTask.hr_status (task e) = HNRStatus.NEEDS_SEEDING)))
  /\ (TorrentTask.hr_met_time (task e) = TorrentTask.hr_met_time t
      \/ (TorrentTask.hr_status t = HNRStatus.IN_PROGRESS
          /\ TorrentTask.hr_status (task e) = HNRStatus.COMPLIANT
          /\ TorrentTask.hr_met_time (task e) = Some now))
  /\ (untag e = None
      \/ (TorrentTask.hr_status t = HNRStatus.IN_PROGRESS
          /\ TorrentTask.hr_status (task e) = HNRStatus.COMPLIANT
          /\ untag e = Some (task e))).
Proof.
  cbn zeta. unfold __update_hr_status.
  destruct (TorrentTask.hit_and_run t) eqn:Hhr; cbn [negb].
  2:{ cbn. destruct t; cbn. repeat split; tauto. }
  destruct (HNRStatus.eqb (TorrentTask.hr_status t) HNRStatus.IN_PROGRESS)
    eqn:Hst; cbn [negb].
  2:{ cbn. destruct t; cbn in *. repeat split; try tauto; congruence. }
  apply status_eqb_eq in Hst.
  destruct (__meets_hr_requirements _ _ _);
    [|destruct (Qltb _ _); [|destruct (TorrentTask.deleted t) eqn:Hd]];
    rewrite ?report_task, ?report_untag;
    cbn; (split; [by destruct t|]); (split; [congruence|]);
    repeat split; tauto.
Qed.

(** X16.  The initialization decides once: applied twice it gives what it
    gives applied once; a task comes out under obligation exactly when it
    was or its site forces it, then IN_PROGRESS with the requirements of
    the site; otherwise UNRESTRICTED with its requirements untouched. *)
Theorem init_hr_status_idempotent (t : TorrentTask.t) :
  let site_config := __get_site_config cfg (TorrentTask.site_name t) in
  let t' := __init_hr_status cfg t in
  __init_hr_status cfg t' = t'
  /\ TorrentTask.hit_and_run t'
     = TorrentTask.hit_and_run t || SiteConfig.hr_active site_config
  /\ (TorrentTask.hit_and_run t' = true ->
      TorrentTask.hr_status t' = HNRStatus.IN_PROGRESS
      /\ TorrentTask.hr_ratio t' = SiteConfig.hr_ratio site_config
      /\ TorrentTask.hr_duration t' = SiteConfig.hr_duration site_config
      /\ TorrentTask.hr_deadline_days t'
         = SiteConfig.hr_deadline_days site_config)
  /\ (TorrentTask.hit_and_run t' = false ->
      t' = TorrentTask.set_hr_status HNRStatus.UNRESTRICTED t).
Proof.
  cbn zeta. unfold __init_hr_status, __get_site_config.
  destruct (SiteConfig.hr_active
              (HNRConfig.get_site_config cfg (TorrentTask.site_name t)))
    eqn:Hact; cbn.
  - rewrite Hact. cbn. rewrite orb_true_r.
    split; [reflexivity|]. split; [reflexivity|]. split; [done|discriminate].
  - destruct (TorrentTask.hit_and_run t) eqn:Hhr; cbn.
    + rewrite Hact. cbn. rewrite Hhr. cbn.
      split; [reflexivity|]. split; [reflexivity|]. split; [done|discriminate].
    + rewrite Hact. cbn. rewrite Hhr. cbn.
      split; [reflexivity|]. split; [reflexivity|]. split; [discriminate|done].
Qed.

Lemma torrent_set_tags_same (x : Torrent.t) :
  Torrent.set_tags (Torrent.tags x) x = x.
Proof. by destruct x. Qed.

(** X17.  Asking for the tag twice is asking once: the second call of
    [__set_hit_and_run_tag] changes nothing on the client. *)
Theorem set_hit_and_run_tag_idempotent (t : TorrentTask.t) (d : Downloader.t) :
  __set_hit_and_run_tag cfg t (__set_hit_and_run_tag cfg t d)
  = __set_hit_and_run_tag cfg t d.
Proof.
  unfold __set_hit_and_run_tag.
  remember (__update_hit_and_run_tag cfg t true d) as d1 eqn:Hd1.
  pose proof Hd1 as Hdef. unfold __update_hit_and_run_tag in Hd1.
  unfold __update_hit_and_run_tag.
  destruct (decide (TorrentTask.hash t = "")) as [He|He]; [reflexivity|].
  destruct (TorrentTask.hit_and_run t) eqn:Hhr; cbn [negb] in *;
    [|reflexivity].
  destruct (Downloader.get_torrents (TorrentTask.hash t) d)
    as [|torrent rest] eqn:Hget.
  { subst d1. by rewrite Hget. }
  destruct (Downloader.tag_calls_raise d) eqn:Hraise.
  { subst d1. by rewrite Hget, Hraise. }
  destruct (decide (HNRConfig.hit_and_run_tag cfg ∈ Torrent.tags torrent))
    as [Hin|Hnin].
  { subst d1. rewrite Hget, Hraise. by rewrite decide_True. }
  subst d1. rewrite get_torrents_set_torrent_tag, Hget. cbn [map].
  cbn [Downloader.set_torrent_tag Downloader.tag_calls_raise].
  rewrite Hraise. cbn [Torrent.set_tags Torrent.tags].
  rewrite decide_True; [reflexivity|].
  apply elem_of_app. right. by left.
Qed.

Lemma filter_all {A : Type} (P : A -> Prop) `{!forall x, Decision (P x)}
    (l : list A) :
  Forall P l -> filter P l = l.
Proof.
  induction 1 as [|x l Hx Hl IH]; [reflexivity|].
  rewrite filter_cons_True by exact Hx. by rewrite IH.
Qed.

Lemma NoDup_hash_eq (l : list Torrent.t) (x y : Torrent.t) :
  NoDup (Torrent.hash <$> l) -> x ∈ l -> y ∈ l ->
  Torrent.hash x = Torrent.hash y -> x = y.
Proof.
  induction l as [|a l IH]; intros Hnd Hx Hy Heq.
  - by apply elem_of_nil in Hx.
  - rewrite fmap_cons in Hnd. apply NoDup_cons in Hnd as [Ha Hnd].
    apply elem_of_cons in Hx as [->|Hx]; apply elem_of_cons in Hy as [->|Hy].
    + reflexivity.
    + destruct Ha. rewrite Heq. apply list_elem_of_fmap. by exists y.
    + destruct Ha. rewrite <- Heq. apply list_elem_of_fmap. by exists x.
    + by apply IH.
Qed.

(** X18.  Where the client has one torrent per hash and answers, adding
    the tag to a torrent that lacks it and removing it again gives back the
    client as it was. *)
Theorem tag_add_remove_round_trip (t : TorrentTask.t) (d : Downloader.t)
    (torrent : Torrent.t) :
  TorrentTask.hash t <> "" ->
  TorrentTask.hit_and_run t = true ->
  NoDup (Torrent.hash <$> Downloader.torrents d) ->
  torrent ∈ Downloader.torrents d ->
  Torrent.hash torrent = TorrentTask.hash t ->
  HNRConfig.hit_and_run_tag cfg ∉ Torrent.tags torrent ->
  Downloader.tag_calls_raise d = false ->
  __remove_hit_and_run_tag cfg t (__set_hit_and_run_tag cfg t d) = d.
Proof.
  intros He Hhr Hnd Hin Hhash Htag Hraise.
  assert (Hget : exists rest,
            Downloader.get_torrents (TorrentTask.hash t) d = torrent :: rest).
  { unfold Downloader.get_torrents.
    assert (Hmem : torrent ∈ filter (λ x, Torrent.hash x = TorrentTask.hash t)
                               (Downloader.torrents d)).
    { apply list_elem_of_filter. by split. }
    destruct (filter _ (Downloader.torrents d)) as [|y rest] eqn:Hf.
    - by apply elem_of_nil in Hmem.
    - exists rest. f_equal.
      assert (Hy : y ∈ filter (λ x, Torrent.hash x = TorrentTask.hash t)
                            (Downloader.torrents d)).
      { rewrite Hf. by left. }
      apply list_elem_of_filter in Hy as [Hyh Hy].
      apply (NoDup_hash_eq _ _ _ Hnd Hy Hin). congruence. }
  destruct Hget as [rest Hget].
  unfold __remove_hit_and_run_tag, __set_hit_and_run_tag.
  assert (Hset : __update_hit_and_run_tag cfg t true d
                 = Downloader.set_torrent_tag (TorrentTask.hash t)
                     (Torrent.tags torrent ++ [HNRConfig.hit_and_run_tag cfg])
                     d).
  { unfold __update_hit_and_run_tag.
    rewrite decide_False by exact He. rewrite Hhr, Hget, Hraise. cbn [negb].
    by rewrite decide_False by exact Htag. }
  rewrite Hset. unfold __update_hit_and_run_tag.
  rewrite decide_False by exact He. rewrite Hhr. cbn [negb].
  rewrite get_torrents_set_torrent_tag, Hget. cbn [map].
  cbn [Downloader.set_torrent_tag Downloader.tag_calls_raise].
  rewrite Hraise. cbn [Torrent.set_tags Torrent.tags].
  rewrite decide_True by (apply elem_of_app; right; by left).
  unfold Downloader.remove_torrent_tag. cbn.
  destruct d as [ts raise]. cbn in *. f_equal.
  rewrite map_map. rewrite <- (map_id ts) at 2. apply map_ext_in.
  intros x Hx. apply list_elem_of_In in Hx.
  destruct (decide (Torrent.hash x = TorrentTask.hash t)) as [Hxh|Hxh].
  - assert (x = torrent) as ->.
    { apply (NoDup_hash_eq _ _ _ Hnd Hx Hin). congruence. }
    cbn. rewrite decide_True by exact Hxh. cbn.
    rewrite filter_app. rewrite filter_all.
    + rewrite filter_cons_False by (intros H; by apply H).
      rewrite filter_nil, app_nil_r. by destruct torrent.
    + apply Forall_forall. intros g Hg ->. contradiction.
  - by rewrite decide_False.
Qed.

(** X19.  A tag call keeps the torrents of the client in place: the list
    has the same torrents in the same order, each with at most its tags
    changed, and a torrent of another hash is untouched; the call changes
    nothing at all when the task has no hash, is not under obligation, or
    the client's tag calls raise. *)
Theorem update_hit_and_run_tag_frame (t : TorrentTask.t) (add : bool)
    (d : Downloader.t) :
  let d' := __update_hit_and_run_tag cfg t add d in
  Forall2 (fun x x' =>
             x' = Torrent.set_tags (Torrent.tags x') x
             /\ (Torrent.hash x <> TorrentTask.hash t -> x' = x))
          (Downloader.torrents d) (Downloader.torrents d')
  /\ Downloader.tag_calls_raise d' = Downloader.tag_calls_raise d
  /\ (TorrentTask.hash t = "" \/ TorrentTask.hit_and_run t = false
      \/ Downloader.tag_calls_raise d = true -> d' = d).
Proof.
  cbn zeta.
  assert (Hrefl : forall l : list Torrent.t,
            Forall2 (fun x x' =>
                       x' = Torrent.set_tags (Torrent.tags x') x
                       /\ (Torrent.hash x <> TorrentTask.hash t -> x' = x))
                    l l).
  { induction l as [|x l IH]; constructor; [|exact IH].
    split; [by rewrite torrent_set_tags_same|done]. }
  assert (Hmap : forall (f : Torrent.t -> list string) (l : list Torrent.t),
            Forall2 (fun x x' =>
                       x' = Torrent.set_tags (Torrent.tags x') x
                       /\ (Torrent.hash x <> TorrentTask.hash t -> x' = x))
                    l
                    (map (λ x, if decide (Torrent.hash x = TorrentTask.hash t)
                               then Torrent.set_tags (f x) x else x) l)).
  { intros f. induction l as [|x l IH]; cbn; constructor; [|exact IH].
    destruct (decide (Torrent.hash x = TorrentTask.hash t)).
    - split; [reflexivity|]. intros; contradiction.
    - split; [by rewrite torrent_set_tags_same|done]. }
  unfold __update_hit_and_run_tag.
  destruct (decide (TorrentTask.hash t = "")) as [He|He];
    [by repeat split|].
  destruct (TorrentTask.hit_and_run t) eqn:Hhr; cbn [negb];
    [|by repeat split].
  destruct (Downloader.get_torrents (TorrentTask.hash t) d)
    as [|torrent rest]; [by repeat split|].
  destruct (Downloader.tag_calls_raise d) eqn:Hraise; [by repeat split|].
  destruct add.
  - destruct (decide _); [by repeat split; [apply Hrefl|..]; try done;
                           intros [?|[?|?]]; done|].
    split; [apply (Hmap (λ _, Torrent.tags torrent
                              ++ [HNRConfig.hit_and_run_tag cfg]))|].
    split; [exact Hraise|]. intros [?|[?|?]]; done.
  - destruct (decide _); [|by repeat split; [apply Hrefl|..]; try done;
                            intros [?|[?|?]]; done].
    split; [apply (Hmap (λ x, filter (λ g, g ≠ HNRConfig.hit_and_run_tag cfg)
                                     (Torrent.tags x)))|].
    split; [exact Hraise|]. intros [?|[?|?]]; done.
Qed.

End MachineAndTag.

(** ** Ingestion and its handlers *)

Section IngestionMore.

Variable cfg : HNRConfig.t.

(** X20.  After an ingestion the document "downloads" holds only records
    younger than 30 days at the time of the purge: a record of another
    hash is kept, unchanged, exactly when it is that young, and the record
    under the hash of the event, if any, is the new one. *)
Theorem save_and_cleanup_downloads_lookup (clock : IngestClock)
    (torrent_hash : string) (torrent_data : TorrentInfo.t)
    (task_type : TaskType.t) (downloads : gmap string TorrentHistory.t)
    (h : string) (r : TorrentHistory.t) :
  let result :=
    __save_and_cleanup_downloads clock torrent_hash torrent_data task_type
      downloads in
  let cutoff := (at_purge clock - 30 * 24 * 60 * 60)%Q in
  (result !! h = Some r -> (cutoff < TorrentHistory.time r)%Q)
  /\ (h <> torrent_hash ->
      (result !! h = Some r <->
       downloads !! h = Some r /\ (cutoff < TorrentHistory.time r)%Q))
  /\ (result !! torrent_hash = Some r ->
      r = __create_torrent_history (at_history clock) torrent_hash
            torrent_data task_type).
Proof.
  cbn zeta. unfold __save_and_cleanup_downloads. split; [|split].
  - intros H. apply map_lookup_filter_Some in H as [_ H]. cbn in H.
    by apply Qltb_lt.
  - intros Hne. rewrite map_lookup_filter_Some. cbn.
    rewrite lookup_insert_ne by done. by rewrite Qltb_lt.
  - intros H. apply map_lookup_filter_Some in H as [H _].
    rewrite lookup_insert_eq in H. by injection H.
Qed.

Lemma process_event_downloads (clock : IngestClock) (torrent_hash : string)
    (torrent_data : TorrentInfo.t) (task_type : TaskType.t) (p : Plugin) :
  torrent_hash <> "" ->
  Downloader.get_torrents torrent_hash (client p) <> [] ->
  data_downloads
    (state_after
       (__process_event cfg clock torrent_hash (Some torrent_data) task_type
          p))
  = __save_and_cleanup_downloads clock torrent_hash torrent_data task_type
      (data_downloads p).
Proof.
  intros Hhash Hfound. unfold __process_event.
  rewrite decide_False by exact Hhash.
  destruct (Downloader.get_torrents torrent_hash (client p)); [done|].
  unfold __process_torrent_task. cbn [data_downloads data_torrents].
  destruct (decide _); [|reflexivity].
  destruct (TorrentTask.hit_and_run _); [|reflexivity].
  cbn zeta. destruct (__log_torrent_hr_status _); [|reflexivity].
  by destruct (__send_hr_message _ _ _ _).
Qed.

Lemma init_hr_status_in_progress (t : TorrentTask.t) :
  TorrentTask.hit_and_run (__init_hr_status cfg t) = true ->
  TorrentTask.hr_status (__init_hr_status cfg t) = HNRStatus.IN_PROGRESS.
Proof.
  unfold __init_hr_status.
  destruct (SiteConfig.hr_active _); cbn; [reflexivity|].
  destruct (TorrentTask.hit_and_run t) eqn:Hhr; cbn; intros H;
    [reflexivity|congruence].
Qed.

(** The message of a task IN_PROGRESS can always be built. *)
Lemma send_hr_message_in_progress (t : TorrentTask.t) (title : string)
    (warn : bool) :
  TorrentTask.hr_status t = HNRStatus.IN_PROGRESS ->
  is_Some (__send_hr_message cfg t title warn).
Proof.
  intros Hst. unfold __send_hr_message, __build_hr_message_text.
  rewrite Hst. cbn. destruct (HNRConfig.notify cfg), warn; by eexists.
Qed.

(** The ingestion of an event under obligation: the task it saves, and
    when it returns. *)
Lemma process_event_obliged (clock : IngestClock) (torrent_hash : string)
    (torrent_data : TorrentInfo.t) (task_type : TaskType.t) (p : Plugin) :
  let torrent_task :=
    __init_hr_status cfg
      (__create_torrent_task (at_task clock) torrent_hash torrent_data
         task_type) in
  let outcome :=
    __process_event cfg clock torrent_hash (Some torrent_data) task_type p in
  torrent_hash <> "" ->
  Downloader.get_torrents torrent_hash (client p) <> [] ->
  TorrentInfo.site torrent_data ∈ HNRConfig.sites cfg ->
  TorrentTask.hit_and_run torrent_task = true ->
  data_torrents (state_after outcome)
  = <[torrent_hash := torrent_task]> (data_torrents p)
  /\ (returns outcome = true
      <-> is_Some (TorrentTask.hr_duration torrent_task)).
Proof.
  intros torrent_task outcome Hhash Hfound Hsite Hhr.
  assert (Hth : TorrentTask.hash torrent_task = torrent_hash).
  { unfold torrent_task. by rewrite init_hr_status_hash. }
  subst outcome. unfold __process_event.
  rewrite decide_False by exact Hhash.
  destruct (Downloader.get_torrents torrent_hash (client p)); [done|].
  unfold __process_torrent_task.
  cbn [TorrentTask.site __create_torrent_task TorrentTask.of_fields].
  rewrite decide_True by exact Hsite.
  fold (__create_torrent_task (at_task clock) torrent_hash torrent_data
          task_type).
  fold torrent_task. rewrite Hhr. cbn zeta. rewrite Hth.
  rewrite <- log_torrent_hr_status_Some.
  destruct (send_hr_message_in_progress torrent_task "【H&R种子任务下载】"
              false) as [notices Hsend].
  { by apply init_hr_status_in_progress. }
  rewrite Hsend.
  destruct (__log_torrent_hr_status torrent_task) as [[]|]; cbn.
  - split; [reflexivity|]. split; [by eexists|reflexivity].
  - split; [reflexivity|]. split; [discriminate|]. by intros [? ?].
Qed.

Lemma fresh_history_kept (clock : IngestClock) (torrent_hash : string)
    (torrent_data : TorrentInfo.t) (task_type : TaskType.t)
    (downloads : gmap string TorrentHistory.t) :
  (at_purge clock - 30 * 24 * 60 * 60 < at_history clock)%Q ->
  __save_and_cleanup_downloads clock torrent_hash torrent_data task_type
    downloads !! torrent_hash
  = Some (__create_torrent_history (at_history clock) torrent_hash
            torrent_data task_type).
Proof.
  intros Hfresh. unfold __save_and_cleanup_downloads.
  apply map_lookup_filter_Some. split; [apply lookup_insert_eq|].
  cbn. by apply Qltb_lt.
Qed.

(** X21.  A download-added event is dropped, the handler returning with
    the plugin left as it was, when no service is connected, when the event names no client or a
    client other than the monitored one, or when it lacks the hash or the
    descriptor; an accepted event is recorded as a normal download when
    its descriptor has a description and as a subscription otherwise. *)
Theorem download_added_event_classified
    (service : option ServiceInfo.t) (clock : IngestClock) (e : Event.t)
    (p : Plugin) :
  (service = None
   \/ (forall s, service = Some s -> ServiceInfo.name s <> Event.downloader e)
   \/ Event.downloader e = "" \/ Event.hash e = ""
   \/ Event.torrent_info e = None ->
   handle_download_added_event cfg service clock (Some e) p = Returned p)
  /\ handle_download_added_event cfg service clock None p = Returned p
  /\ (forall s torrent_info,
        service = Some s ->
        ServiceInfo.name s = Event.downloader e ->
        Event.downloader e <> "" ->
        Event.hash e <> "" ->
        Event.torrent_info e = Some torrent_info ->
        Downloader.get_torrents (Event.hash e) (client p) <> [] ->
        (at_purge clock - 30 * 24 * 60 * 60 < at_history clock)%Q ->
        exists r,
          data_downloads
            (state_after
               (handle_download_added_event cfg service clock (Some e) p))
          !! Event.hash e = Some r
          /\ TorrentHistory.task_type r
             = (if decide (TorrentInfo.description torrent_info = "")
                then TaskType.RSS_SUBSCRIBE else TaskType.NORMAL)).
Proof.
  split; [|split].
  - unfold handle_download_added_event.
    destruct service as [s|]; [|reflexivity]. cbn.
    intros [H|[H|[H|[H|H]]]].
    + discriminate.
    + destruct (decide (Event.downloader e = "")); [reflexivity|].
      rewrite decide_False; [reflexivity|]. by apply H.
    + by rewrite decide_True.
    + destruct (decide (Event.downloader e = "")); [reflexivity|].
      destruct (decide (ServiceInfo.name s = Event.downloader e));
        [|reflexivity].
      by rewrite decide_True.
    + destruct (decide (Event.downloader e = "")); [reflexivity|].
      destruct (decide (ServiceInfo.name s = Event.downloader e));
        [|reflexivity].
      destruct (decide (Event.hash e = "")); [reflexivity|]. by rewrite H.
  - unfold handle_download_added_event. by destruct service.
  - intros s torrent_info -> Hname Hdl Hhash Hinfo Hfound Hfresh.
    unfold handle_download_added_event. cbn.
    rewrite decide_False by exact Hdl. rewrite decide_True by exact Hname.
    rewrite decide_False by exact Hhash. rewrite Hinfo.
    rewrite process_event_downloads by assumption.
    rewrite fresh_history_kept by exact Hfresh.
    eexists. split; [reflexivity|]. reflexivity.
Qed.

(** X22.  A plugin event is taken for a promotional-seeding download only
    under the name "brushflow_download_added"; under any other name, from
    another client, or without hash or data, it is dropped; an accepted
    one is recorded with the task type BRUSH. *)
Theorem brushflow_event_classified
    (service : option ServiceInfo.t) (clock : IngestClock) (e : Event.t)
    (p : Plugin) :
  (service = None
   \/ Event.event_name e <> "brushflow_download_added"
   \/ (forall s, service = Some s -> ServiceInfo.name s <> Event.downloader e)
   \/ Event.downloader e = "" \/ Event.hash e = ""
   \/ Event.data e = None ->
   handle_brushflow_event cfg service clock (Some e) p = Returned p)
  /\ (forall s torrent_data,
        service = Some s ->
        Event.event_name e = "brushflow_download_added" ->
        ServiceInfo.name s = Event.downloader e ->
        Event.downloader e <> "" ->
        Event.hash e <> "" ->
        Event.data e = Some torrent_data ->
        Downloader.get_torrents (Event.hash e) (client p) <> [] ->
        (at_purge clock - 30 * 24 * 60 * 60 < at_history clock)%Q ->
        exists r,
          data_downloads
            (state_after (handle_brushflow_event cfg service clock (Some e) p))
          !! Event.hash e = Some r
          /\ TorrentHistory.task_type r = TaskType.BRUSH).
Proof.
  split.
  - unfold handle_brushflow_event, __validate_and_log_event.
    destruct service as [s|]; [|reflexivity].
    rewrite decide_False by discriminate.
    intros [H|[H|[H|[H|[H|H]]]]].
    + discriminate.
    + by rewrite decide_False.
    + destruct (decide (Event.event_name e = _)); [|reflexivity]. cbn.
      destruct (decide (Event.downloader e = "")); [reflexivity|].
      rewrite decide_False; [reflexivity|]. by apply H.
    + destruct (decide (Event.event_name e = _)); [|reflexivity]. cbn.
      by rewrite decide_True.
    + destruct (decide (Event.event_name e = _)); [|reflexivity]. cbn.
      destruct (decide (Event.downloader e = "")); [reflexivity|].
      destruct (decide (ServiceInfo.name s = Event.downloader e));
        [|reflexivity].
      by rewrite decide_True.
    + destruct (decide (Event.event_name e = _)); [|reflexivity]. cbn.
      destruct (decide (Event.downloader e = "")); [reflexivity|].
      destruct (decide (ServiceInfo.name s = Event.downloader e));
        [|reflexivity].
      destruct (decide (Event.hash e = "")); [reflexivity|]. by rewrite H.
  - intros s torrent_data -> Hev Hname Hdl Hhash Hdata Hfound Hfresh.
    unfold handle_brushflow_event, __validate_and_log_event.
    rewrite decide_False by discriminate.
    rewrite decide_True by exact Hev. cbn.
    rewrite decide_False by exact Hdl. rewrite decide_True by exact Hname.
    rewrite decide_False by exact Hhash. rewrite Hdata.
    rewrite process_event_downloads by assumption.
    rewrite fresh_history_kept by exact Hfresh.
    eexists. split; reflexivity.
Qed.

(** X23.  The ingestion of an event under obligation replaces whatever
    TaskStore held under the hash, a COMPLIANT task included, by a new task:
    IN_PROGRESS, created at the instant of the ingestion, with the
    requirements of its site, never met and not deleted; the tasks of the
    other hashes are left as they are.  The task is saved whether the call
    returns or raises, and the call returns exactly when the site has an
    [hr_duration], which its log line needs. *)
Theorem ingestion_replaces_task (clock : IngestClock) (torrent_hash : string)
    (torrent_data : TorrentInfo.t) (task_type : TaskType.t) (p : Plugin) :
  torrent_hash <> "" ->
  Downloader.get_torrents torrent_hash (client p) <> [] ->
  TorrentInfo.site torrent_data ∈ HNRConfig.sites cfg ->
  TorrentInfo.hit_and_run torrent_data = true
  \/ SiteConfig.hr_active
       (__get_site_config cfg (TorrentInfo.site_name torrent_data)) = true ->
  let outcome :=
    __process_event cfg clock torrent_hash (Some torrent_data) task_type p in
  let p' := state_after outcome in
  let site_config :=
    __get_site_config cfg (TorrentInfo.site_name torrent_data) in
  (exists t,
     data_torrents p' !! torrent_hash = Some t
     /\ TorrentTask.hash t = torrent_hash
     /\ TorrentTask.hr_status t = HNRStatus.IN_PROGRESS
     /\ TorrentTask.hit_and_run t = true
     /\ TorrentTask.time t = at_task clock
     /\ TorrentTask.hr_ratio t = SiteConfig.hr_ratio site_config
     /\ TorrentTask.hr_duration t = SiteConfig.hr_duration site_config
     /\ TorrentTask.hr_deadline_days t
        = SiteConfig.hr_deadline_days site_config
     /\ TorrentTask.hr_met_time t = None
     /\ TorrentTask.deleted t = false
     /\ TorrentTask.deleted_time t = None)
  /\ (forall h, h <> torrent_hash ->
                data_torrents p' !! h = data_torrents p !! h)
  /\ (returns outcome = true <-> is_Some (SiteConfig.hr_duration site_config)).
Proof.
  intros Hhash Hfound Hsite Hob. cbn zeta.
  set (t := __init_hr_status cfg
              (__create_torrent_task (at_task clock) torrent_hash torrent_data
                 task_type)).
  assert (Hfields :
    TorrentTask.hash t = torrent_hash
    /\ TorrentTask.hr_status t = HNRStatus.IN_PROGRESS
    /\ TorrentTask.hit_and_run t = true
    /\ TorrentTask.time t = at_task clock
    /\ TorrentTask.hr_ratio t
       = SiteConfig.hr_ratio
           (__get_site_config cfg (TorrentInfo.site_name torrent_data))
    /\ TorrentTask.hr_duration t
       = SiteConfig.hr_duration
           (__get_site_config cfg (TorrentInfo.site_name torrent_data))
    /\ TorrentTask.hr_deadline_days t
       = SiteConfig.hr_deadline_days
           (__get_site_config cfg (TorrentInfo.site_name torrent_data))
    /\ TorrentTask.hr_met_time t = None
    /\ TorrentTask.deleted t = false
    /\ TorrentTask.deleted_time t = None).
  { unfold t, __init_hr_status, __get_site_config in *.
    cbn [TorrentTask.site_name TorrentTask.hit_and_run __create_torrent_task
         TorrentTask.of_fields TorrentTask.set_hit_and_run] in *.
    destruct (SiteConfig.hr_active _) eqn:Hact; cbn; [by repeat split|].
    destruct Hob as [Hhr|Hf]; [|discriminate]. rewrite Hhr. cbn.
    by repeat split. }
  destruct (process_event_obliged clock torrent_hash torrent_data task_type p
              Hhash Hfound Hsite) as [Hstore Hret].
  { apply Hfields. }
  fold t in Hstore, Hret. rewrite Hstore. split; [|split].
  - exists t. split; [apply lookup_insert_eq|exact Hfields].
  - intros h Hne. by apply lookup_insert_ne.
  - rewrite Hret. destruct Hfields as (_ & _ & _ & _ & _ & -> & _).
    reflexivity.
Qed.

End IngestionMore.

(** ** Loading a configuration *)

Section InitMore.

Variable indexers : list (Z * bool).

(** X24.  [init_plugin] never raises: the read of
    [self._hnr_config.onlyonce] is reached only with a configuration in
    place. *)
Theorem init_plugin_returns (config : option ConfigDict.t) (rt : Runtime) :
  is_Some (init_plugin indexers config rt).
Proof.
  unfold init_plugin, __validate_and_fix_config.
  destruct config as [config|]; [|by eexists].
  destruct (parse_obj config) as [hnr_config|]; [|by eexists].
  destruct (__validate_config hnr_config) as [[|] reason]; by eexists.
Qed.

(** X25.  A configuration that passes validation becomes the runtime
    configuration with the run-once switch consumed: the runtime and the
    saved configuration have [onlyonce] off and keep [enabled], a run-once
    job is scheduled exactly when the switch was on, and no alert is
    put. *)
Theorem init_plugin_valid (config : ConfigDict.t) (hnr_config : HNRConfig.t)
    (rt : Runtime) :
  parse_obj config = Some hnr_config ->
  (__validate_config hnr_config).1 = true ->
  exists rt' runtime,
    init_plugin indexers (Some config) rt = Some rt'
    /\ _hnr_config rt' = Some runtime
    /\ saved_config rt' = Some (to_dict runtime)
    /\ HNRConfig.onlyonce runtime = false
    /\ HNRConfig.enabled runtime = ConfigDict.enabled config
    /\ HNRConfig.downloader runtime = ConfigDict.downloader config
    /\ run_once_scheduled rt' = ConfigDict.onlyonce config
    /\ alerts rt' = alerts rt.
Proof.
  intros Hparse Hvalid.
  destruct (parse_obj_switches _ _ Hparse) as [He Ho].
  unfold init_plugin, __validate_and_fix_config. rewrite Hparse.
  destruct (__validate_config hnr_config) as [result reason].
  cbn in Hvalid. subst result. cbn.
  eexists _, _. split; [reflexivity|]. cbn.
  split; [reflexivity|]. split; [reflexivity|]. split; [reflexivity|].
  split; [exact He|]. split; [|by split].
  unfold parse_obj in Hparse.
  destruct (ConfigDict.hr_ratio config), (ConfigDict.hr_duration config),
    (ConfigDict.hr_deadline_days config), (ConfigDict.auto_cleanup_days config);
    try discriminate.
  by injection Hparse as <-.
Qed.

Lemma private_site_listed (site_id : Z) :
  private_site indexers site_id = true -> (site_id, false) ∈ indexers.
Proof.
  unfold private_site.
  destruct (list_find _ (reverse indexers)) as [[i [s public]]|] eqn:Hfind;
    [|discriminate].
  apply list_find_Some in Hfind as (Hi & Hs & _). cbn in Hs. subst s.
  intros Hp. apply negb_true_iff in Hp. subst public.
  apply list_elem_of_lookup_2 in Hi. by apply elem_of_reverse.
Qed.

Lemma private_site_all_private (site_id : Z) :
  site_id ∈ indexers.*1 ->
  (forall public, (site_id, public) ∈ indexers -> public = false) ->
  private_site indexers site_id = true.
Proof.
  intros Hin Hall. unfold private_site.
  destruct (list_find _ (reverse indexers)) as [[i [s public]]|] eqn:Hfind.
  - apply list_find_Some in Hfind as (Hi & Hs & _). cbn in Hs. subst s.
    apply list_elem_of_lookup_2 in Hi. rewrite elem_of_reverse in Hi.
    by rewrite (Hall _ Hi).
  - apply list_find_None in Hfind. rewrite Forall_forall in Hfind.
    apply list_elem_of_fmap in Hin as ([s public] & -> & Hin).
    destruct (Hfind (s, public)); [by apply elem_of_reverse|reflexivity].
Qed.

(** X26.  The sites of a validated configuration are sites the
    configuration listed and the site registry knows as private: every one
    of them has a non-public entry in the registry, and a listed site whose
    entries in the registry are all non-public is kept. *)
Theorem validated_sites_are_private (config : ConfigDict.t)
    (current : option HNRConfig.t) (hnr_config : HNRConfig.t) (reason : string)
    (site_id : Z) :
  __validate_and_fix_config indexers (Some config) current
  = ((true, reason), Some hnr_config) ->
  (site_id ∈ HNRConfig.sites hnr_config ->
   site_id ∈ ConfigDict.sites config /\ (site_id, false) ∈ indexers)
  /\ (site_id ∈ ConfigDict.sites config ->
      site_id ∈ indexers.*1 ->
      (forall public, (site_id, public) ∈ indexers -> public = false) ->
      site_id ∈ HNRConfig.sites hnr_config).
Proof.
  unfold __validate_and_fix_config.
  destruct (parse_obj config) as [parsed|] eqn:Hparse; [|discriminate].
  destruct (__validate_config parsed) as [[|] why]; [|discriminate].
  intros [= _ <-]. cbn.
  assert (Hsites : HNRConfig.sites parsed = ConfigDict.sites config).
  { unfold parse_obj in Hparse.
    destruct (ConfigDict.hr_ratio config), (ConfigDict.hr_duration config),
      (ConfigDict.hr_deadline_days config),
      (ConfigDict.auto_cleanup_days config); try discriminate.
    by injection Hparse as <-. }
  rewrite Hsites. split.
  - intros Hin. apply list_elem_of_filter in Hin as [Hp Hin].
    split; [exact Hin|]. by apply private_site_listed.
  - intros Hin Hknown Hall. apply list_elem_of_filter. split; [|exact Hin].
    by apply private_site_all_private.
Qed.

Lemma init_plugin_failure_runtime (config : ConfigDict.t) (rt rt' : Runtime) :
  (forall hnr_config, parse_obj config = Some hnr_config ->
                      (__validate_config hnr_config).1 = false) ->
  init_plugin indexers (Some config) rt = Some rt' ->
  _hnr_config rt' = None
  /\ saved_config rt'
     = Some (if ConfigDict.enabled config || ConfigDict.onlyonce config
             then ConfigDict.set_switches false false config else config)
  /\ alerts rt'
     = alerts rt ++ (if ConfigDict.enabled config || ConfigDict.onlyonce config
                     then [SystemMessage "H&R助手"] else []).
Proof.
  intros Hfail. unfold init_plugin, __validate_and_fix_config.
  destruct (parse_obj config) as [hnr_config|] eqn:Hparse.
  - specialize (Hfail hnr_config eq_refl).
    destruct (__validate_config hnr_config) as [result reason].
    cbn in Hfail. subst result. cbn.
    destruct (ConfigDict.enabled config || ConfigDict.onlyonce config);
      intros [= <-]; cbn; [by split|]. by rewrite app_nil_r.
  - cbn.
    destruct (ConfigDict.enabled config || ConfigDict.onlyonce config);
      intros [= <-]; cbn; [by split|]. by rewrite app_nil_r.
Qed.

(** X27.  After a configuration failed validation the engine is off in
    fact: the plugin reports itself stopped, a check cycle returns at once
    and a download event is dropped, both leaving the plugin as it was,
    whatever services the host has. *)
Theorem invalid_config_stops_engine
    (get_service : string -> option ServiceInfo.t)
    (is_inactive : ServiceInfo.t -> bool)
    (config : ConfigDict.t) (hnr_config : HNRConfig.t) (rt rt' : Runtime)
    (clock : Clock) (iclock : IngestClock) (event : option Event.t)
    (p : Plugin) :
  parse_obj config = Some hnr_config ->
  (__validate_config hnr_config).1 = false ->
  init_plugin indexers (Some config) rt = Some rt' ->
  get_state rt' = false
  /\ check_method get_service is_inactive rt' clock p = Returned p
  /\ download_added_method get_service is_inactive rt' iclock event p
     = Returned p.
Proof.
  intros Hparse Hfail Hinit.
  destruct (init_plugin_failure_runtime config rt rt') as (Hnone & _).
  - intros h Hh. rewrite Hparse in Hh. by injection Hh as <-.
  - exact Hinit.
  - unfold get_state, check_method, download_added_method.
    by rewrite Hnone.
Qed.

(** X28.  A configuration that does not parse clears the runtime
    configuration too; the alert and the clearing of the switches in the
    saved configuration ([enabled] and [onlyonce] both off, the other
    entries as given) happen only if one of the two switches was on, and
    otherwise the configuration is saved as it came, without alert. *)
Theorem malformed_config_handled (config : ConfigDict.t) (rt : Runtime) :
  parse_obj config = None ->
  exists rt' saved,
    init_plugin indexers (Some config) rt = Some rt'
    /\ _hnr_config rt' = None
    /\ saved_config rt' = Some saved
    /\ ConfigDict.enabled saved = false
    /\ ConfigDict.onlyonce saved = false
    /\ same_settings config saved
    /\ (ConfigDict.enabled config || ConfigDict.onlyonce config = true ->
        alerts rt' = alerts rt ++ [SystemMessage "H&R助手"])
    /\ (ConfigDict.enabled config || ConfigDict.onlyonce config = false ->
        saved = config /\ alerts rt' = alerts rt).
Proof.
  intros Hparse.
  unfold init_plugin, __validate_and_fix_config. rewrite Hparse. cbn.
  destruct (ConfigDict.enabled config) eqn:He,
    (ConfigDict.onlyonce config) eqn:Ho; cbn;
    eexists _, _; (split; [reflexivity|]); cbn;
    (split; [reflexivity|]); (split; [reflexivity|]).
  1-3: split; [reflexivity|]; split; [reflexivity|];
       split; [by repeat split|]; split; [reflexivity|discriminate].
  split; [exact He|]. split; [exact Ho|]. split; [by repeat split|].
  split; [discriminate|]. intros _. split; [reflexivity|].
  reflexivity.
Qed.

End InitMore.

(** ** Statistics *)

Lemma count_task_sum (task : TorrentTask.t) (s : Statistic.t) :
  Statistic.total_count s
  = Statistic.pending s + Statistic.in_progress s + Statistic.compliant s
    + Statistic.other s ->
  let s' := count_task task s in
  Statistic.total_count s'
  = Statistic.pending s' + Statistic.in_progress s' + Statistic.compliant s'
    + Statistic.other s'.
Proof.
  intros H. cbn zeta. unfold count_task.
  destruct (TorrentTask.hit_and_run task); [|cbn; exact H].
  destruct (TorrentTask.hr_status task); cbn; lia.
Qed.

(** X29.  In the statistics the total of the tasks under obligation is the
    sum of the four status counters (pending, in progress, compliant,
    other), and neither the total nor the deleted counter exceeds the
    number of tasks counted. *)
Theorem statistic_counts_add_up
    (torrent_tasks archived_tasks : gmap string TorrentTask.t) :
  let s := __update_and_save_statistic_info torrent_tasks archived_tasks in
  Statistic.total_count s
  = Statistic.pending s + Statistic.in_progress s + Statistic.compliant s
    + Statistic.other s
  /\ Statistic.total_count s <= size (archived_tasks ∪ torrent_tasks)
  /\ Statistic.deleted s <= size (archived_tasks ∪ torrent_tasks).
Proof.
  cbn zeta. unfold __update_and_save_statistic_info.
  rewrite <- length_map_to_list.
  rewrite <- (length_fmap snd (map_to_list (archived_tasks ∪ torrent_tasks))).
  induction ((map_to_list (archived_tasks ∪ torrent_tasks)).*2)
    as [|task l IH]; cbn [foldr length].
  - cbn. lia.
  - destruct IH as (IH1 & IH2 & IH3).
    set (s := foldr count_task (Statistic.mk 0 0 0 0 0 0) l) in *.
    split; [by apply count_task_sum|].
    unfold count_task.
    destruct (TorrentTask.hit_and_run task), (TorrentTask.deleted task);
      try destruct (TorrentTask.hr_status task);
      cbn [Statistic.total_count Statistic.deleted]; lia.
Qed.


(** ** The further properties at concrete inputs *)

Lemma tagged_untracked_torrent_added_witness :
  let cfg0 :=
    HNRConfig.mk true false NotifyMode.NONE "qb" "H&R" [1%Z] 5 100 14 7
      (fun _ => SiteConfig.mk false 5 (Some 100%Q) 14 (Some 0%Q)) in
  let torrent :=
    Torrent.mk "h1" ["H&R"] (Some "title") None None (Some 0.1%Q) None None
      (Some 3600%Q) 1 "A" in
  match __update_seeding_tasks_based_on_tags cfg0
          (Some (ServiceInfo.mk "qb" true)) (fun _ => 50%Q) ∅ ∅
          [("h1", torrent)] with
  | Some sync =>
      exists t, tasks sync !! "h1" = Some t
                /\ TorrentTask.hr_status t = HNRStatus.IN_PROGRESS
                /\ TorrentTask.deleted t = false
  | None => False
  end.
Proof.
  intros cfg0 torrent.
  destruct (__update_seeding_tasks_based_on_tags cfg0 _ _ _ _ _) as [sync|]
    eqn:Hrun; [|vm_compute in Hrun; discriminate].
  destruct (tagged_untracked_torrent_added cfg0
              (Some (ServiceInfo.mk "qb" true)) (fun _ => 50%Q) ∅ ∅
              [("h1", torrent)] sync "h1" torrent)
    as (t & _ & Ht & _ & Hst & Hdel & _).
  - reflexivity.
  - apply NoDup_singleton.
  - apply list_elem_of_here.
  - apply list_elem_of_here.
  - reflexivity.
  - exact Hrun.
  - exists t. split; [exact Ht|]. split; [exact Hst|exact Hdel].
Defined.

Lemma tagged_tracked_entry_revived_witness :
  let cfg0 :=
    HNRConfig.mk true false NotifyMode.NONE "qb" "H&R" [1%Z] 5 100 14 7
      (fun _ => SiteConfig.mk false 5 (Some 100%Q) 14 (Some 0%Q)) in
  let t :=
    TorrentTask.mk 1 "A" "title" "" 0 0 "h1" TaskType.NORMAL true
      HNRStatus.OVERDUE 5 (Some 100%Q) 14 (Some 0.1%Q) 0 0
      (Some 3600%Q) true (Some 40%Q) None in
  let torrent :=
    Torrent.mk "h1" ["H&R"] (Some "title") None None (Some 0.1%Q) None None
      (Some 3600%Q) 1 "A" in
  match __update_seeding_tasks_based_on_tags cfg0
          (Some (ServiceInfo.mk "qb" true)) (fun _ => 50%Q) (<["h1" := t]> ∅)
          ∅ [("h1", torrent)] with
  | Some sync => tasks sync !! "h1" = Some (TorrentTask.set_deleted false t)
  | None => False
  end.
Proof.
  intros cfg0 t torrent.
  destruct (__update_seeding_tasks_based_on_tags cfg0 _ _ _ _ _) as [sync|]
    eqn:Hrun; [|vm_compute in Hrun; discriminate].
  destruct (tagged_tracked_entry_revived cfg0
              (Some (ServiceInfo.mk "qb" true)) (fun _ => 50%Q)
              (<["h1" := t]> ∅) ∅ [("h1", torrent)] sync "h1" torrent t)
    as [Hrevived _].
  - reflexivity.
  - apply NoDup_singleton.
  - apply list_elem_of_here.
  - apply list_elem_of_here.
  - reflexivity.
  - exact Hrun.
  - exact Hrevived.
Defined.

Lemma reconciliation_frame_witness :
  let cfg0 :=
    HNRConfig.mk true false NotifyMode.NONE "qb" "H&R" [1%Z] 5 100 14 7
      (fun _ => SiteConfig.mk false 5 (Some 100%Q) 14 (Some 0%Q)) in
  let other :=
    TorrentTask.mk 1 "A" "other" "" 0 0 "h2" TaskType.NORMAL true
      HNRStatus.IN_PROGRESS 5 (Some 100%Q) 14 (Some 0.1%Q) 0 0
      (Some 3600%Q) false None None in
  let torrent :=
    Torrent.mk "h1" [] (Some "title") None None (Some 0.1%Q) None None
      (Some 3600%Q) 1 "A" in
  match __update_seeding_tasks_based_on_tags cfg0
          (Some (ServiceInfo.mk "qb" true)) (fun _ => 50%Q)
          (<["h2" := other]> ∅) ∅ [("h1", torrent)] with
  | Some sync => tasks sync !! "h2" = Some other
  | None => False
  end.
Proof.
  intros cfg0 other torrent.
  destruct (__update_seeding_tasks_based_on_tags cfg0 _ _ _ _ _) as [sync|]
    eqn:Hrun; [|vm_compute in Hrun; discriminate].
  rewrite (reconciliation_frame cfg0 (Some (ServiceInfo.mk "qb" true))
             (fun _ => 50%Q) (<["h2" := other]> ∅) ∅ [("h1", torrent)] sync
             "h2").
  - reflexivity.
  - apply NoDup_singleton.
  - cbn. intros Hin. apply list_elem_of_singleton in Hin. discriminate.
  - exact Hrun.
Defined.

Lemma reconciliation_raises_iff_witness :
  let cfg0 :=
    HNRConfig.mk true false NotifyMode.NONE "qb" "H&R" [1%Z] 5 100 14 7
      (fun _ => SiteConfig.mk false 5 (Some 100%Q) 14 (Some 0%Q)) in
  let stray :=
    Torrent.mk "h0" ["H&R"] (Some "stray") None None None None None None 0 "" in
  __update_seeding_tasks_based_on_tags cfg0 (Some (ServiceInfo.mk "qb" true))
    (fun _ => 50%Q) ∅ ∅ [("h0", stray)]
  = None.
Proof.
  intros cfg0 stray.
  apply (reconciliation_raises_iff cfg0 (Some (ServiceInfo.mk "qb" true))
           (fun _ => 50%Q) ∅ ∅ [("h0", stray)]).
  - reflexivity.
  - apply NoDup_singleton.
  - exists "h0", stray. split; [apply list_elem_of_here|].
    split; [apply list_elem_of_here|]. split; reflexivity.
Defined.

Lemma reconciliation_saves_iff_changed_witness :
  let cfg0 :=
    HNRConfig.mk true false NotifyMode.NONE "qb" "H&R" [1%Z] 5 100 14 7
      (fun _ => SiteConfig.mk false 5 (Some 100%Q) 14 (Some 0%Q)) in
  let t :=
    TorrentTask.mk 1 "A" "title" "" 0 0 "h1" TaskType.NORMAL true
      HNRStatus.IN_PROGRESS 5 (Some 100%Q) 14 (Some 0.1%Q) 0 0
      (Some 3600%Q) false None None in
  let torrent :=
    Torrent.mk "h1" [] (Some "title") None None (Some 0.1%Q) None None
      (Some 3600%Q) 1 "A" in
  match __update_seeding_tasks_based_on_tags cfg0
          (Some (ServiceInfo.mk "qb" true)) (fun _ => 50%Q) (<["h1" := t]> ∅)
          ∅ [("h1", torrent)] with
  | Some sync => is_modified sync = false <-> tasks sync = <["h1" := t]> ∅
  | None => False
  end.
Proof.
  intros cfg0 t torrent.
  destruct (__update_seeding_tasks_based_on_tags cfg0 _ _ _ _ _) as [sync|]
    eqn:Hrun; [|vm_compute in Hrun; discriminate].
  apply (reconciliation_saves_iff_changed cfg0
           (Some (ServiceInfo.mk "qb" true)) (fun _ => 50%Q)
           (<["h1" := t]> ∅) ∅ [("h1", torrent)] sync).
  - apply NoDup_singleton.
  - exact Hrun.
Defined.

Lemma check_keeps_settled_status_witness :
  let cfg0 :=
    HNRConfig.mk true false NotifyMode.NONE "qb" "H&R" [1%Z] 5 100 14 7
      (fun _ => SiteConfig.mk false 5 (Some 100%Q) 14 (Some 0%Q)) in
  let t :=
    TorrentTask.mk 1 "A" "title" "" 0 0 "h1" TaskType.NORMAL true
      HNRStatus.OVERDUE 5 (Some 100%Q) 14 (Some 0.1%Q) 0 0
      (Some 3600%Q) false None None in
  let torrent :=
    Torrent.mk "h1" ["H&R"] (Some "title") None None (Some 9%Q) None None
      (Some 3600%Q) 1 "A" in
  let clock := mkClock (fun _ => 50%Q) (fun _ => 50%Q) (fun _ => 50%Q) 50 in
  let p := mkPlugin (<["h1" := t]> ∅) ∅ (Downloader.mk [torrent] false) [] in
  match data_torrents
          (state_after (check cfg0 (Some (ServiceInfo.mk "qb" true)) clock p))
        !! "h1" with
  | Some t' =>
      TorrentTask.hr_status t' = HNRStatus.OVERDUE
      /\ TorrentTask.hr_met_time t' = None
  | None => False
  end.
Proof.
  intros cfg0 t torrent clock p.
  destruct (data_torrents (state_after (check cfg0 _ clock p)) !! "h1")
    as [t'|] eqn:Hafter; [|vm_compute in Hafter; discriminate].
  apply (check_keeps_settled_status cfg0 (Some (ServiceInfo.mk "qb" true))
           clock p "h1" t t').
  - reflexivity.
  - discriminate.
  - exact Hafter.
Defined.

Lemma check_revives_reappeared_torrent_witness :
  let cfg0 :=
    HNRConfig.mk true false NotifyMode.NONE "qb" "H&R" [1%Z] 5 100 14 7
      (fun _ => SiteConfig.mk false 5 (Some 100%Q) 14 (Some 0%Q)) in
  let t :=
    TorrentTask.mk 1 "A" "title" "" 0 0 "h1" TaskType.NORMAL true
      HNRStatus.IN_PROGRESS 5 (Some 100%Q) 14 (Some 0.1%Q) 0 0
      (Some 3600%Q) true (Some 40%Q) None in
  let torrent :=
    Torrent.mk "h1" ["H&R"] (Some "title") None None (Some 0.1%Q) None None
      (Some 3600%Q) 1 "A" in
  let clock := mkClock (fun _ => 50%Q) (fun _ => 50%Q) (fun _ => 50%Q) 50 in
  let p := mkPlugin (<["h1" := t]> ∅) ∅ (Downloader.mk [torrent] false) [] in
  match check cfg0 (Some (ServiceInfo.mk "qb" true)) clock p with
  | Returned p' =>
      match data_torrents p' !! "h1" with
      | Some t' => TorrentTask.deleted t' = false
      | None => False
      end
  | Raised _ => False
  end.
Proof.
  intros cfg0 t torrent clock p.
  destruct (check cfg0 _ clock p) as [p'|p'] eqn:Hcheck;
    [|vm_compute in Hcheck; discriminate].
  destruct (data_torrents p' !! "h1") as [t'|] eqn:Hafter.
  - destruct (check_revives_reappeared_torrent cfg0 (ServiceInfo.mk "qb" true)
                clock p p' "h1" torrent t t') as [Hdel _].
    + reflexivity.
    + reflexivity.
    + reflexivity.
    + apply list_elem_of_here.
    + exact Hcheck.
    + exact Hafter.
    + exact Hdel.
  - vm_compute in Hcheck. injection Hcheck as <-. vm_compute in Hafter.
    discriminate.
Defined.

Lemma silent_mode_posts_nothing_witness :
  let cfg0 :=
    HNRConfig.mk true false NotifyMode.NONE "qb" "H&R" [1%Z] 5 100 14 7
      (fun _ => SiteConfig.mk false 5 (Some 100%Q) 14 (Some 0%Q)) in
  let t :=
    TorrentTask.mk 1 "A" "title" "" 0 0 "h1" TaskType.NORMAL true
      HNRStatus.IN_PROGRESS 5 (Some 100%Q) 14 (Some 9%Q) 0 0
      (Some 3600%Q) false None None in
  let torrent :=
    Torrent.mk "h1" ["H&R"] (Some "title") None None (Some 9%Q) None None
      (Some 3600%Q) 1 "A" in
  let clock := mkClock (fun _ => 50%Q) (fun _ => 50%Q) (fun _ => 50%Q) 50 in
  let iclock := mkIngestClock 100 101 102 in
  let data := TorrentInfo.mk 1 "A" "title" "" 10 true in
  let p := mkPlugin (<["h1" := t]> ∅) ∅ (Downloader.mk [torrent] false) [] in
  outbox (state_after (check cfg0 (Some (ServiceInfo.mk "qb" true)) clock p))
  = []
  /\ outbox (state_after
               (__process_event cfg0 iclock "h1" (Some data) TaskType.NORMAL
                  p))
     = [].
Proof.
  intros cfg0 t torrent clock iclock data p.
  apply (silent_mode_posts_nothing cfg0).
  reflexivity.
Defined.

Lemma tag_add_remove_round_trip_witness :
  let cfg0 :=
    HNRConfig.mk true false NotifyMode.NONE "qb" "H&R" [1%Z] 5 100 14 7
      (fun _ => SiteConfig.mk false 5 (Some 100%Q) 14 (Some 0%Q)) in
  let t :=
    TorrentTask.mk 1 "A" "title" "" 0 0 "h1" TaskType.NORMAL true
      HNRStatus.IN_PROGRESS 5 (Some 100%Q) 14 (Some 0.1%Q) 0 0
      (Some 3600%Q) false None None in
  let torrent :=
    Torrent.mk "h1" ["other"] (Some "title") None None (Some 0.1%Q) None None
      (Some 3600%Q) 1 "A" in
  let d := Downloader.mk [torrent] false in
  __remove_hit_and_run_tag cfg0 t (__set_hit_and_run_tag cfg0 t d) = d.
Proof.
  intros cfg0 t torrent d.
  apply (tag_add_remove_round_trip cfg0 t d torrent).
  - discriminate.
  - reflexivity.
  - apply NoDup_singleton.
  - apply list_elem_of_here.
  - reflexivity.
  - cbn. intros Htag. apply list_elem_of_singleton in Htag. discriminate.
  - reflexivity.
Defined.

Lemma ingestion_replaces_task_witness :
  let cfg0 :=
    HNRConfig.mk true false NotifyMode.NONE "qb" "H&R" [1%Z] 5 100 14 7
      (fun _ => SiteConfig.mk false 5 (Some 100%Q) 14 (Some 0%Q)) in
  let t :=
    TorrentTask.mk 1 "A" "title" "" 0 0 "h1" TaskType.NORMAL true
      HNRStatus.COMPLIANT 5 (Some 100%Q) 14 (Some 9%Q) 0 0
      (Some 3600%Q) false None (Some 40%Q) in
  let torrent :=
    Torrent.mk "h1" [] (Some "title") None None (Some 9%Q) None None
      (Some 3600%Q) 1 "A" in
  let iclock := mkIngestClock 100 101 102 in
  let data := TorrentInfo.mk 1 "A" "title" "" 10 true in
  let p := mkPlugin (<["h1" := t]> ∅) ∅ (Downloader.mk [torrent] false) [] in
  exists t',
    data_torrents (state_after
                     (__process_event cfg0 iclock "h1" (Some data)
                        TaskType.NORMAL p)) !! "h1" = Some t'
    /\ TorrentTask.hr_status t' = HNRStatus.IN_PROGRESS
    /\ TorrentTask.hr_met_time t' = None.
Proof.
  intros cfg0 t torrent iclock data p.
  assert (Hhash : "h1" <> "") by discriminate.
  assert (Hclient : Downloader.get_torrents "h1" (client p) <> [])
    by discriminate.
  assert (Hsite : TorrentInfo.site data ∈ HNRConfig.sites cfg0)
    by apply list_elem_of_here.
  assert (Hhr : TorrentInfo.hit_and_run data = true
                \/ SiteConfig.hr_active
                     (__get_site_config cfg0 (TorrentInfo.site_name data))
                   = true)
    by (left; reflexivity).
  pose proof (ingestion_replaces_task cfg0 iclock "h1" data TaskType.NORMAL p
                Hhash Hclient Hsite Hhr) as Hnew.
  cbn zeta in Hnew.
  destruct Hnew as [(t' & Ht' & _ & Hst & _ & _ & _ & _ & _ & Hmet & _) _].
  exists t'. split; [exact Ht'|]. split; [exact Hst|exact Hmet].
Defined.

Lemma init_plugin_valid_witness :
  let indexers := [(1%Z, false); (2%Z, true)] in
  let site_configs := fun _ : string =>
    SiteConfig.mk false 5 (Some 100%Q) 14 (Some 0%Q) in
  let config :=
    ConfigDict.mk true true NotifyMode.ALWAYS "qb" "H&R" [1%Z; 2%Z]
      (Some 5%Q) (Some 100%Q) (Some 14%Q) (Some 7%Q) site_configs in
  let rt := mkRuntime None None [] false in
  exists rt' runtime,
    init_plugin indexers (Some config) rt = Some rt'
    /\ _hnr_config rt' = Some runtime
    /\ HNRConfig.onlyonce runtime = false
    /\ run_once_scheduled rt' = true
    /\ alerts rt' = [].
Proof.
  intros indexers site_configs config rt.
  destruct (init_plugin_valid indexers config
              (HNRConfig.mk true true NotifyMode.ALWAYS "qb" "H&R" [1%Z; 2%Z]
                 5 100 14 7 site_configs) rt)
    as (rt' & runtime & Hinit & Hrun & _ & Honce & _ & _ & Hjob & Halerts).
  - reflexivity.
  - reflexivity.
  - exists rt', runtime. split; [exact Hinit|]. split; [exact Hrun|].
    split; [exact Honce|]. split; [exact Hjob|exact Halerts].
Defined.

Lemma validated_sites_are_private_witness :
  let indexers := [(1%Z, false); (2%Z, true)] in
  let site_configs := fun _ : string =>
    SiteConfig.mk false 5 (Some 100%Q) 14 (Some 0%Q) in
  let config :=
    ConfigDict.mk true false NotifyMode.ALWAYS "qb" "H&R" [1%Z; 2%Z]
      (Some 5%Q) (Some 100%Q) (Some 14%Q) (Some 7%Q) site_configs in
  let hnr_config :=
    HNRConfig.mk true false NotifyMode.ALWAYS "qb" "H&R" [1%Z] 5 100 14 7
      site_configs in
  HNRConfig.sites hnr_config = [1%Z]
  /\ (1%Z ∈ HNRConfig.sites hnr_config ->
      1%Z ∈ ConfigDict.sites config /\ (1%Z, false) ∈ indexers)
  /\ (1%Z ∈ ConfigDict.sites config ->
      1%Z ∈ indexers.*1 ->
      (forall public, (1%Z, public) ∈ indexers -> public = false) ->
      1%Z ∈ HNRConfig.sites hnr_config).
Proof.
  intros indexers site_configs config hnr_config.
  split; [reflexivity|].
  apply (validated_sites_are_private indexers config None hnr_config "" 1%Z).
  reflexivity.
Defined.

Lemma invalid_config_stops_engine_witness :
  let indexers := [(1%Z, false)] in
  let site_configs := fun _ : string =>
    SiteConfig.mk false 5 (Some 100%Q) 14 (Some 0%Q) in
  let config :=
    ConfigDict.mk true false NotifyMode.ALWAYS "" "H&R" [1%Z]
      (Some 5%Q) (Some 100%Q) (Some 14%Q) (Some 7%Q) site_configs in
  let get_service := fun _ : string => Some (ServiceInfo.mk "qb" true) in
  let is_inactive := fun _ : ServiceInfo.t => false in
  let t :=
    TorrentTask.mk 1 "A" "title" "" 0 0 "h1" TaskType.NORMAL true
      HNRStatus.IN_PROGRESS 5 (Some 100%Q) 14 (Some 0.1%Q) 0 0
      (Some 3600%Q) false None None in
  let clock := mkClock (fun _ => 50%Q) (fun _ => 50%Q) (fun _ => 50%Q) 50 in
  let iclock := mkIngestClock 100 101 102 in
  let event :=
    Event.mk "" "h2" (Some (TorrentInfo.mk 1 "A" "title" "" 10 true)) None
      "qb" in
  let p := mkPlugin (<["h1" := t]> ∅) ∅ (Downloader.mk [] false) [] in
  match init_plugin indexers (Some config) (mkRuntime None None [] false) with
  | Some rt' =>
      get_state rt' = false
      /\ check_method get_service is_inactive rt' clock p = Returned p
      /\ download_added_method get_service is_inactive rt' iclock (Some event)
           p = Returned p
  | None => False
  end.
Proof.
  intros indexers site_configs config get_service is_inactive t clock iclock
    event p.
  destruct (init_plugin indexers (Some config) _) as [rt'|] eqn:Hinit;
    [|vm_compute in Hinit; discriminate].
  apply (invalid_config_stops_engine indexers get_service is_inactive config
           (HNRConfig.mk true false NotifyMode.ALWAYS "" "H&R" [1%Z]
              5 100 14 7 site_configs)
           (mkRuntime None None [] false) rt' clock iclock (Some event) p).
  - reflexivity.
  - reflexivity.
  - exact Hinit.
Defined.

Lemma malformed_config_handled_witness :
  let indexers := [(1%Z, false)] in
  let config :=
    ConfigDict.mk true false NotifyMode.ALWAYS "qb" "H&R" [1%Z]
      None (Some 100%Q) (Some 14%Q) (Some 7%Q)
      (fun _ => SiteConfig.mk false 5 (Some 100%Q) 14 (Some 0%Q)) in
  exists rt' saved,
    init_plugin indexers (Some config) (mkRuntime None None [] false)
    = Some rt'
    /\ _hnr_config rt' = None
    /\ saved_config rt' = Some saved
    /\ ConfigDict.enabled saved = false
    /\ ConfigDict.onlyonce saved = false
    /\ ConfigDict.downloader saved = "qb"
    /\ alerts rt' = [SystemMessage "H&R助手"].
Proof.
  intros indexers config.
  assert (Hparse : parse_obj config = None) by reflexivity.
  destruct (malformed_config_handled indexers config
              (mkRuntime None None [] false) Hparse)
    as (rt' & saved & Hinit & Hnone & Hsaved & He & Ho & Hsame & Hon & _).
  exists rt', saved. split; [exact Hinit|]. split; [exact Hnone|].
  split; [exact Hsaved|]. split; [exact He|]. split; [exact Ho|].
  split; [apply Hsame|]. exact (Hon eq_refl).
Defined.

